(** * ShivAI Atlas: the command orchestration pipeline

    A shallow embedding of the planner ([atlas_planner_agent.py]), the
    executor ([atlas_executor_agent.py]) and the permission manager
    ([atlas_permissions.py]), with the properties the specification states
    about them.

    Conventions of the model:
    - a Python [str] is a [string] holding its UTF-8 bytes. The patterns of
      the source name ASCII characters and whole literal words only, so a
      match on bytes is a match on code points; case and white space are
      those of ASCII (Devanagari has neither);
    - a Python [dict] is an association list in insertion order (the order
      [str(dict)] prints);
    - [int] is [Z], the confidence scores are rationals, times are
      milliseconds in [Z];
    - the files and the database table behind the permission manager and
      the usage recorder are the lists of the records written to them,
      oldest first, and a write to them succeeds;
    - the diagnostic [logger.info]/[warning]/[error] calls are not modelled. *)

From Stdlib Require Import ZArith QArith Bool List String Ascii Lia.
From Stdlib Require Import Numbers.DecimalString.
From stdpp Require Import base list strings sorting.
Import ListNotations.

Open Scope string_scope.
Open Scope Z_scope.
Open Scope list_scope.

(** ** Python values *)

Module Py.

Inductive value : Type :=
| VNone
| VBool (b : bool)
| VInt (z : Z)
| VStr (s : string).

(** Insertion-ordered dictionary with string keys. *)
Definition dict : Type := list (string * value).

Fixpoint get (d : dict) (k : string) : option value :=
  match d with
  | [] => None
  | (k', v) :: d' => if String.eqb k' k then Some v else get d' k
  end.

(** [d.get(k, default)] *)
Definition get_default (d : dict) (k : string) (default : value) : value :=
  match get d k with
  | Some v => v
  | None => default
  end.

(** Truth value of an object, as [if x:] and [not x] test it. *)
Definition truthy (v : value) : bool :=
  match v with
  | VNone => false
  | VBool b => b
  | VInt z => negb (z =? 0)
  | VStr s => negb (String.eqb s "")
  end.

(** [str(n)] for an integer. *)
Definition str_int (z : Z) : string := NilZero.string_of_int (Z.to_int z).

Definition hex_digit (n : N) : ascii :=
  match n with
  | 0%N => "0" | 1%N => "1" | 2%N => "2" | 3%N => "3" | 4%N => "4"
  | 5%N => "5" | 6%N => "6" | 7%N => "7" | 8%N => "8" | 9%N => "9"
  | 10%N => "a" | 11%N => "b" | 12%N => "c" | 13%N => "d" | 14%N => "e"
  | _ => "f"
  end%char.

Fixpoint contains_char (c : ascii) (s : string) : bool :=
  match s with
  | EmptyString => false
  | String c' s' => Ascii.eqb c c' || contains_char c s'
  end.

(** The quote [repr] puts around a string: double quotes only when the
    string holds a single quote and no double quote. *)
Definition repr_quote (s : string) : ascii :=
  if contains_char "'" s && negb (contains_char "034" s) then "034"%char
  else "'"%char.

Definition repr_char (q c : ascii) : string :=
  let n := N_of_ascii c in
  if Ascii.eqb c q || Ascii.eqb c "\" then String "\" (String c "")
  else if (n =? 9)%N then "\t"
  else if (n =? 10)%N then "\n"
  else if (n =? 13)%N then "\r"
  else if (n <? 32)%N || (n =? 127)%N then
    String "\" (String "x" (String (hex_digit (n / 16)) (String (hex_digit (n mod 16)) "")))
  else String c "".

Fixpoint repr_body (q : ascii) (s : string) : string :=
  match s with
  | EmptyString => ""
  | String c s' => repr_char q c +:+ repr_body q s'
  end.

(** [repr(s)] for a string; bytes above 127 belong to printable characters
    and are copied. *)
Definition repr_str (s : string) : string :=
  let q := repr_quote s in
  String q (repr_body q s +:+ String q "").

Definition repr (v : value) : string :=
  match v with
  | VNone => "None"
  | VBool true => "True"
  | VBool false => "False"
  | VInt z => str_int z
  | VStr s => repr_str s
  end.

Fixpoint repr_items (d : dict) : string :=
  match d with
  | [] => ""
  | [(k, v)] => repr_str k +:+ ": " +:+ repr v
  | (k, v) :: d' => repr_str k +:+ ": " +:+ repr v +:+ ", " +:+ repr_items d'
  end.

(** [str(d)] for a dictionary. *)
Definition str_dict (d : dict) : string := "{" +:+ repr_items d +:+ "}".

(** A value inside an f-string: a string is inserted as it is, anything
    else by [str]. *)
Definition format (v : value) : string :=
  match v with
  | VStr s => s
  | _ => repr v
  end.

End Py.


(** ** Permission manager ([atlas_permissions.py], [atlas_config.py]) *)

Module Permissions.

Inductive PermissionType : Type :=
| FILES
| KEYBOARD_MOUSE
| SCREEN_CAPTURE
| ANDROID
| ENTERCHAT
| NETWORK
| AI_REMOTE.

#[global] Instance PermissionType_eq_dec : EqDecision PermissionType.
Proof. solve_decision. Defined.

(** The [.value] of each enumeration member. *)
Definition PermissionType_value (p : PermissionType) : string :=
  match p with
  | FILES => "files"
  | KEYBOARD_MOUSE => "keyboard_mouse"
  | SCREEN_CAPTURE => "screen_capture"
  | ANDROID => "android"
  | ENTERCHAT => "enterchat"
  | NETWORK => "network"
  | AI_REMOTE => "ai_remote"
  end.

Inductive RiskLevel : Type :=
| LOW
| MEDIUM
| HIGH
| CRITICAL.

Definition RiskLevel_value (r : RiskLevel) : string :=
  match r with
  | LOW => "low"
  | MEDIUM => "medium"
  | HIGH => "high"
  | CRITICAL => "critical"
  end.

(** [PermissionsConfig] of [atlas_config.py]: seven enabling flags, and an
    "ask every time" flag for five of the seven categories only. *)
Record PermissionsConfig : Type := mkPermissionsConfig {
  can_access_files : bool;
  can_control_keyboard_mouse : bool;
  can_capture_screen : bool;
  can_control_android : bool;
  can_control_enterchat : bool;
  can_use_network : bool;
  can_use_ai_remote : bool;
  ask_every_time_files : bool;
  ask_every_time_keyboard : bool;
  ask_every_time_screen : bool;
  ask_every_time_android : bool;
  ask_every_time_enterchat : bool
}.

(** The dataclass defaults: everything disabled, always ask. *)
Definition default_permissions : PermissionsConfig :=
  mkPermissionsConfig false false false false false false false
                      true true true true true.

Record PermissionRequest : Type := mkPermissionRequest {
  req_permission_type : PermissionType;
  req_action : string;
  req_description : string;
  req_risk_level : RiskLevel;
  req_params : Py.dict;
  req_timestamp : Z
}.

Record AuditLogEntry : Type := mkAuditLogEntry {
  audit_timestamp : Z;
  audit_action : string;
  audit_permission_type : string;
  audit_risk_level : string;
  audit_status : string;
  audit_details : Py.dict;
  audit_agent : string
}.

(** The manager's list of pending requests, with the two files it writes:
    [pending_requests.json], rewritten whole by every save, and
    [audit_log.jsonl], appended to. *)
Record PermissionManager : Type := mkPermissionManager {
  pending_requests : list PermissionRequest;
  pending_requests_file : list PermissionRequest;
  audit_log : list AuditLogEntry
}.

(** [m.get(k, False)] on a dictionary keyed by permission types. *)
Fixpoint flag_get (m : list (PermissionType * bool)) (k : PermissionType) : bool :=
  match m with
  | [] => false
  | (k', b) :: m' => if decide (k' = k) then b else flag_get m' k
  end.

Definition permission_map (c : PermissionsConfig) : list (PermissionType * bool) :=
  [ (FILES, can_access_files c);
    (KEYBOARD_MOUSE, can_control_keyboard_mouse c);
    (SCREEN_CAPTURE, can_capture_screen c);
    (ANDROID, can_control_android c);
    (ENTERCHAT, can_control_enterchat c);
    (NETWORK, can_use_network c);
    (AI_REMOTE, can_use_ai_remote c) ].

Definition ask_every_time_map (c : PermissionsConfig) : list (PermissionType * bool) :=
  [ (FILES, ask_every_time_files c);
    (KEYBOARD_MOUSE, ask_every_time_keyboard c);
    (SCREEN_CAPTURE, ask_every_time_screen c);
    (ANDROID, ask_every_time_android c);
    (ENTERCHAT, ask_every_time_enterchat c) ].

Fixpoint str_get (m : list (string * string)) (k : string) : option string :=
  match m with
  | [] => None
  | (k', v) :: m' => if String.eqb k' k then Some v else str_get m' k
  end.

Definition _save_pending_requests (pm : PermissionManager) : PermissionManager :=
  {| pending_requests := pending_requests pm;
     pending_requests_file := pending_requests pm;
     audit_log := audit_log pm |}.

Definition _log_audit (now : Z) (action permission_type risk_level status : string)
    (details : Py.dict) (agent : string) (pm : PermissionManager) : PermissionManager :=
  let entry := mkAuditLogEntry now action permission_type risk_level status details agent in
  {| pending_requests := pending_requests pm;
     pending_requests_file := pending_requests_file pm;
     audit_log := audit_log pm ++ [entry] |}.

Definition _get_action_description (action : string) (params : Py.dict) : string :=
  let field k := Py.format (Py.get_default params k (Py.VStr "unknown")) in
  let descriptions :=
    [ ("delete_file", "Delete file: " +:+ field "path");
      ("create_file", "Create file: " +:+ field "path");
      ("execute_command", "Execute: " +:+ field "command");
      ("take_screenshot", "Capture screen screenshot");
      ("control_mouse", "Control mouse movements");
      ("control_keyboard", "Type text: " +:+ field "text");
      ("adb_command", "Android command: " +:+ field "command");
      ("send_message", "Send message via EnterChat to " +:+ field "recipient");
      ("network_request", "Make network request to " +:+ field "url") ] in
  match str_get descriptions action with
  | Some d => d
  | None => "Action: " +:+ action
  end.

Definition disabled_reason (permission_type : PermissionType) : string :=
  "Permission " +:+ PermissionType_value permission_type
    +:+ " is disabled. Enable it in Settings.".

Definition confirmation_reason : string :=
  "User confirmation required. Check pending requests.".

(** [check_permission]; [now] is what [datetime.now()] returns during the
    call, [params] is [None] when the caller leaves it out. *)
Definition check_permission (config : PermissionsConfig) (now : Z)
    (permission_type : PermissionType) (action : string) (risk_level : RiskLevel)
    (params : option Py.dict) (pm : PermissionManager)
    : (bool * option string) * PermissionManager :=
  let params := match params with Some d => d | None => [] end in
  if negb (flag_get (permission_map config) permission_type) then
    let reason := disabled_reason permission_type in
    ((false, Some reason),
     _log_audit now action (PermissionType_value permission_type)
       (RiskLevel_value risk_level) "denied" [("reason", Py.VStr reason)] "system" pm)
  else if flag_get (ask_every_time_map config) permission_type then
    let request :=
      mkPermissionRequest permission_type action
        (_get_action_description action params) risk_level params now in
    let pm1 :=
      {| pending_requests := pending_requests pm ++ [request];
         pending_requests_file := pending_requests_file pm;
         audit_log := audit_log pm |} in
    ((false, Some confirmation_reason), _save_pending_requests pm1)
  else
    ((true, None),
     _log_audit now action (PermissionType_value permission_type)
       (RiskLevel_value risk_level) "granted" params "system" pm).

(** [approve_request]; [list.pop(i)] is [delete i] once the guard has put
    the index in range ([IndexError] would be caught and give [False]). *)
Definition approve_request (now : Z) (request_index : Z) (pm : PermissionManager)
    : bool * PermissionManager :=
  if (0 <=? request_index) && (request_index <? Z.of_nat (length (pending_requests pm))) then
    match pending_requests pm !! Z.to_nat request_index with
    | Some request =>
        let pm1 :=
          {| pending_requests := delete (Z.to_nat request_index) (pending_requests pm);
             pending_requests_file := pending_requests_file pm;
             audit_log := audit_log pm |} in
        let pm2 := _save_pending_requests pm1 in
        (true,
         _log_audit now (req_action request)
           (PermissionType_value (req_permission_type request))
           (RiskLevel_value (req_risk_level request)) "approved" (req_params request)
           "user" pm2)
    | None => (false, pm)
    end
  else (false, pm).

(** [deny_request]: the same with the status [denied_by_user]. *)
Definition deny_request (now : Z) (request_index : Z) (pm : PermissionManager)
    : bool * PermissionManager :=
  if (0 <=? request_index) && (request_index <? Z.of_nat (length (pending_requests pm))) then
    match pending_requests pm !! Z.to_nat request_index with
    | Some request =>
        let pm1 :=
          {| pending_requests := delete (Z.to_nat request_index) (pending_requests pm);
             pending_requests_file := pending_requests_file pm;
             audit_log := audit_log pm |} in
        let pm2 := _save_pending_requests pm1 in
        (true,
         _log_audit now (req_action request)
           (PermissionType_value (req_permission_type request))
           (RiskLevel_value (req_risk_level request)) "denied_by_user" (req_params request)
           "user" pm2)
    | None => (false, pm)
    end
  else (false, pm).

End Permissions.

(** ** Strings and regular expressions

    The part of [str] and of the [re] module the planner uses. *)

Module Str.

Definition is_upper (c : ascii) : bool :=
  let n := N_of_ascii c in (65 <=? n)%N && (n <=? 90)%N.

Definition lower_char (c : ascii) : ascii :=
  if is_upper c then ascii_of_N (N_of_ascii c + 32) else c.

(** [s.lower()]; only the ASCII letters have a case here. *)
Fixpoint lower (s : string) : string :=
  match s with
  | EmptyString => EmptyString
  | String c s' => String (lower_char c) (lower s')
  end.

Fixpoint starts_with (p s : string) : bool :=
  match p, s with
  | EmptyString, _ => true
  | String a p', String b s' => Ascii.eqb a b && starts_with p' s'
  | String _ _, EmptyString => false
  end.

(** [sub in s] *)
Fixpoint contains (sub s : string) : bool :=
  starts_with sub s ||
  match s with
  | EmptyString => false
  | String _ s' => contains sub s'
  end.

(** White space of [str.strip()] and of [\s], within ASCII. *)
Definition is_space (c : ascii) : bool :=
  let n := N_of_ascii c in
  ((9 <=? n)%N && (n <=? 13)%N) || ((28 <=? n)%N && (n <=? 32)%N).

Definition is_digit (c : ascii) : bool :=
  let n := N_of_ascii c in (48 <=? n)%N && (n <=? 57)%N.

Definition is_alpha (c : ascii) : bool :=
  let n := N_of_ascii c in
  ((65 <=? n)%N && (n <=? 90)%N) || ((97 <=? n)%N && (n <=? 122)%N).

Fixpoint lstrip (s : string) : string :=
  match s with
  | EmptyString => EmptyString
  | String c s' => if is_space c then lstrip s' else s
  end.

Fixpoint rstrip (s : string) : string :=
  match s with
  | EmptyString => EmptyString
  | String c s' =>
      match rstrip s' with
      | EmptyString => if is_space c then EmptyString else String c EmptyString
      | t => String c t
      end
  end.

Definition strip (s : string) : string := rstrip (lstrip s).

End Str.

Module Re.

Inductive regex : Type :=
| Eps
| Chr (p : ascii -> bool)
| Cat (r1 r2 : regex)
| Alt (r1 r2 : regex)
| Star (r : regex)
| Group (n : nat) (r : regex).

(** The text of the numbered groups, the latest first. *)
Definition captures : Type := list (nat * string).

Fixpoint group (c : captures) (n : nat) : option string :=
  match c with
  | [] => None
  | (m, s) :: c' => if Nat.eqb m n then Some s else group c' n
  end.

(** What was read between [s] and its suffix [s']. *)
Definition consumed (s s' : string) : string :=
  String.substring 0 (String.length s - String.length s') s.

(** Backtracking matcher at the head of [s], in continuation style:
    alternatives are tried left to right and a star takes as many rounds as
    it can before giving one back, as the [re] module does. A round of a
    star has to read something, so [String.length s] rounds are all there
    can be. *)
Fixpoint run {A : Type} (r : regex) (s : string) (c : captures)
    (k : string -> captures -> option A) : option A :=
  match r with
  | Eps => k s c
  | Chr p =>
      match s with
      | String a s' => if p a then k s' c else None
      | EmptyString => None
      end
  | Cat r1 r2 => run r1 s c (fun s' c' => run r2 s' c' k)
  | Alt r1 r2 =>
      match run r1 s c k with
      | Some x => Some x
      | None => run r2 s c k
      end
  | Star r1 =>
      (fix rounds (n : nat) (s : string) (c : captures) {struct n} : option A :=
         match n with
         | O => k s c
         | S n' =>
             match run r1 s c (fun s' c' =>
                     if (String.length s' <? String.length s)%nat
                     then rounds n' s' c' else None) with
             | Some x => Some x
             | None => k s c
             end
         end) (String.length s) s c
  | Group n r1 => run r1 s c (fun s' c' => k s' ((n, consumed s s') :: c'))
  end.

Record matched : Type := mkMatched {
  m_start : nat;          (* offset of the match *)
  m_text : string;        (* group 0 *)
  m_groups : captures;
  m_rest : string         (* what follows the match *)
}.

Fixpoint search_from (r : regex) (pos : nat) (s : string) : option matched :=
  match run r s [] (fun s' c => Some (s', c)) with
  | Some (s', c) => Some (mkMatched pos (consumed s s') c s')
  | None =>
      match s with
      | EmptyString => None
      | String _ s' => search_from r (S pos) s'
      end
  end.

(** [re.search(r, s)]: the leftmost match. *)
Definition search (r : regex) (s : string) : option matched := search_from r 0 s.

Definition found (r : regex) (s : string) : bool :=
  match search r s with Some _ => true | None => false end.

(** [re.findall(r, s)] for a group-free [r] that matches no empty string:
    the successive matches, each search starting where the last match ended. *)
Fixpoint findall_fuel (fuel : nat) (r : regex) (s : string) : list string :=
  match fuel with
  | O => []
  | S fuel' =>
      match search r s with
      | Some m => m_text m :: findall_fuel fuel' r (m_rest m)
      | None => []
      end
  end.

Definition findall (r : regex) (s : string) : list string :=
  findall_fuel (S (String.length s)) r s.

(** *** Pattern syntax *)

Definition char (a : ascii) : regex := Chr (Ascii.eqb a).

(** A character under [re.IGNORECASE]. *)
Definition char_i (a : ascii) : regex :=
  Chr (fun b => Ascii.eqb (Str.lower_char a) (Str.lower_char b)).

Fixpoint lit (w : string) : regex :=
  match w with
  | EmptyString => Eps
  | String a w' => Cat (char a) (lit w')
  end.

Fixpoint lit_i (w : string) : regex :=
  match w with
  | EmptyString => Eps
  | String a w' => Cat (char_i a) (lit_i w')
  end.

(** [r1|r2|...] *)
Fixpoint alts (rs : list regex) : regex :=
  match rs with
  | [] => Chr (fun _ => false)
  | [r] => r
  | r :: rs' => Alt r (alts rs')
  end.

(** [.]: anything but a newline. *)
Definition dot : regex := Chr (fun a => negb (Ascii.eqb a "010")).
Definition plus (r : regex) : regex := Cat r (Star r).
Definition opt (r : regex) : regex := Alt r Eps.

(** The two character classes of the patterns: a single or double quote,
    and anything else. *)
Definition is_quote (a : ascii) : bool := Ascii.eqb a "034" || Ascii.eqb a "'".
Definition quote : regex := Chr is_quote.
Definition not_quote : regex := Chr (fun a => negb (is_quote a)).
Definition space : regex := Chr Str.is_space.
Definition digit : regex := Chr Str.is_digit.

(** [(w1|w2|...).*(v1|v2|...)]: the shape of every intent pattern. *)
Definition then_ (first second : list string) : regex :=
  Cat (Group 1 (alts (map lit first)))
      (Cat (Star dot) (Group 2 (alts (map lit second)))).

End Re.

(** ** Planner agent ([atlas_planner_agent.py]) *)

Module Planner.

Record PlanStep : Type := mkPlanStep {
  tool : string;
  action : string;
  params : Py.dict;
  description : string
}.

Record ExecutionPlan : Type := mkExecutionPlan {
  intent : string;
  steps : list PlanStep;
  confidence : Q;
  requires_confirmation : bool
}.

(** [_load_intent_patterns]: the intents in the order of the dictionary,
    each with its patterns and their confidence. *)
Definition _load_intent_patterns : list (string * list (Re.regex * Q)) :=
  [
    ("create_file",
     [ (Re.then_ ["file"; "फ़ाइल"] ["banao"; "create"; "बनाओ"], 0.9%Q);
       (Re.then_ ["naya"; "नया"] ["file"; "फ़ाइल"], 0.85%Q) ]);
    ("delete_file",
     [ (Re.then_ ["file"; "फ़ाइल"] ["delete"; "हटा"; "मिटा"], 0.9%Q);
       (Re.then_ ["remove"; "हटाओ"] ["file"; "फ़ाइल"], 0.85%Q) ]);
    ("organize_desktop",
     [ (Re.then_ ["desktop"; "डेस्कटॉप"] ["organize"; "साफ"; "clean"], 0.9%Q);
       (Re.then_ ["desktop"; "डेस्कटॉप"] ["arrange"; "व्यवस्थित"], 0.85%Q) ]);
    ("open_app",
     [ (Re.then_ ["open"; "खोल"] ["app"; "application"; "एप"], 0.9%Q);
       (Re.then_ ["start"; "चला"; "run"] ["notepad"; "calculator"; "chrome"], 0.85%Q) ]);
    ("close_app",
     [ (Re.then_ ["close"; "बंद"; "band"] ["app"; "application"], 0.9%Q) ]);
    ("screenshot",
     [ (Re.then_ ["screenshot"; "स्क्रीनशॉट"] ["le"; "ले"; "take"], 0.9%Q);
       (Re.then_ ["screen"; "स्क्रीन"] ["capture"; "पकड़"], 0.85%Q) ]);
    ("volume_control",
     [ (Re.then_ ["volume"; "आवाज़"] ["up"; "down"; "mute"; "बढ़ा"; "घटा"], 0.9%Q) ]);
    ("shutdown",
     [ (Re.then_ ["shutdown"; "बंद करो"; "band karo"] ["computer"; "pc"], 0.95%Q);
       (Re.then_ ["computer"; "pc"; "system"] ["off"; "बंद"], 0.9%Q) ]);
    ("unlock_phone",
     [ (Re.then_ ["phone"; "फोन"] ["unlock"; "खोल"], 0.9%Q);
       (Re.then_ ["unlock"; "अनलॉक"] ["phone"; "फोन"], 0.9%Q) ]);
    ("open_android_app",
     [ (Re.then_ ["phone"; "फोन"] ["whatsapp"; "telegram"; "youtube"], 0.9%Q);
       (Re.then_ ["android"; "एंड्रॉइड"] ["open"; "खोल"], 0.85%Q) ]);
    ("android_screenshot",
     [ (Re.then_ ["phone"; "फोन"] ["screenshot"; "स्क्रीनशॉट"], 0.9%Q) ]);
    ("send_whatsapp",
     [ (Re.then_ ["whatsapp"; "व्हाट्सएप"] ["send"; "भेज"; "message"], 0.9%Q);
       (Re.then_ ["message"; "संदेश"] ["whatsapp"; "व्हाट्सएप"], 0.85%Q) ]);
    ("send_telegram",
     [ (Re.then_ ["telegram"; "टेलीग्राम"] ["send"; "भेज"; "message"], 0.9%Q) ]);
    ("check_messages",
     [ (Re.then_ ["check"; "देख"] ["messages"; "संदेश"], 0.85%Q);
       (Re.then_ ["unread"; "नए"] ["messages"; "संदेश"], 0.85%Q) ]);
    ("morning_routine",
     [ (Re.then_ ["morning"; "सुबह"] ["routine"; "दिनचर्या"], 0.9%Q) ]);
    ("backup_workflow",
     [ (Re.then_ ["backup"; "बैकअप"] ["create"; "बना"; "take"], 0.9%Q) ]);
    ("create_app",
     [ (Re.then_ ["app"; "एप"] ["banao"; "create"; "बनाओ"], 0.85%Q);
       (Re.then_ ["todo"; "calculator"; "notes"] ["app"; "एप"], 0.9%Q) ]);
    ("system_info",
     [ (Re.then_ ["system"; "सिस्टम"] ["info"; "जानकारी"], 0.9%Q);
       (Re.then_ ["computer"; "कंप्यूटर"] ["status"; "स्थिति"], 0.85%Q) ]) ].

(** The entities dictionary: its keys are these five, a missing key is
    [None]. *)
Record Entities : Type := mkEntities {
  app_name : option string;
  path : option string;
  contact_name : option string;
  message_text : option string;
  numbers : option (list string)
}.

Definition no_entities : Entities := mkEntities None None None None None.

Definition apps : list string :=
  [ "notepad"; "calculator"; "chrome"; "firefox"; "word"; "excel";
    "whatsapp"; "telegram"; "youtube"; "camera" ].

(** The path pattern: a quote, one or more characters that are no quotes
    (group 1), a quote. *)
Definition path_pattern : Re.regex :=
  Re.Cat Re.quote (Re.Cat (Re.Group 1 (Re.plus Re.not_quote)) Re.quote).

(** The name pattern [(?:to|ko|को)\s+([A-Za-z\s]+)], with [re.IGNORECASE]. *)
Definition name_pattern : Re.regex :=
  Re.Cat (Re.alts [Re.lit_i "to"; Re.lit_i "ko"; Re.lit_i "को"])
    (Re.Cat (Re.plus Re.space)
       (Re.Group 1 (Re.plus (Re.Chr (fun a => Str.is_alpha a || Str.is_space a))))).

(** The message pattern, with [re.IGNORECASE]: one of [bolo|भेज|send],
    white space, an optional quote, one or more characters that are no
    quotes (group 1), an optional quote. *)
Definition msg_pattern : Re.regex :=
  Re.Cat (Re.alts [Re.lit_i "bolo"; Re.lit_i "भेज"; Re.lit_i "send"])
    (Re.Cat (Re.plus Re.space)
       (Re.Cat (Re.opt Re.quote)
          (Re.Cat (Re.Group 1 (Re.plus Re.not_quote)) (Re.opt Re.quote)))).

(** [\d+] *)
Definition number_pattern : Re.regex := Re.plus Re.digit.

(** [match.group(1)] of a search, when it matched. *)
Definition search_group1 (r : Re.regex) (s : string) : option string :=
  match Re.search r s with
  | Some m => Re.group (Re.m_groups m) 1
  | None => None
  end.

Definition _extract_entities (command intent : string) : Entities :=
  let command_lower := Str.lower command in
  (* the last application of the list that the command names *)
  let e_app :=
    fold_left (fun found app => if Str.contains app command_lower then Some app else found)
              apps None in
  let e_path := search_group1 path_pattern command in
  let e_contact :=
    if Str.contains "whatsapp" intent || Str.contains "telegram" intent then
      match search_group1 name_pattern command with
      | Some g => Some (Str.strip g)
      | None => None
      end
    else None in
  let e_message :=
    if Str.contains "send" intent || Str.contains "message" intent then
      match search_group1 msg_pattern command with
      | Some g => Some (Str.strip g)
      | None => None
      end
    else None in
  let e_numbers :=
    match Re.findall number_pattern command with
    | [] => None
    | ns => Some ns
    end in
  mkEntities e_app e_path e_contact e_message e_numbers.

(** One pattern of the inner loop of [parse_intent]. *)
Definition try_pattern (command command_lower intent : string)
    (best : string * Q * Entities) (pattern_info : Re.regex * Q) : string * Q * Entities :=
  let '(best_intent, best_confidence, entities) := best in
  let '(pattern, base_confidence) := pattern_info in
  if Re.found pattern command_lower then
    if negb (Qle_bool base_confidence best_confidence) then
      (intent, base_confidence, _extract_entities command intent)
    else best
  else best.

Definition parse_intent (command : string) : string * Q * Entities :=
  let command_lower := Str.lower command in
  fold_left
    (fun best '(intent, patterns) =>
       fold_left (try_pattern command command_lower intent) patterns best)
    _load_intent_patterns
    ("unknown", 0%Q, no_entities).

Definition or_default (o : option string) (d : string) : string :=
  match o with Some s => s | None => d end.

Definition nonempty (s : string) : bool := negb (String.eqb s "").

(** The branch of [create_plan] for [intent]: the steps built and the
    confirmation flag. *)
Definition build_steps (command intent : string) (entities : Entities)
    : list PlanStep * bool :=
  if String.eqb intent "create_file" then
    let path := or_default (path entities) "new_file.txt" in
    ([mkPlanStep "file_actions" "create_file"
        [("path", Py.VStr path); ("content", Py.VStr "")]
        ("Create file: " +:+ path)], false)
  else if String.eqb intent "delete_file" then
    match path entities with
    | Some path =>
        ([mkPlanStep "file_actions" "delete_file" [("path", Py.VStr path)]
            ("Delete file: " +:+ path)], true)
    | None => ([], false)
    end
  else if String.eqb intent "organize_desktop" then
    ([mkPlanStep "file_actions" "organize_desktop" []
        "Organize desktop files into folders"], false)
  else if String.eqb intent "open_app" then
    let app_name := or_default (app_name entities) "notepad" in
    ([mkPlanStep "pc_actions" "open_app" [("app_name", Py.VStr app_name)]
        ("Open application: " +:+ app_name)], false)
  else if String.eqb intent "close_app" then
    let app_name := or_default (app_name entities) "" in
    if nonempty app_name then
      ([mkPlanStep "pc_actions" "close_app" [("process_name", Py.VStr app_name)]
          ("Close application: " +:+ app_name)], false)
    else ([], false)
  else if String.eqb intent "screenshot" then
    ([mkPlanStep "pc_actions" "take_screenshot" [] "Take screenshot"], false)
  else if String.eqb intent "volume_control" then
    let action_type :=
      if Str.contains "up" (Str.lower command) || Str.contains "बढ़ा" command then "up"
      else if Str.contains "down" (Str.lower command) || Str.contains "घटा" command then "down"
      else "mute" in
    ([mkPlanStep "pc_actions" "control_volume" [("action", Py.VStr action_type)]
        ("Volume " +:+ action_type)], false)
  else if String.eqb intent "shutdown" then
    ([mkPlanStep "pc_actions" "shutdown_system"
        [("mode", Py.VStr "shutdown"); ("delay", Py.VInt 60)]
        "Shutdown system in 60 seconds"], true)
  else if String.eqb intent "unlock_phone" then
    ([mkPlanStep "android_bridge" "unlock_phone" [] "Unlock Android phone"], false)
  else if String.eqb intent "open_android_app" then
    let app_name := or_default (app_name entities) "whatsapp" in
    ([mkPlanStep "android_bridge" "open_app" [("package_name", Py.VStr app_name)]
        ("Open " +:+ app_name +:+ " on Android")], false)
  else if String.eqb intent "android_screenshot" then
    ([mkPlanStep "android_bridge" "take_screenshot" [] "Take Android screenshot"], false)
  else if String.eqb intent "send_whatsapp" then
    let contact := or_default (contact_name entities) "" in
    let message := or_default (message_text entities) "" in
    if nonempty contact && nonempty message then
      ([mkPlanStep "enterchat_connector" "send_whatsapp_message"
          [("contact_name", Py.VStr contact); ("message", Py.VStr message)]
          ("Send WhatsApp to " +:+ contact)], false)
    else ([], false)
  else if String.eqb intent "send_telegram" then
    let chat := or_default (contact_name entities) "" in
    let message := or_default (message_text entities) "" in
    if nonempty chat && nonempty message then
      ([mkPlanStep "enterchat_connector" "send_telegram_message"
          [("chat_name", Py.VStr chat); ("message", Py.VStr message)]
          ("Send Telegram to " +:+ chat)], false)
    else ([], false)
  else if String.eqb intent "check_messages" then
    ([mkPlanStep "enterchat_connector" "get_unread_count" [] "Check unread messages"], false)
  else if String.eqb intent "system_info" then
    ([mkPlanStep "pc_actions" "get_system_info" [] "Get system information"], false)
  else if String.eqb intent "morning_routine" then
    ([mkPlanStep "workflow_engine" "execute_workflow"
        [("workflow_name", Py.VStr "morning_routine")]
        "Execute morning routine workflow"], false)
  else if String.eqb intent "backup_workflow" then
    ([mkPlanStep "workflow_engine" "execute_workflow"
        [("workflow_name", Py.VStr "backup_workflow")]
        "Execute backup workflow"], false)
  else if String.eqb intent "create_app" then
    let app_type :=
      if Str.contains "calculator" (Str.lower command) then "calculator"
      else if Str.contains "notes" (Str.lower command) then "notes"
      else "todo" in
    ([mkPlanStep "app_builder" "create_app" [("app_type", Py.VStr app_type)]
        ("Create " +:+ app_type +:+ " application")], false)
  else ([], false).

Definition unknown_step (command : string) : PlanStep :=
  mkPlanStep "unknown" "unknown" [("command", Py.VStr command)]
    ("Unknown command: " +:+ command).

Definition create_plan (command : string) : ExecutionPlan :=
  let '(intent, confidence, entities) := parse_intent command in
  let '(steps, requires_confirmation) := build_steps command intent entities in
  let steps := match steps with [] => [unknown_step command] | _ => steps end in
  mkExecutionPlan intent steps confidence requires_confirmation.

(** The key [optimize_plan] files a step under: the tool, the action and
    [str(step.params)], joined by dots. *)
Definition step_key (step : PlanStep) : string :=
  tool step +:+ "." +:+ action step +:+ "." +:+ Py.str_dict (params step).

(** The loop of [optimize_plan]: [seen] holds the keys met so far. *)
Fixpoint optimize_loop (seen : list string) (steps : list PlanStep) : list PlanStep :=
  match steps with
  | [] => []
  | step :: rest =>
      let key := step_key step in
      if decide (key ∈ seen) then optimize_loop seen rest
      else step :: optimize_loop (key :: seen) rest
  end.

Definition optimize_plan (plan : ExecutionPlan) : ExecutionPlan :=
  mkExecutionPlan (intent plan) (optimize_loop [] (steps plan))
    (confidence plan) (requires_confirmation plan).

End Planner.

(** ** Executor agent ([atlas_executor_agent.py]) *)

Module Executor.
Import Planner.

(** A row of the [usage_stats] table ([MemoryAgent.log_usage]). *)
Record UsageRecord : Type := mkUsageRecord {
  usage_command : string;
  usage_agent : string;
  usage_success : bool;
  usage_duration_ms : Z;
  usage_metadata : Py.dict
}.

(** One entry of [step_results]. *)
Record StepResult : Type := mkStepResult {
  sr_step_number : Z;
  sr_description : string;
  sr_tool : string;
  sr_action : string;
  sr_result : Py.dict;
  sr_duration_ms : Z;
  sr_success : Py.value
}.

Record ExecutionResult : Type := mkExecutionResult {
  success : bool;
  plan : ExecutionPlan;
  step_results : list StepResult;
  total_duration_ms : Z;
  message : string
}.

(** One entry of the [steps] list of a dry run. *)
Record StepSummary : Type := mkStepSummary {
  ss_step_number : Z;
  ss_description : string;
  ss_tool : string;
  ss_action : string;
  ss_params : Py.dict;
  ss_estimated_duration : string
}.

(** The dictionary [dry_run] returns. *)
Record DryRun : Type := mkDryRun {
  dr_success : bool;
  dr_mode : string;
  dr_total_steps : Z;
  dr_steps : list StepSummary;
  dr_requires_confirmation : bool;
  dr_estimated_total_duration : string
}.

(** What calling a tool's method comes to: the dictionary it returns, or
    the exception it raises. *)
Inductive outcome : Type :=
| Returned (result : Py.dict)
| Raised (error : string).

Section WithTools.

(** The state of whatever the tools act on (files, devices, chats). *)
Context {W : Type}.

(** Everything a call can read or change: the clock ([time.time()], in
    milliseconds), the permission manager, the usage table, the two log
    files of [atlas_logger] and the outside world. *)
Record System : Type := mkSystem {
  clock : Z;
  permission_manager : Permissions.PermissionManager;
  usage_stats : list UsageRecord;
  agents_log : list string;
  automation_log : list string;
  world : W
}.

(** A method of a tool, called with the step's parameters as keyword
    arguments; it may change anything in the system. *)
Definition Handler : Type := Py.dict -> System -> outcome * System.

(** A tool object: the method each attribute name gives, if any. *)
Definition Tool : Type := string -> option Handler.

(** [ExecutorAgent]: its [tool_map], where a name can be bound to [None]. *)
Record ExecutorAgent : Type := mkExecutorAgent {
  tool_map : list (string * option Tool)
}.

Fixpoint tool_get (m : list (string * option Tool)) (name : string) : option Tool :=
  match m with
  | [] => None
  | (name', t) :: m' => if String.eqb name' name then t else tool_get m' name
  end.

Definition set_clock (t : Z) (s : System) : System :=
  mkSystem t (permission_manager s) (usage_stats s) (agents_log s)
           (automation_log s) (world s).

(** [time.sleep(0.1)] *)
Definition sleep_100ms (s : System) : System := set_clock (clock s + 100) s.

(** [atlas_logger.log_agent_action] *)
Definition log_agent_action (agent_name action : string) (details : Py.dict)
    (s : System) : System :=
  mkSystem (clock s) (permission_manager s) (usage_stats s)
    (agents_log s ++ [agent_name +:+ " - " +:+ action +:+ " - " +:+ Py.str_dict details])
    (automation_log s) (world s).

(** [atlas_logger.log_automation] *)
Definition log_automation (tool action result : string) (params : Py.dict)
    (s : System) : System :=
  let msg := "Tool: " +:+ tool +:+ " | Action: " +:+ action +:+ " | Result: " +:+ result in
  let msg :=
    match params with
    | [] => msg
    | _ => msg +:+ " | Params: " +:+ Py.str_dict params
    end in
  mkSystem (clock s) (permission_manager s) (usage_stats s) (agents_log s)
    (automation_log s ++ [msg]) (world s).

(** [memory_agent.log_usage] *)
Definition log_usage (command agent : string) (success : bool) (duration_ms : Z)
    (metadata : Py.dict) (s : System) : System :=
  mkSystem (clock s) (permission_manager s)
    (usage_stats s ++ [mkUsageRecord command agent success duration_ms metadata])
    (agents_log s) (automation_log s) (world s).

Definition failure (message : string) : Py.dict :=
  [("success", Py.VBool false); ("message", Py.VStr message)].

Definition _execute_step (self : ExecutorAgent) (step : PlanStep) (s : System)
    : Py.dict * System :=
  match tool_get (tool_map self) (tool step) with
  | None => (failure ("Tool not found: " +:+ tool step), s)
  | Some t =>
      match t (action step) with
      | None =>
          (failure ("Action not found: " +:+ action step +:+ " in " +:+ tool step), s)
      | Some action_method =>
          match action_method (params step) s with
          | (Returned result, s') => (result, s')
          | (Raised e, s') => (failure ("Execution error: " +:+ e), s')
          end
      end
  end.

Definition critical_actions : list string :=
  [ "delete_file"; "delete_folder"; "shutdown_system"; "reboot" ].

Definition _is_critical_step (step : PlanStep) : bool :=
  bool_decide (action step ∈ critical_actions).

(** [result.get("success", False)] *)
Definition result_success (result : Py.dict) : Py.value :=
  Py.get_default result "success" (Py.VBool false).

(** The loop of [execute_plan] from the step of index [i] on: [rest] are
    the steps still to run; it returns [step_results] and
    [overall_success]. Leaving the recursion is the [break]. *)
Fixpoint execute_steps (self : ExecutorAgent) (i : nat)
    (rest : list PlanStep) (step_results : list StepResult) (overall_success : bool)
    (s : System) : list StepResult * bool * System :=
  match rest with
  | [] => (step_results, overall_success, s)
  | step :: rest' =>
      let step_start := clock s in
      let s1 :=
        log_agent_action "ExecutorAgent"
          ("Executing step " +:+ Py.str_int (Z.of_nat i + 1))
          [("tool", Py.VStr (tool step)); ("action", Py.VStr (action step))] s in
      let '(result, s2) := _execute_step self step s1 in
      let step_duration := clock s2 - step_start in
      let step_results' :=
        step_results ++
          [mkStepResult (Z.of_nat i + 1) (description step) (tool step) (action step)
             result step_duration (result_success result)] in
      let ok := Py.truthy (result_success result) in
      let s3 :=
        log_automation (tool step) (action step)
          (if ok then "success" else "failed") (params step) s2 in
      if negb ok then
        if _is_critical_step step then (step_results', false, s3)
        else execute_steps self (S i) rest' step_results' false (sleep_100ms s3)
      else execute_steps self (S i) rest' step_results' overall_success (sleep_100ms s3)
  end.

Definition failed_count (step_results : list StepResult) : nat :=
  length (filter (fun r => Py.truthy (sr_success r) = false) step_results).

Definition execute_plan (self : ExecutorAgent) (plan : ExecutionPlan) (s : System)
    : ExecutionResult * System :=
  let start_time := clock s in
  let '(step_results, overall_success, s1) :=
    execute_steps self 0 (steps plan) [] true s in
  let total_duration := clock s1 - start_time in
  let message :=
    if overall_success then
      "Successfully executed " +:+ Py.str_int (Z.of_nat (length step_results)) +:+ " steps"
    else
      "Execution completed with " +:+ Py.str_int (Z.of_nat (failed_count step_results))
        +:+ " failures" in
  let execution_result :=
    mkExecutionResult overall_success plan step_results total_duration message in
  let s2 :=
    log_usage (intent plan) "ExecutorAgent" overall_success total_duration
      [("steps", Py.VInt (Z.of_nat (length step_results)))] s1 in
  (execution_result, s2).

Definition execute_single_action (self : ExecutorAgent) (tool action : string)
    (params : Py.dict) (s : System) : Py.dict * System :=
  _execute_step self (mkPlanStep tool action params (tool +:+ "." +:+ action)) s.

(** The loop of [dry_run] from the step of index [i] on. *)
Fixpoint summarize_steps (i : nat) (rest : list PlanStep) : list StepSummary :=
  match rest with
  | [] => []
  | step :: rest' =>
      mkStepSummary (Z.of_nat i + 1) (description step) (tool step) (action step)
        (params step) "~500ms" :: summarize_steps (S i) rest'
  end.

Definition dry_run (self : ExecutorAgent) (plan : ExecutionPlan) (s : System)
    : DryRun * System :=
  (mkDryRun true "dry_run" (Z.of_nat (length (steps plan)))
     (summarize_steps 0 (steps plan)) (requires_confirmation plan)
     ("~" +:+ Py.str_int (Z.of_nat (length (steps plan)) * 500) +:+ "ms"),
   s).

End WithTools.

Arguments System : clear implicits.
Arguments Handler : clear implicits.
Arguments Tool : clear implicits.
Arguments ExecutorAgent : clear implicits.

End Executor.

(** ** Vocabulary of the specification *)

Module Spec.
Import Permissions Planner Executor.

(** The enabling flag of a category in the configuration. *)
Definition category_enabled (c : PermissionsConfig) (p : PermissionType) : bool :=
  match p with
  | FILES => can_access_files c
  | KEYBOARD_MOUSE => can_control_keyboard_mouse c
  | SCREEN_CAPTURE => can_capture_screen c
  | ANDROID => can_control_android c
  | ENTERCHAT => can_control_enterchat c
  | NETWORK => can_use_network c
  | AI_REMOTE => can_use_ai_remote c
  end.

(** The "ask every time" flag of a category, when the configuration has
    one. *)
Definition ask_flag (c : PermissionsConfig) (p : PermissionType) : option bool :=
  match p with
  | FILES => Some (ask_every_time_files c)
  | KEYBOARD_MOUSE => Some (ask_every_time_keyboard c)
  | SCREEN_CAPTURE => Some (ask_every_time_screen c)
  | ANDROID => Some (ask_every_time_android c)
  | ENTERCHAT => Some (ask_every_time_enterchat c)
  | NETWORK | AI_REMOTE => None
  end.

(** The flag is there and set. *)
Definition asks_every_time (c : PermissionsConfig) (p : PermissionType) : bool :=
  match ask_flag c p with
  | Some b => b
  | None => false
  end.

(** [l'] is [l] without its entry at position [i]: one shorter, the same
    before [i], shifted down by one from [i] on. *)
Definition removed_at {A : Type} (i : nat) (l l' : list A) : Prop :=
  S (length l') = length l /\
  (forall j, (j < i)%nat -> l' !! j = l !! j) /\
  (forall j, (i <= j)%nat -> l' !! j = l !! S j).

(** The audit log grew by exactly one entry, with this status. *)
Definition one_audit_entry (status : string) (pm pm' : PermissionManager)
    (e : AuditLogEntry) : Prop :=
  audit_log pm' = audit_log pm ++ [e] /\ audit_status e = status.

(** The index is one of a list of [n] entries. *)
Definition valid_index (i : Z) (n : nat) : Prop := 0 <= i < Z.of_nat n.

(** What a successful [approve_request] or [deny_request] at index [i] has
    done: [True] is returned, the queue lost exactly its entry at [i] and
    was saved, and the audit log gained one entry with this status, of
    agent [user], for the request that was removed. *)
Definition resolves (status : string) (i : Z) (pm : PermissionManager)
    (out : bool * PermissionManager) : Prop :=
  fst out = true /\
  removed_at (Z.to_nat i) (pending_requests pm) (pending_requests (snd out)) /\
  pending_requests_file (snd out) = pending_requests (snd out) /\
  exists request e,
    pending_requests pm !! Z.to_nat i = Some request /\
    one_audit_entry status pm (snd out) e /\
    audit_agent e = "user" /\
    audit_action e = req_action request.

(** Some pattern of the table is found in the lower-cased command. *)
Definition matches_a_pattern (command : string) : bool :=
  existsb
    (fun entry : string * list (Re.regex * Q) =>
       existsb (fun pattern_info : Re.regex * Q =>
                  Re.found (fst pattern_info) (Str.lower command))
               (snd entry))
    _load_intent_patterns.

(** What identifies a step: tool, action and parameters. *)
Definition triple (step : PlanStep) : string * string * Py.dict :=
  (tool step, action step, params step).

(** The same with the parameters as [str] prints them. *)
Definition printed_triple (step : PlanStep) : string * string * string :=
  (tool step, action step, Py.str_dict (params step)).

Definition dot_free (s : string) : Prop := Py.contains_char "." s = false.

(** The positions [ks] of [l] are in increasing order and hold the
    elements of [l'], one after the other. *)
Definition selects {A : Type} (ks : list nat) (l l' : list A) : Prop :=
  StronglySorted lt ks /\ Forall2 (fun k x => l !! k = Some x) ks l'.

Definition step_failed (r : StepResult) : Prop := Py.truthy (sr_success r) = false.

(** The entry of [step_results] was made for this step of the plan. *)
Definition result_of (step : PlanStep) (r : StepResult) : Prop :=
  sr_tool r = tool step /\ sr_action r = action step /\
  sr_description r = description step.

(** No method of any tool of the executor writes to the usage table. *)
Definition handlers_keep_usage {W : Type} (self : ExecutorAgent W) : Prop :=
  forall name t method_name (h : Handler W) kwargs s,
    tool_get (tool_map self) name = Some t ->
    t method_name = Some h ->
    usage_stats (snd (h kwargs s)) = usage_stats s.

(** The double quote character. *)
Definition dq : string := String "034" EmptyString.

(** The command [delete file "test.txt"], quotes included. *)
Definition delete_command : string := "delete file " +:+ dq +:+ "test.txt" +:+ dq.

(** The command [remove file "test.txt"], quotes included. *)
Definition remove_command : string := "remove file " +:+ dq +:+ "test.txt" +:+ dq.

(** An executor whose four tools have no method and whose two late tools
    are not set, over a world with nothing in it. *)
Definition bare_tool : Tool unit := fun _ => None.

Definition bare_agent : ExecutorAgent unit :=
  mkExecutorAgent
    [ ("pc_actions", Some bare_tool); ("file_actions", Some bare_tool);
      ("android_bridge", Some bare_tool); ("enterchat_connector", Some bare_tool);
      ("workflow_engine", None); ("app_builder", None) ].

(** A small executor for examples: taking a screenshot works, deleting a
    file is refused. *)
Definition demo_pc_actions : Tool unit := fun name =>
  if String.eqb name "take_screenshot" then
    Some (fun _ s => (Returned [("success", Py.VBool true); ("message", Py.VStr "saved")], s))
  else None.

Definition demo_file_actions : Tool unit := fun name =>
  if String.eqb name "delete_file" then
    Some (fun _ s => (Returned [("success", Py.VBool false);
                                ("message", Py.VStr "Permission denied")], s))
  else None.

Definition demo_agent : ExecutorAgent unit :=
  mkExecutorAgent
    [ ("pc_actions", Some demo_pc_actions); ("file_actions", Some demo_file_actions);
      ("workflow_engine", None); ("app_builder", None) ].

Definition shot_step : PlanStep :=
  mkPlanStep "pc_actions" "take_screenshot" [] "Take screenshot".

Definition delete_step : PlanStep :=
  mkPlanStep "file_actions" "delete_file" [("path", Py.VStr "a.txt")] "Delete file: a.txt".

Definition demo_plan : ExecutionPlan :=
  mkExecutionPlan "workflow_demo" [shot_step; delete_step; shot_step] 1%Q false.

Definition empty_manager : PermissionManager := mkPermissionManager [] [] [].

Definition initial_system : System unit := mkSystem 0 empty_manager [] [] [] tt.







(** Tool, action and printed parameters joined by dots: the text
    [optimize_plan] compares. *)
Definition dotted (t : string * string * string) : string :=
  t.1.1 +:+ "." +:+ t.1.2 +:+ "." +:+ t.2.





End Spec.

(** ** The rest of the permission manager ([atlas_permissions.py]) *)

Module Gate.
Import Permissions.

(** [PermissionType(v)]: the member of this value; [None] stands for the
    [ValueError] of an unknown value. *)
Definition PermissionType_of_value (v : string) : option PermissionType :=
  if String.eqb v "files" then Some FILES
  else if String.eqb v "keyboard_mouse" then Some KEYBOARD_MOUSE
  else if String.eqb v "screen_capture" then Some SCREEN_CAPTURE
  else if String.eqb v "android" then Some ANDROID
  else if String.eqb v "enterchat" then Some ENTERCHAT
  else if String.eqb v "network" then Some NETWORK
  else if String.eqb v "ai_remote" then Some AI_REMOTE
  else None.

(** [RiskLevel(v)] *)
Definition RiskLevel_of_value (v : string) : option RiskLevel :=
  if String.eqb v "low" then Some LOW
  else if String.eqb v "medium" then Some MEDIUM
  else if String.eqb v "high" then Some HIGH
  else if String.eqb v "critical" then Some CRITICAL
  else None.

(** What [PermissionRequest.to_dict] returns and the JSON file holds per
    request: the two enumerations by value; the time stands for its ISO
    text. *)
Record RequestDict : Type := mkRequestDict {
  d_permission_type : string;
  d_action : string;
  d_description : string;
  d_risk_level : string;
  d_params : Py.dict;
  d_timestamp : Z
}.

Definition to_dict (r : PermissionRequest) : RequestDict :=
  mkRequestDict (PermissionType_value (req_permission_type r)) (req_action r)
    (req_description r) (RiskLevel_value (req_risk_level r)) (req_params r)
    (req_timestamp r).

(** One [PermissionRequest(...)] of the list comprehension of
    [_load_pending_requests]; [None] when an enumeration raises. *)
Definition of_dict (d : RequestDict) : option PermissionRequest :=
  match PermissionType_of_value (d_permission_type d) with
  | None => None
  | Some permission_type =>
      match RiskLevel_of_value (d_risk_level d) with
      | None => None
      | Some risk_level =>
          Some (mkPermissionRequest permission_type (d_action d) (d_description d)
                  risk_level (d_params d) (d_timestamp d))
      end
  end.

(** The whole comprehension: one bad entry and the exception leaves it. *)
Fixpoint of_dicts (data : list RequestDict) : option (list PermissionRequest) :=
  match data with
  | [] => Some []
  | d :: data' =>
      match of_dict d with
      | None => None
      | Some r =>
          match of_dicts data' with
          | None => None
          | Some rs => Some (r :: rs)
          end
      end
  end.


(** [_load_pending_requests]; [file] is the parsed content of
    [pending_requests.json], [None] when the file does not exist. An
    exception is caught and leaves the list as it was. *)
Definition _load_pending_requests (file : option (list RequestDict))
    (pm : PermissionManager) : PermissionManager :=
  match file with
  | None => pm
  | Some data =>
      match of_dicts data with
      | Some requests =>
          {| pending_requests := requests;
             pending_requests_file := pending_requests_file pm;
             audit_log := audit_log pm |}
      | None => pm
      end
  end.

(** [PermissionManager()]: an empty list, then the load. *)
Definition init (file : option (list RequestDict)) (pm0 : PermissionManager)
    : PermissionManager :=
  _load_pending_requests file
    {| pending_requests := [];
       pending_requests_file := pending_requests_file pm0;
       audit_log := audit_log pm0 |}.

Definition get_pending_requests (pm : PermissionManager) : list RequestDict :=
  to_dict <$> pending_requests pm.

(** The slice [l[start:]]. *)
Definition slice_from {A : Type} (start : Z) (l : list A) : list A :=
  let n := Z.of_nat (length l) in
  let i := if start <? 0 then Z.max 0 (n + start) else Z.min start n in
  drop (Z.to_nat i) l.

Definition type_matches (permission_type : option string) (entry : AuditLogEntry) : bool :=
  match permission_type with
  | None => true
  | Some p => String.eqb (audit_permission_type entry) p
  end.

(** [get_audit_log]: the matching lines of the file, the slice
    [logs[-limit:]], reversed. *)
Definition get_audit_log (limit : Z) (permission_type : option string)
    (pm : PermissionManager) : list AuditLogEntry :=
  let logs := List.filter (type_matches permission_type) (audit_log pm) in
  reverse (slice_from (- limit) logs).

(** A call of one of the three operations that change the manager. *)
Inductive call : Type :=
| Check (now : Z) (permission_type : PermissionType) (action : string)
        (risk_level : RiskLevel) (params : option Py.dict)
| Approve (now : Z) (request_index : Z)
| Deny (now : Z) (request_index : Z).

Definition run_call (config : PermissionsConfig) (pm : PermissionManager) (c : call)
    : PermissionManager :=
  match c with
  | Check now permission_type action risk_level params =>
      (check_permission config now permission_type action risk_level params pm).2
  | Approve now request_index => (approve_request now request_index pm).2
  | Deny now request_index => (deny_request now request_index pm).2
  end.

(** Any number of calls, one after the other. *)
Definition run_calls (config : PermissionsConfig) (cs : list call)
    (pm : PermissionManager) : PermissionManager :=
  fold_left (run_call config) cs pm.

(** The four statuses of an audit entry, each with the agent that writes
    it. *)
Definition known_entry (e : AuditLogEntry) : Prop :=
  (audit_status e = "granted" /\ audit_agent e = "system") \/
  (audit_status e = "denied" /\ audit_agent e = "system") \/
  (audit_status e = "approved" /\ audit_agent e = "user") \/
  (audit_status e = "denied_by_user" /\ audit_agent e = "user").

End Gate.

(** ** More vocabulary *)

Module Spec2.
Import Permissions Planner Executor Spec.

(** What resolving the request that a check has just queued comes to:
    [True] is returned, the queue is the one before the check, and the audit
    log of before has one more entry, with this status, for the action, the
    category and the parameters of that check. *)
Definition resolves_check (status action : string) (permission_type : PermissionType)
    (params : option Py.dict) (before : PermissionManager)
    (out : bool * PermissionManager) : Prop :=
  out.1 = true /\
  pending_requests out.2 = pending_requests before /\
  exists e,
    audit_log out.2 = audit_log before ++ [e] /\
    audit_status e = status /\
    audit_action e = action /\
    audit_permission_type e = PermissionType_value permission_type /\
    audit_details e = match params with Some d => d | None => [] end.

(** The file holds the queue. *)
Definition in_sync (pm : PermissionManager) : Prop :=
  pending_requests_file pm = pending_requests pm.

(** The JSON content of the file. *)
Definition file_content (pm : PermissionManager) : option (list Gate.RequestDict) :=
  Some (Gate.to_dict <$> pending_requests_file pm).

End Spec2.

(** ** Vocabulary for the planner *)

Module PlanSpec.
Import Planner.

(** The patterns found in the lower-cased command, in the order of the
    table, each as its intent and its confidence. *)
Definition hits (command : string) : list (string * Q) :=
  flat_map
    (fun entry : string * list (Re.regex * Q) =>
       map (fun pattern_info : Re.regex * Q => (fst entry, snd pattern_info))
           (List.filter
              (fun pattern_info : Re.regex * Q =>
                 Re.found (fst pattern_info) (Str.lower command))
              (snd entry)))
    _load_intent_patterns.

(** The hit at position [k] wins: no hit has a higher confidence and no
    earlier hit has the same. *)
Definition wins (h : list (string * Q)) (k : nat) (intent : string) (confidence : Q)
    : Prop :=
  h !! k = Some (intent, confidence) /\
  (forall j i c, h !! j = Some (i, c) -> (c <= confidence)%Q) /\
  (forall j i c, (j < k)%nat -> h !! j = Some (i, c) -> (c < confidence)%Q).

End PlanSpec.

(** ** The rest of the executor agent, and two of its tools *)

Module Tools.
Import Permissions Planner Executor.

Section WithWorld.

Context {W : Type}.

(** The assignment [m[name] = v] on the tool map: in place when the name
    is bound, at the end otherwise. *)
Fixpoint tool_set (m : list (string * option (Tool W))) (name : string)
    (v : option (Tool W)) : list (string * option (Tool W)) :=
  match m with
  | [] => [(name, v)]
  | (name', t) :: m' =>
      if String.eqb name' name then (name', v) :: m'
      else (name', t) :: tool_set m' name v
  end.

(** [ExecutorAgent()]: the four automation modules, and the two tools that
    are set later. *)
Definition new_agent (pc_actions file_actions android_bridge enterchat_connector : Tool W)
    : ExecutorAgent W :=
  mkExecutorAgent
    [ ("pc_actions", Some pc_actions);
      ("file_actions", Some file_actions);
      ("android_bridge", Some android_bridge);
      ("enterchat_connector", Some enterchat_connector);
      ("workflow_engine", None);
      ("app_builder", None) ].

Definition set_workflow_engine (self : ExecutorAgent W) (workflow_engine : option (Tool W))
    : ExecutorAgent W :=
  mkExecutorAgent (tool_set (tool_map self) "workflow_engine" workflow_engine).

Definition set_app_builder (self : ExecutorAgent W) (app_builder : option (Tool W))
    : ExecutorAgent W :=
  mkExecutorAgent (tool_set (tool_map self) "app_builder" app_builder).

Definition set_permission_manager (pm : PermissionManager) (s : System W) : System W :=
  mkSystem (clock s) pm (usage_stats s) (agents_log s) (automation_log s) (world s).

Definition set_world (w : W) (s : System W) : System W :=
  mkSystem (clock s) (permission_manager s) (usage_stats s) (agents_log s)
           (automation_log s) w.

(** What a call into the operating system comes to: the new state of the
    world, or the text of the exception. *)
Inductive os_result : Type :=
| Done (w : W)
| Failed (error : string).

(** The permissions of [config], [os.remove], [os.system], the platform
    name and the text of the [TypeError] of a call whose keyword arguments do
    not fit the signature. *)
Variable config : PermissionsConfig.
Variable os_remove : Py.value -> W -> os_result.
Variable os_system : string -> W -> W.
Variable platform_system : string.
Variable type_error : Py.dict -> string.

(** [_check_permission] of a tool that works under [category]: the check
    of the permission manager at the present time. *)
Definition _check_permission (category : PermissionType) (action : string)
    (risk_level : RiskLevel) (params : Py.dict) (s : System W) : bool * System W :=
  let out :=
    check_permission config (clock s) category action risk_level (Some params)
      (permission_manager s) in
  (out.1.1, set_permission_manager out.2 s).

Definition denied : Py.dict :=
  [("success", Py.VBool false); ("message", Py.VStr "Permission denied")].

(** [FileActions.delete_file(path)], called with keyword arguments. *)
Definition delete_file : Handler W := fun kwargs s =>
  match kwargs with
  | [("path", path)] =>
      let '(granted, s1) :=
        _check_permission FILES "delete_file" HIGH [("path", path)] s in
      if negb granted then (Returned denied, s1)
      else
        match os_remove path (world s1) with
        | Done w =>
            (Returned [("success", Py.VBool true);
                       ("message", Py.VStr ("Deleted: " +:+ Py.format path))],
             set_world w s1)
        | Failed e =>
            (Returned [("success", Py.VBool false); ("message", Py.VStr e)], s1)
        end
  | _ => (Raised (type_error kwargs), s)
  end.

(** Every keyword is a parameter of [shutdown_system]. *)
Definition shutdown_keywords (kwargs : Py.dict) : bool :=
  forallb (fun kv : string * Py.value =>
             String.eqb (fst kv) "mode" || String.eqb (fst kv) "delay")
          kwargs.

Definition is_str (v : Py.value) (s : string) : bool :=
  match v with
  | Py.VStr s' => String.eqb s' s
  | _ => false
  end.

(** [PCActions.shutdown_system(mode="shutdown", delay=60)]: the commands
    are for Windows, on another platform none is run. *)
Definition shutdown_system : Handler W := fun kwargs s =>
  if negb (shutdown_keywords kwargs) then (Raised (type_error kwargs), s)
  else
    let mode := Py.get_default kwargs "mode" (Py.VStr "shutdown") in
    let delay := Py.get_default kwargs "delay" (Py.VInt 60) in
    let '(granted, s1) :=
      _check_permission KEYBOARD_MOUSE "shutdown_system" CRITICAL [("mode", mode)] s in
    if negb granted then (Returned denied, s1)
    else
      let w := world s1 in
      let w' :=
        if String.eqb platform_system "Windows" then
          if is_str mode "shutdown" then
            os_system ("shutdown /s /t " +:+ Py.format delay) w
          else if is_str mode "restart" then
            os_system ("shutdown /r /t " +:+ Py.format delay) w
          else if is_str mode "sleep" then
            os_system "rundll32.exe powrprof.dll,SetSuspendState 0,1,0" w
          else if is_str mode "hibernate" then os_system "shutdown /h" w
          else w
        else w in
      (Returned [("success", Py.VBool true);
                 ("message",
                  Py.VStr ("System will " +:+ Py.format mode +:+ " in "
                           +:+ Py.format delay +:+ " seconds"))],
       set_world w' s1).

End WithWorld.

Arguments os_result : clear implicits.

End Tools.

(** ** A small world for examples *)

Module Demo.
Import Permissions Planner Executor Tools.

(** The world: the paths of the files there are. *)
Definition files : Type := list string.

Definition remove (path : Py.value) (w : files) : os_result files :=
  match path with
  | Py.VStr p =>
      if bool_decide (p ∈ w) then Done (List.filter (fun q => negb (String.eqb q p)) w)
      else Failed ("[Errno 2] No such file or directory: " +:+ Py.repr path)
  | _ => Failed "remove: path should be string, bytes or os.PathLike"
  end.

Definition run_command (command : string) (w : files) : files := w.

Definition no_type_error (kwargs : Py.dict) : string := "TypeError".

(** File access and keyboard control on, asking or not. *)
Definition open_config (ask : bool) : PermissionsConfig :=
  mkPermissionsConfig true true false false false false false ask ask true true true.

Definition file_tool (ask : bool) : Tool files := fun name =>
  if String.eqb name "delete_file"
  then Some (delete_file (open_config ask) remove no_type_error)
  else None.

Definition pc_tool (ask : bool) (platform : string) : Tool files := fun name =>
  if String.eqb name "shutdown_system"
  then Some (shutdown_system (open_config ask) run_command platform no_type_error)
  else None.

Definition agent (ask : bool) : ExecutorAgent files :=
  new_agent (pc_tool ask "Linux") (file_tool ask) (fun _ => None) (fun _ => None).

Definition start : System files :=
  mkSystem 0 (mkPermissionManager [] [] []) [] [] [] ["a.txt"; "b.txt"].

End Demo.

(** ** API server ([atlas_main_api.py]) *)

Module Api.
Import Permissions Planner Executor.

(** What an endpoint answers: a body, or the [HTTPException] it raises. *)
Inductive response (A : Type) : Type :=
| Ok (body : A)
| HTTPException (status_code : Z) (detail : string).

Arguments Ok {A} body.
Arguments HTTPException {A} status_code detail.

(** The permissions of the global [config], the permissions last written
    to [config.json] by [config.save()], and the security log. *)
Record ConfigStore : Type := mkConfigStore {
  permissions : PermissionsConfig;
  saved_permissions : option PermissionsConfig;
  security_log : list string
}.

(** The assignments to the twelve attributes of [config.permissions]. *)
Definition set_enabled (category : PermissionType) (b : bool) (c : PermissionsConfig)
    : PermissionsConfig :=
  match category with
  | FILES =>
      mkPermissionsConfig b (can_control_keyboard_mouse c) (can_capture_screen c)
        (can_control_android c) (can_control_enterchat c) (can_use_network c)
        (can_use_ai_remote c) (ask_every_time_files c) (ask_every_time_keyboard c)
        (ask_every_time_screen c) (ask_every_time_android c) (ask_every_time_enterchat c)
  | KEYBOARD_MOUSE =>
      mkPermissionsConfig (can_access_files c) b (can_capture_screen c)
        (can_control_android c) (can_control_enterchat c) (can_use_network c)
        (can_use_ai_remote c) (ask_every_time_files c) (ask_every_time_keyboard c)
        (ask_every_time_screen c) (ask_every_time_android c) (ask_every_time_enterchat c)
  | SCREEN_CAPTURE =>
      mkPermissionsConfig (can_access_files c) (can_control_keyboard_mouse c) b
        (can_control_android c) (can_control_enterchat c) (can_use_network c)
        (can_use_ai_remote c) (ask_every_time_files c) (ask_every_time_keyboard c)
        (ask_every_time_screen c) (ask_every_time_android c) (ask_every_time_enterchat c)
  | ANDROID =>
      mkPermissionsConfig (can_access_files c) (can_control_keyboard_mouse c)
        (can_capture_screen c) b (can_control_enterchat c) (can_use_network c)
        (can_use_ai_remote c) (ask_every_time_files c) (ask_every_time_keyboard c)
        (ask_every_time_screen c) (ask_every_time_android c) (ask_every_time_enterchat c)
  | ENTERCHAT =>
      mkPermissionsConfig (can_access_files c) (can_control_keyboard_mouse c)
        (can_capture_screen c) (can_control_android c) b (can_use_network c)
        (can_use_ai_remote c) (ask_every_time_files c) (ask_every_time_keyboard c)
        (ask_every_time_screen c) (ask_every_time_android c) (ask_every_time_enterchat c)
  | NETWORK =>
      mkPermissionsConfig (can_access_files c) (can_control_keyboard_mouse c)
        (can_capture_screen c) (can_control_android c) (can_control_enterchat c) b
        (can_use_ai_remote c) (ask_every_time_files c) (ask_every_time_keyboard c)
        (ask_every_time_screen c) (ask_every_time_android c) (ask_every_time_enterchat c)
  | AI_REMOTE =>
      mkPermissionsConfig (can_access_files c) (can_control_keyboard_mouse c)
        (can_capture_screen c) (can_control_android c) (can_control_enterchat c)
        (can_use_network c) b (ask_every_time_files c) (ask_every_time_keyboard c)
        (ask_every_time_screen c) (ask_every_time_android c) (ask_every_time_enterchat c)
  end.

Definition set_ask_every_time (category : PermissionType) (b : bool)
    (c : PermissionsConfig) : PermissionsConfig :=
  match category with
  | FILES =>
      mkPermissionsConfig (can_access_files c) (can_control_keyboard_mouse c)
        (can_capture_screen c) (can_control_android c) (can_control_enterchat c)
        (can_use_network c) (can_use_ai_remote c) b (ask_every_time_keyboard c)
        (ask_every_time_screen c) (ask_every_time_android c) (ask_every_time_enterchat c)
  | KEYBOARD_MOUSE =>
      mkPermissionsConfig (can_access_files c) (can_control_keyboard_mouse c)
        (can_capture_screen c) (can_control_android c) (can_control_enterchat c)
        (can_use_network c) (can_use_ai_remote c) (ask_every_time_files c) b
        (ask_every_time_screen c) (ask_every_time_android c) (ask_every_time_enterchat c)
  | SCREEN_CAPTURE =>
      mkPermissionsConfig (can_access_files c) (can_control_keyboard_mouse c)
        (can_capture_screen c) (can_control_android c) (can_control_enterchat c)
        (can_use_network c) (can_use_ai_remote c) (ask_every_time_files c)
        (ask_every_time_keyboard c) b (ask_every_time_android c)
        (ask_every_time_enterchat c)
  | ANDROID =>
      mkPermissionsConfig (can_access_files c) (can_control_keyboard_mouse c)
        (can_capture_screen c) (can_control_android c) (can_control_enterchat c)
        (can_use_network c) (can_use_ai_remote c) (ask_every_time_files c)
        (ask_every_time_keyboard c) (ask_every_time_screen c) b
        (ask_every_time_enterchat c)
  | ENTERCHAT =>
      mkPermissionsConfig (can_access_files c) (can_control_keyboard_mouse c)
        (can_capture_screen c) (can_control_android c) (can_control_enterchat c)
        (can_use_network c) (can_use_ai_remote c) (ask_every_time_files c)
        (ask_every_time_keyboard c) (ask_every_time_screen c) (ask_every_time_android c) b
  | NETWORK | AI_REMOTE => c
  end.

(** One branch of [update_permission]: the enabling flag, then the asking
    flag when one is sent. *)
Definition update_flags (category : PermissionType) (enabled : bool)
    (ask_every_time : option bool) (c : PermissionsConfig) : PermissionsConfig :=
  let c1 := set_enabled category enabled c in
  match ask_every_time with
  | Some b => set_ask_every_time category b c1
  | None => c1
  end.

(** [update_permission]. The branches on [perm_type], the last of which
    raises status 400 inside the [try]; [except Exception] catches that too
    and raises status 500 with [str(e)], here [str_exception 400 detail]. *)
Definition update_permission (str_exception : Z -> string -> string)
    (perm_type : string) (enabled : bool) (ask_every_time : option bool)
    (store : ConfigStore) : response string * ConfigStore :=
  let branch : option PermissionsConfig :=
    if String.eqb perm_type "files" then
      Some (update_flags FILES enabled ask_every_time (permissions store))
    else if String.eqb perm_type "keyboard_mouse" then
      Some (update_flags KEYBOARD_MOUSE enabled ask_every_time (permissions store))
    else if String.eqb perm_type "screen_capture" then
      Some (update_flags SCREEN_CAPTURE enabled ask_every_time (permissions store))
    else if String.eqb perm_type "android" then
      Some (update_flags ANDROID enabled ask_every_time (permissions store))
    else if String.eqb perm_type "enterchat" then
      Some (update_flags ENTERCHAT enabled ask_every_time (permissions store))
    else if String.eqb perm_type "network" then
      Some (set_enabled NETWORK enabled (permissions store))
    else if String.eqb perm_type "ai_remote" then
      Some (set_enabled AI_REMOTE enabled (permissions store))
    else None in
  match branch with
  | Some c =>
      (Ok "Permission updated",
       mkConfigStore c (Some c)
         (security_log store ++
            ["PERMISSION_UPDATE - Permission " +:+ perm_type +:+ " set to "
               +:+ Py.repr (Py.VBool enabled)]))
  | None =>
      (HTTPException 500 (str_exception 400 "Invalid permission type"), store)
  end.

(** A row of the [conversations] table ([MemoryAgent.save_conversation]). *)
Record Conversation : Type := mkConversation {
  conv_user_input : string;
  conv_agent_response : string;
  conv_intent : string;
  conv_confidence : Q
}.

(** The three answers of [execute_command]. *)
Inductive CommandResponse : Type :=
| DryRunResponse (intent : string) (confidence : Q) (steps : Z)
    (requires_confirmation : bool) (result : DryRun)
| ConfirmationResponse (intent : string) (confidence : Q)
    (steps : list (string * string * string)) (message : string)
| ExecutionResponse (success : bool) (message : string) (intent : string)
    (confidence : Q) (steps : Z) (duration_ms : Z) (steps_executed : Z)
    (step_results : list StepResult).

Section WithWorld.

Context {W : Type}.

(** The system and the conversation table. *)
Record Server : Type := mkServer {
  system : System W;
  conversations : list Conversation
}.

(** [execute_command], the handler of [/api/command]. *)
Definition execute_command (executor_agent : ExecutorAgent W) (command : string)
    (dry_run_flag : bool) (srv : Server) : CommandResponse * Server :=
  let plan := optimize_plan (create_plan command) in
  if dry_run_flag then
    let '(result, s) := dry_run executor_agent plan (system srv) in
    (DryRunResponse (intent plan) (confidence plan) (Z.of_nat (length (steps plan)))
       (requires_confirmation plan) result,
     mkServer s (conversations srv))
  else if requires_confirmation plan then
    (ConfirmationResponse (intent plan) (confidence plan)
       (map (fun step => (tool step, action step, description step)) (steps plan))
       "This action requires user confirmation",
     srv)
  else
    let '(execution_result, s) := execute_plan executor_agent plan (system srv) in
    (ExecutionResponse (success execution_result) (message execution_result)
       (intent plan) (confidence plan) (Z.of_nat (length (steps plan)))
       (total_duration_ms execution_result)
       (Z.of_nat (length (step_results execution_result)))
       (step_results execution_result),
     mkServer s
       (conversations srv ++
          [mkConversation command (message execution_result) (intent plan)
             (confidence plan)])).

End WithWorld.

Arguments Server : clear implicits.

End Api.

(** ** What a match is *)

Module ReSpec.
Import Re.

(** [Matches r s s' c c']: the pattern [r] can read the text between [s]
    and its suffix [s'], turning the groups [c] into [c']. This says what
    counts as a match; which match the matcher takes is its own affair. *)
Inductive Matches : regex -> string -> string -> captures -> captures -> Prop :=
| MEps s c : Matches Eps s s c c
| MChr (p : ascii -> bool) a s c : p a = true -> Matches (Chr p) (String a s) s c c
| MCat r1 r2 s s1 s2 c c1 c2 :
    Matches r1 s s1 c c1 -> Matches r2 s1 s2 c1 c2 -> Matches (Cat r1 r2) s s2 c c2
| MAltL r1 r2 s s' c c' : Matches r1 s s' c c' -> Matches (Alt r1 r2) s s' c c'
| MAltR r1 r2 s s' c c' : Matches r2 s s' c c' -> Matches (Alt r1 r2) s s' c c'
| MStarDone r s c : Matches (Star r) s s c c
| MStarRound r s s1 s2 c c1 c2 :
    Matches r s s1 c c1 -> Matches (Star r) s1 s2 c1 c2 -> Matches (Star r) s s2 c c2
| MGroup n r s s' c c' :
    Matches r s s' c c' -> Matches (Group n r) s s' c ((n, consumed s s') :: c').

(** Every character of the string passes the test. *)
Fixpoint all_chars (f : ascii -> bool) (s : string) : bool :=
  match s with
  | EmptyString => true
  | String a s' => f a && all_chars f s'
  end.

(** [p] is text quoted in [command]: not empty, without a quote in it, and
    standing in the command between two quote characters. *)
Definition quoted_in (p command : string) : Prop :=
  p <> "" /\
  all_chars (fun a => negb (is_quote a)) p = true /\
  exists before q1 q2 after,
    command = before +:+ String q1 (p +:+ String q2 after) /\
    is_quote q1 = true /\ is_quote q2 = true.

End ReSpec.

(** * Properties *)

Import Permissions Planner Executor Spec.

(** ** Permission manager *)

(** The dictionary lookups of [check_permission] read the flags of the
    configuration; the two categories without an "ask every time" entry
    fall to the default. *)
Lemma permission_map_enabled (c : PermissionsConfig) (p : PermissionType) :
  flag_get (permission_map c) p = category_enabled c p.
Proof. destruct p; reflexivity. Qed.

Lemma ask_every_time_map_asks (c : PermissionsConfig) (p : PermissionType) :
  flag_get (ask_every_time_map c) p = asks_every_time c p.
Proof. destruct p; reflexivity. Qed.

(** C1: [check_permission] has three outcomes. A disabled category gives
    [(False, reason)] and one more audit entry, [denied], whatever its
    "ask every time" flag; an enabled category whose flag is set gives one
    more pending request, [(False, confirmation required)] and no audit
    entry; any other gives [(True, None)] and one more audit entry,
    [granted]. *)
Theorem check_permission_outcomes :
  forall config now permission_type action risk_level params pm,
    let answer := fst (check_permission config now permission_type action risk_level params pm) in
    let pm' := snd (check_permission config now permission_type action risk_level params pm) in
    if negb (category_enabled config permission_type) then
      (exists reason e, answer = (false, Some reason) /\
         one_audit_entry "denied" pm pm' e /\
         pending_requests pm' = pending_requests pm)
    else if asks_every_time config permission_type then
      (exists request, pending_requests pm' = pending_requests pm ++ [request] /\
         req_permission_type request = permission_type /\
         req_action request = action /\
         answer = (false, Some confirmation_reason) /\
         audit_log pm' = audit_log pm)
    else
      (exists e, answer = (true, None) /\
         one_audit_entry "granted" pm pm' e /\
         pending_requests pm' = pending_requests pm).
Proof.
  intros config now permission_type action risk_level params pm answer pm'.
  subst answer pm'. unfold check_permission.
  rewrite permission_map_enabled, ask_every_time_map_asks.
  destruct (category_enabled config permission_type); cbn [negb].
  - destruct (asks_every_time config permission_type).
    + eexists. cbn. repeat split; reflexivity.
    + eexists. unfold one_audit_entry. cbn. repeat split; reflexivity.
  - do 2 eexists. unfold one_audit_entry. cbn. repeat split; reflexivity.
Qed.

(** C10: for [NETWORK] and [AI_REMOTE] the "ask every time" lookup misses
    and gives [False], so [check_permission] never adds a pending request;
    when the category is enabled it answers [(True, None)] and logs
    [granted]. *)
Theorem network_and_ai_remote_never_ask :
  forall config now permission_type action risk_level params pm,
    permission_type = NETWORK \/ permission_type = AI_REMOTE ->
    let answer := fst (check_permission config now permission_type action risk_level params pm) in
    let pm' := snd (check_permission config now permission_type action risk_level params pm) in
    flag_get (ask_every_time_map config) permission_type = false /\
    pending_requests pm' = pending_requests pm /\
    (category_enabled config permission_type = true ->
       answer = (true, None) /\ exists e, one_audit_entry "granted" pm pm' e).
Proof.
  intros config now permission_type action risk_level params pm Hcat answer pm'.
  subst answer pm'. unfold check_permission.
  rewrite permission_map_enabled.
  assert (Hask : flag_get (ask_every_time_map config) permission_type = false)
    by (destruct Hcat; subst; reflexivity).
  rewrite Hask. split; [reflexivity|].
  destruct (category_enabled config permission_type); cbn [negb fst snd].
  - split; [reflexivity|]. intros _. split; [reflexivity|].
    eexists. split; reflexivity.
  - split; [reflexivity|]. discriminate.
Qed.

(** A configuration with the network enabled: the request is granted at
    once and nothing is left pending. *)
Lemma network_and_ai_remote_never_ask_witness :
  let config :=
    mkPermissionsConfig false false false false false true false
                        true true true true true in
  fst (check_permission config 0 NETWORK "network_request" MEDIUM None empty_manager)
    = (true, None) /\
  pending_requests
    (snd (check_permission config 0 NETWORK "network_request" MEDIUM None empty_manager))
    = [].
Proof.
  intros config.
  destruct (network_and_ai_remote_never_ask config 0 NETWORK "network_request" MEDIUM
              None empty_manager (or_introl eq_refl)) as (_ & Hpending & Hgrant).
  split.
  - apply Hgrant. reflexivity.
  - exact Hpending.
Defined.

Lemma delete_removed_at {A : Type} (l : list A) (i : nat) :
  (i < length l)%nat -> removed_at i l (delete i l).
Proof.
  intros Hi. unfold removed_at. split; [|split].
  - rewrite length_delete by (apply lookup_lt_is_Some_2; exact Hi). lia.
  - intros j Hj. apply list_lookup_delete_lt. exact Hj.
  - intros j Hj. apply list_lookup_delete_ge. exact Hj.
Qed.

(** The guard of [approve_request] and [deny_request]. *)
Lemma index_guard (i : Z) (n : nat) :
  (0 <=? i) && (i <? Z.of_nat n) = true <-> valid_index i n.
Proof. unfold valid_index. rewrite andb_true_iff, Z.leb_le, Z.ltb_lt. tauto. Qed.

Ltac resolve_valid i pm Hvalid :=
  let Hg := fresh "Hg" in
  let Hlt := fresh "Hlt" in
  let request := fresh "request" in
  let Hreq := fresh "Hreq" in
  pose proof (proj2 (index_guard _ _) Hvalid) as Hg;
  assert (Hlt : (Z.to_nat i < length (pending_requests pm))%nat)
    by (unfold valid_index in Hvalid; lia);
  destruct (lookup_lt_is_Some_2 _ _ Hlt) as [request Hreq];
  unfold approve_request, deny_request, resolves;
  rewrite Hg, Hreq; cbn [fst snd _save_pending_requests _log_audit pending_requests
                         pending_requests_file audit_log];
  split; [reflexivity|]; split; [apply delete_removed_at; exact Hlt|];
  split; [reflexivity|];
  eexists request, _; split; [reflexivity|];
  unfold one_audit_entry; cbn; repeat split; reflexivity.

(** C3: with [0 <= i < len(pending)], [approve_request] and
    [deny_request] return [True], remove exactly the request at position [i]
    (the later ones move down by one) and add one audit entry of agent
    [user], with status [approved] and [denied_by_user]; with any other [i]
    they return [False] and change neither the queue nor the audit log. *)
Theorem approve_deny_request_by_index :
  forall now i pm,
    (valid_index i (length (pending_requests pm)) ->
       resolves "approved" i pm (approve_request now i pm) /\
       resolves "denied_by_user" i pm (deny_request now i pm)) /\
    (~ valid_index i (length (pending_requests pm)) ->
       approve_request now i pm = (false, pm) /\
       deny_request now i pm = (false, pm)).
Proof.
  intros now i pm. split.
  - intros Hvalid. split; resolve_valid i pm Hvalid.
  - intros Hinvalid.
    assert (Hg : (0 <=? i) && (i <? Z.of_nat (length (pending_requests pm))) = false).
    { apply not_true_is_false. intros Hg. apply Hinvalid, index_guard, Hg. }
    unfold approve_request, deny_request. rewrite Hg. split; reflexivity.
Qed.

(** A queue of two requests: approving index 0 is valid and removes the
    first one; index 2 is out of range and changes nothing. *)
Lemma approve_deny_request_by_index_witness :
  let r1 :=
    mkPermissionRequest FILES "delete_file" "Delete file: a.txt" HIGH
      [("path", Py.VStr "a.txt")] 10 in
  let r2 := mkPermissionRequest SCREEN_CAPTURE "take_screenshot"
      "Capture screen screenshot" MEDIUM [] 11 in
  let pm := mkPermissionManager [r1; r2] [r1; r2] [] in
  valid_index 0 (length (pending_requests pm)) /\
  resolves "approved" 0 pm (approve_request 20 0 pm) /\
  deny_request 20 2 pm = (false, pm).
Proof.
  intros r1 r2 pm.
  assert (Hvalid : valid_index 0 (length (pending_requests pm)))
    by (unfold valid_index; cbn; lia).
  split; [exact Hvalid|]. split.
  - apply (proj1 (approve_deny_request_by_index 20 0 pm)). exact Hvalid.
  - apply (proj2 (approve_deny_request_by_index 20 2 pm)).
    unfold valid_index. cbn. lia.
Defined.

(** ** Planner: intent and plan *)

Lemma try_pattern_miss command command_lower intent best pattern base_confidence :
  Re.found pattern command_lower = false ->
  try_pattern command command_lower intent best (pattern, base_confidence) = best.
Proof.
  intros Hmiss. unfold try_pattern.
  destruct best as [[best_intent best_confidence] entities].
  rewrite Hmiss. reflexivity.
Qed.

Lemma try_patterns_miss command command_lower intent patterns best :
  existsb (fun pattern_info : Re.regex * Q => Re.found (fst pattern_info) command_lower)
          patterns = false ->
  fold_left (try_pattern command command_lower intent) patterns best = best.
Proof.
  revert best. induction patterns as [|[pattern c] patterns IH]; intros best Hmiss.
  - reflexivity.
  - cbn in Hmiss. apply orb_false_elim in Hmiss as [Hhead Htail].
    cbn [fold_left]. rewrite try_pattern_miss by exact Hhead.
    apply IH, Htail.
Qed.

(** A command in which no pattern is found leaves [parse_intent] with what
    it started from. *)
Lemma parse_intent_unknown command :
  matches_a_pattern command = false ->
  parse_intent command = ("unknown", 0%Q, no_entities).
Proof.
  unfold matches_a_pattern, parse_intent.
  generalize ("unknown", 0%Q, no_entities).
  induction _load_intent_patterns as [|[intent patterns] table IH]; intros best Hmiss.
  - reflexivity.
  - cbn in Hmiss. apply orb_false_elim in Hmiss as [Hhead Htail].
    cbn [fold_left]. rewrite try_patterns_miss by exact Hhead.
    apply IH, Htail.
Qed.

(** C4: [create_plan] never returns an empty plan, and a command that
    matches no intent pattern gets the intent [unknown], confidence [0.0]
    and a plan of exactly one step, of tool [unknown]. *)
Theorem create_plan_never_empty :
  forall command,
    (1 <= length (steps (create_plan command)))%nat /\
    (matches_a_pattern command = false ->
       intent (create_plan command) = "unknown" /\
       confidence (create_plan command) = 0%Q /\
       exists step, steps (create_plan command) = [step] /\ tool step = "unknown").
Proof.
  intros command. split.
  - unfold create_plan.
    destruct (parse_intent command) as [[intent confidence] entities].
    destruct (build_steps command intent entities) as [[|step rest] confirm]; cbn; lia.
  - intros Hmiss. unfold create_plan.
    rewrite (parse_intent_unknown command Hmiss).
    cbn. repeat split. exists (unknown_step command). split; reflexivity.
Qed.

(** A greeting matches no pattern: the plan is the single unknown step. *)
Lemma create_plan_never_empty_witness :
  matches_a_pattern "hello there" = false /\
  intent (create_plan "hello there") = "unknown" /\
  confidence (create_plan "hello there") = 0%Q /\
  exists step, steps (create_plan "hello there") = [step] /\ tool step = "unknown".
Proof.
  assert (Hmiss : matches_a_pattern "hello there" = false) by (vm_compute; reflexivity).
  split; [exact Hmiss|].
  exact (proj2 (create_plan_never_empty "hello there") Hmiss).
Defined.

(** C9, as stated, fails: in [delete file "test.txt"] the word [delete]
    comes before [file], while the pattern of [delete_file] wants [file]
    first (the other one wants [remove]); no pattern matches and the plan is
    the unknown step, without confirmation. *)
Lemma delete_file_command_is_unknown :
  create_plan delete_command
    = mkExecutionPlan "unknown" [unknown_step delete_command] 0%Q false /\
  ~ (exists step,
       steps (create_plan delete_command) = [step] /\
       tool step = "file_actions" /\
       action step = "delete_file" /\
       Py.get (params step) "path" = Some (Py.VStr "test.txt") /\
       requires_confirmation (create_plan delete_command) = true).
Proof.
  assert (Hplan : create_plan delete_command
                  = mkExecutionPlan "unknown" [unknown_step delete_command] 0%Q false)
    by (vm_compute; reflexivity).
  split; [exact Hplan|].
  intros (step & _ & _ & _ & _ & Hconfirm).
  rewrite Hplan in Hconfirm. discriminate Hconfirm.
Qed.

(** C9, amended: the command [remove file "test.txt"] is planned as one
    step of tool [file_actions], action [delete_file] and path [test.txt],
    with confirmation required. *)
Theorem remove_file_command_plan :
  intent (create_plan remove_command) = "delete_file" /\
  requires_confirmation (create_plan remove_command) = true /\
  exists step,
    steps (create_plan remove_command) = [step] /\
    tool step = "file_actions" /\
    action step = "delete_file" /\
    Py.get (params step) "path" = Some (Py.VStr "test.txt").
Proof.
  assert (Hplan : create_plan remove_command
                  = mkExecutionPlan "delete_file"
                      [mkPlanStep "file_actions" "delete_file"
                         [("path", Py.VStr "test.txt")] "Delete file: test.txt"]
                      0.85%Q true)
    by (vm_compute; reflexivity).
  rewrite Hplan. cbn. repeat split.
  eexists. repeat split; reflexivity.
Qed.

(** ** Planner: removing duplicate steps *)

Section OptimizeLoop.

Implicit Types (seen : list string) (l : list PlanStep) (ks : list nat).

Lemma selects_nil l : selects [] l [].
Proof. split; constructor. Qed.

(** Skipping the head of the list: every selected position moves up. *)
Lemma selects_skip ks x l l' :
  selects ks l l' -> selects (S <$> ks) (x :: l) l'.
Proof.
  intros [Hsorted Hat]. split.
  - clear Hat. induction Hsorted as [|k ks Hsorted IH Hlt]; cbn.
    + constructor.
    + constructor; [exact IH|].
      apply Forall_fmap. eapply Forall_impl; [exact Hlt|].
      intros k' Hk'. cbn. lia.
  - apply Forall2_fmap_l. eapply Forall2_impl; [exact Hat|].
    intros k y Hk. exact Hk.
Qed.

(** Keeping the head of the list. *)
Lemma selects_keep ks x l l' :
  selects ks l l' -> selects (0%nat :: (S <$> ks)) (x :: l) (x :: l').
Proof.
  intros Hsel. destruct (selects_skip ks x l l' Hsel) as [Hsorted Hat]. split.
  - constructor; [exact Hsorted|].
    apply Forall_fmap, Forall_forall. intros k _. cbn. lia.
  - constructor; [reflexivity | exact Hat].
Qed.

Lemma elem_of_S_fmap ks i : S i ∈ (S <$> ks) <-> i ∈ ks.
Proof.
  rewrite list_elem_of_fmap. split.
  - intros (k & Heq & Hk). injection Heq as ->. exact Hk.
  - intros Hi. exists i. split; [reflexivity | exact Hi].
Qed.

Lemma zero_not_in_S_fmap ks : 0%nat ∉ (S <$> ks).
Proof. rewrite list_elem_of_fmap. intros (k & Heq & _). discriminate Heq. Qed.

(** The steps the loop keeps, by position: those whose key is not in
    [seen] and is the key of no earlier step. *)
Lemma optimize_loop_positions l :
  forall seen,
    exists ks,
      selects ks l (optimize_loop seen l) /\
      forall i step,
        l !! i = Some step ->
        (i ∈ ks <->
         (step_key step ∉ seen) /\
         forall j earlier, (j < i)%nat -> l !! j = Some earlier ->
                           step_key earlier <> step_key step).
Proof.
  induction l as [|x l IH]; intros seen.
  - exists []. split; [apply selects_nil|]. intros i step Hi. discriminate Hi.
  - cbn [optimize_loop]. destruct (decide (step_key x ∈ seen)) as [Hseen|Hnew].
    + destruct (IH seen) as (ks & Hsel & Hks).
      exists (S <$> ks). split; [apply selects_skip, Hsel|].
      intros [|i] step Hi.
      * injection Hi as ->. split.
        -- intros H0. destruct (zero_not_in_S_fmap ks H0).
        -- intros [Hout _]. destruct (Hout Hseen).
      * cbn in Hi. rewrite elem_of_S_fmap, (Hks i step Hi). split.
        -- intros [Hout Hfirst]. split; [exact Hout|].
           intros [|j] earlier Hj Hearlier.
           ++ injection Hearlier as <-. intros Heq. apply Hout. rewrite <- Heq. exact Hseen.
           ++ apply (Hfirst j earlier); [lia | exact Hearlier].
        -- intros [Hout Hfirst]. split; [exact Hout|].
           intros j earlier Hj Hearlier.
           apply (Hfirst (S j) earlier); [lia | exact Hearlier].
    + destruct (IH (step_key x :: seen)) as (ks & Hsel & Hks).
      exists (0%nat :: (S <$> ks)). split; [apply selects_keep, Hsel|].
      intros [|i] step Hi.
      * injection Hi as ->. split.
        -- intros _. split; [exact Hnew|]. intros j earlier Hj. lia.
        -- intros _. left.
      * cbn in Hi. rewrite elem_of_cons, elem_of_S_fmap, (Hks i step Hi). split.
        -- intros [Himp|[Hout Hfirst]]; [discriminate Himp|].
           rewrite elem_of_cons in Hout. split; [tauto|].
           intros [|j] earlier Hj Hearlier.
           ++ injection Hearlier as <-. intros Heq. apply Hout. left. symmetry. exact Heq.
           ++ apply (Hfirst j earlier); [lia | exact Hearlier].
        -- intros [Hout Hfirst]. right. split.
           ++ rewrite elem_of_cons. intros [Heq|Hin]; [|exact (Hout Hin)].
              apply (Hfirst 0%nat x); [lia | reflexivity | symmetry; exact Heq].
           ++ intros j earlier Hj Hearlier.
              apply (Hfirst (S j) earlier); [lia | exact Hearlier].
Qed.

(** No kept step has a key of [seen]. *)
Lemma optimize_loop_fresh l :
  forall seen step, step ∈ optimize_loop seen l -> step_key step ∉ seen.
Proof.
  induction l as [|x l IH]; intros seen step Hin; cbn [optimize_loop] in Hin.
  - inversion Hin.
  - destruct (decide (step_key x ∈ seen)) as [Hseen|Hnew].
    + apply IH, Hin.
    + apply elem_of_cons in Hin as [->|Hin]; [exact Hnew|].
      intros Hout. apply (IH _ _ Hin). right. exact Hout.
Qed.

(** The kept steps have pairwise different keys. *)
Lemma optimize_loop_NoDup l :
  forall seen, NoDup (step_key <$> optimize_loop seen l).
Proof.
  induction l as [|x l IH]; intros seen; cbn [optimize_loop].
  - constructor.
  - destruct (decide (step_key x ∈ seen)) as [Hseen|Hnew]; [apply IH|].
    cbn. constructor; [|apply IH].
    rewrite list_elem_of_fmap. intros (step & Heq & Hin).
    apply (optimize_loop_fresh _ _ _ Hin). rewrite <- Heq. left.
Qed.

(** On steps with pairwise different keys, none in [seen], the loop
    removes nothing. *)
Lemma optimize_loop_id l :
  forall seen,
    NoDup (step_key <$> l) ->
    (forall step, step ∈ l -> step_key step ∉ seen) ->
    optimize_loop seen l = l.
Proof.
  induction l as [|x l IH]; intros seen Hnodup Hfresh; cbn [optimize_loop].
  - reflexivity.
  - cbn in Hnodup. apply NoDup_cons in Hnodup as [Hx Hnodup].
    destruct (decide (step_key x ∈ seen)) as [Hseen|Hnew].
    + destruct (Hfresh x); [left | exact Hseen].
    + f_equal. apply IH; [exact Hnodup|].
      intros step Hin. rewrite elem_of_cons. intros [Heq|Hout].
      * apply Hx. rewrite <- Heq. apply list_elem_of_fmap_2, Hin.
      * apply (Hfresh step); [right; exact Hin | exact Hout].
Qed.

(** Among the steps before position [i], one has the key [key] or none
    has. *)
Lemma earlier_key_or_not l key :
  forall i,
    (exists j earlier, (j < i)%nat /\ l !! j = Some earlier /\ step_key earlier = key) \/
    (forall j earlier, (j < i)%nat -> l !! j = Some earlier -> step_key earlier <> key).
Proof.
  induction i as [|i [Hsome|Hnone]].
  - right. intros j earlier Hj. lia.
  - left. destruct Hsome as (j & earlier & Hj & Hearlier & Hkey).
    exists j, earlier. split; [lia | split; assumption].
  - destruct (l !! i) as [x|] eqn:Hx.
    + destruct (decide (step_key x = key)) as [Heq|Hne].
      * left. exists i, x. split; [lia | split; assumption].
      * right. intros j earlier Hj Hearlier.
        destruct (decide (j = i)) as [->|Hji].
        -- rewrite Hx in Hearlier. injection Hearlier as <-. exact Hne.
        -- apply (Hnone j earlier); [lia | exact Hearlier].
    + right. intros j earlier Hj Hearlier.
      destruct (decide (j = i)) as [->|Hji].
      * rewrite Hx in Hearlier. discriminate Hearlier.
      * apply (Hnone j earlier); [lia | exact Hearlier].
Qed.

(** Every step has a first step of its key, at or before its position. *)
Lemma first_of_key l :
  forall i step,
    l !! i = Some step ->
    exists k first,
      (k <= i)%nat /\ l !! k = Some first /\ step_key first = step_key step /\
      forall j earlier, (j < k)%nat -> l !! j = Some earlier ->
                        step_key earlier <> step_key first.
Proof.
  induction i as [i IH] using lt_wf_ind. intros step Hstep.
  destruct (earlier_key_or_not l (step_key step) i)
    as [(j & earlier & Hj & Hearlier & Hkey)|Hnone].
  - destruct (IH j Hj earlier Hearlier) as (k & first & Hk & Hfirst & Hsame & Hmin).
    exists k, first. split; [lia|]. split; [exact Hfirst|].
    split; [congruence | exact Hmin].
  - exists i, step. split; [lia|]. split; [exact Hstep|]. split; [reflexivity | exact Hnone].
Qed.

End OptimizeLoop.

(** Two dot-free words followed by a dot and more text: equal texts have
    equal words. *)
Lemma dotted_prefix_inj (a b x y : string) :
  dot_free a -> dot_free b ->
  a +:+ "." +:+ x = b +:+ "." +:+ y -> a = b /\ x = y.
Proof.
  unfold dot_free. revert b.
  induction a as [|c a IH]; intros [|d b] Ha Hb Heq; cbn in *.
  - injection Heq as Heq. split; [reflexivity | exact Heq].
  - injection Heq as Hd _. subst d. cbn in Hb. discriminate Hb.
  - injection Heq as Hc _. subst c. cbn in Ha. discriminate Ha.
  - injection Heq as Hc Heq. subst d.
    apply orb_false_elim in Ha as [_ Ha]. apply orb_false_elim in Hb as [_ Hb].
    destruct (IH b Ha Hb Heq) as [-> ->]. split; reflexivity.
Qed.

(** With dot-free tool and action names, the key tells the printed triple. *)
Lemma step_key_inj (s1 s2 : PlanStep) :
  dot_free (tool s1) -> dot_free (action s1) ->
  dot_free (tool s2) -> dot_free (action s2) ->
  step_key s1 = step_key s2 -> printed_triple s1 = printed_triple s2.
Proof.
  intros Ht1 Ha1 Ht2 Ha2 Hkey. unfold step_key in Hkey.
  apply dotted_prefix_inj in Hkey as [Htool Hkey]; [|assumption..].
  apply dotted_prefix_inj in Hkey as [Haction Hparams]; [|assumption..].
  unfold printed_triple. congruence.
Qed.

Lemma printed_triple_step_key (s1 s2 : PlanStep) :
  printed_triple s1 = printed_triple s2 -> step_key s1 = step_key s2.
Proof.
  unfold printed_triple. intros Heq.
  pose proof (f_equal (fun t => fst (fst t)) Heq) as Htool.
  pose proof (f_equal (fun t => snd (fst t)) Heq) as Haction.
  pose proof (f_equal snd Heq) as Hparams. cbn in Htool, Haction, Hparams.
  unfold step_key. rewrite Htool, Haction, Hparams. reflexivity.
Qed.

(** The key is the printed triple joined by dots. *)
Lemma step_key_dotted (step : PlanStep) :
  step_key step = dotted (printed_triple step).
Proof. reflexivity. Qed.

(** Parameters written in another order are the same dictionary to Python
    and another text to [str], so [optimize_plan] keeps both steps. *)
Lemma optimize_plan_keeps_reordered_params :
  let first := mkPlanStep "pc_actions" "press_key"
                 [("key", Py.VStr "enter"); ("presses", Py.VInt 1)] "Press enter" in
  let second := mkPlanStep "pc_actions" "press_key"
                  [("presses", Py.VInt 1); ("key", Py.VStr "enter")] "Press enter" in
  let plan := mkExecutionPlan "workflow_demo" [first; second] 1%Q false in
  tool first = tool second /\ action first = action second /\
  (forall k, Py.get (params first) k = Py.get (params second) k) /\
  steps (optimize_plan plan) = [first; second].
Proof.
  cbv zeta. split; [reflexivity|]. split; [reflexivity|]. split.
  - intros k. cbn [params Py.get].
    destruct (String.eqb "key" k) eqn:Hkey, (String.eqb "presses" k) eqn:Hpresses;
      try reflexivity.
    apply String.eqb_eq in Hkey, Hpresses. subst k. discriminate Hpresses.
  - vm_compute. reflexivity.
Qed.

(** C5, as stated, fails: the key is one string, tool, action and printed
    parameters joined by dots, so a dot inside a name moves the border. The
    second step below differs from the first in tool and in action, has the
    same key, and is removed. *)
Lemma optimize_plan_removes_a_different_step :
  let first := mkPlanStep "adb.shell" "input" [] "Send input through the adb shell" in
  let second := mkPlanStep "adb" "shell.input" [] "Call shell.input of adb" in
  let plan := mkExecutionPlan "workflow_demo" [first; second] 1%Q false in
  steps (optimize_plan plan) = [first] /\
  triple first <> triple second /\
  step_key first = step_key second /\
  tool first <> tool second /\ action first <> action second.
Proof.
  cbv zeta. split; [|split; [|split; [|split]]].
  - vm_compute. reflexivity.
  - unfold triple. cbn. intros Heq. discriminate Heq.
  - vm_compute. reflexivity.
  - cbn. intros Heq. discriminate Heq.
  - cbn. intros Heq. discriminate Heq.
Qed.

(** C5, amended: [optimize_plan] keeps the steps at some increasing
    positions [ks], and removes the step at position [i] precisely when an
    earlier step has the same key (the tool, the action and the printed
    parameters joined by dots). So every step whose tool, action and
    printed parameters are those of an earlier step is removed; and when no
    tool or action name of the plan holds a dot, a step whose tool, action
    and printed parameters differ from every earlier step's is kept. *)
Theorem optimize_plan_removes_repeated_keys :
  forall plan,
    exists ks,
      selects ks (steps plan) (steps (optimize_plan plan)) /\
      (forall i step,
         steps plan !! i = Some step ->
         (i ∉ ks <->
          exists j earlier,
            (j < i)%nat /\ steps plan !! j = Some earlier /\
            step_key earlier = step_key step)) /\
      (forall i j step earlier,
         (j < i)%nat -> steps plan !! i = Some step -> steps plan !! j = Some earlier ->
         printed_triple earlier = printed_triple step -> i ∉ ks) /\
      (Forall (fun step => dot_free (tool step) /\ dot_free (action step)) (steps plan) ->
       forall i step,
         steps plan !! i = Some step ->
         (forall j earlier,
            (j < i)%nat -> steps plan !! j = Some earlier ->
            printed_triple earlier <> printed_triple step) ->
         i ∈ ks).
Proof.
  intros plan.
  destruct (optimize_loop_positions (steps plan) []) as (ks & Hsel & Hks).
  exists ks. split; [exact Hsel|].
  assert (Hremoved : forall i step,
             steps plan !! i = Some step ->
             (i ∉ ks <->
              exists j earlier,
                (j < i)%nat /\ steps plan !! j = Some earlier /\
                step_key earlier = step_key step)).
  { intros i step Hstep. rewrite (Hks i step Hstep). split.
    - intros Hnot.
      destruct (earlier_key_or_not (steps plan) (step_key step) i) as [Hsome|Hnone];
        [exact Hsome|].
      destruct Hnot. split; [apply not_elem_of_nil | exact Hnone].
    - intros (j & earlier & Hj & Hearlier & Hkey) [_ Hfirst].
      exact (Hfirst j earlier Hj Hearlier Hkey). }
  split; [exact Hremoved|]. split.
  - intros i j step earlier Hj Hstep Hearlier Hprinted.
    apply (Hremoved i step Hstep).
    exists j, earlier. split; [exact Hj|]. split; [exact Hearlier|].
    apply printed_triple_step_key, Hprinted.
  - intros Hdots i step Hstep Hdiffers.
    apply (Hks i step Hstep). split; [apply not_elem_of_nil|].
    intros j earlier Hj Hearlier Hkey.
    apply (Hdiffers j earlier Hj Hearlier).
    rewrite Forall_forall in Hdots.
    destruct (Hdots step) as [Ht Ha]; [apply list_elem_of_lookup; eauto|].
    destruct (Hdots earlier) as [Ht' Ha']; [apply list_elem_of_lookup; eauto|].
    apply step_key_inj; assumption.
Qed.

(** The demo plan runs a screenshot, a deletion and the same screenshot
    again: the third step repeats the first and goes, the second differs
    from the first and stays. *)
Lemma optimize_plan_removes_repeated_keys_witness :
  exists ks,
    selects ks (steps demo_plan) (steps (optimize_plan demo_plan)) /\
    (2%nat ∉ ks) /\ (1%nat ∈ ks).
Proof.
  destruct (optimize_plan_removes_repeated_keys demo_plan)
    as (ks & Hsel & _ & Hcopy & Hnew).
  exists ks. split; [exact Hsel|]. split.
  - apply (Hcopy 2%nat 0%nat shot_step shot_step); [lia | reflexivity..].
  - apply (Hnew ltac:(repeat constructor) 1%nat delete_step); [reflexivity|].
    intros [|j] earlier Hj Hearlier; [|lia].
    injection Hearlier as <-. intros Heq. discriminate Heq.
Defined.

(** C6, as stated, fails: the second step below is the first, and only,
    step of its tool, action and parameters (the step before it has another
    tool and another action), and [optimize_plan] drops it, because the two
    keys are the same text. *)
Lemma optimize_plan_drops_a_first_occurrence :
  let first := mkPlanStep "adb.shell" "input" [] "Send input through the adb shell" in
  let second := mkPlanStep "adb" "shell.input" [] "Call shell.input of adb" in
  let plan := mkExecutionPlan "workflow_demo" [first; second] 1%Q false in
  steps plan !! 1%nat = Some second /\
  (forall j earlier,
     (j < 1)%nat -> steps plan !! j = Some earlier ->
     tool earlier <> tool second /\ action earlier <> action second) /\
  second ∉ steps (optimize_plan plan).
Proof.
  cbv zeta. split; [reflexivity|]. split.
  - intros [|j] earlier Hj Hearlier; [|lia].
    injection Hearlier as <-. split; intros Heq; discriminate Heq.
  - assert (Hsteps : steps (optimize_plan
                (mkExecutionPlan "workflow_demo"
                   [mkPlanStep "adb.shell" "input" [] "Send input through the adb shell";
                    mkPlanStep "adb" "shell.input" [] "Call shell.input of adb"] 1%Q false))
              = [mkPlanStep "adb.shell" "input" [] "Send input through the adb shell"])
      by (vm_compute; reflexivity).
    rewrite Hsteps. intros Hin. apply list_elem_of_singleton in Hin. discriminate Hin.
Qed.

(** C6, amended: [optimize_plan] is idempotent, and the steps it keeps stand
    in their original order at the positions [ks]. They are the first steps
    of each group of steps with the same tool, action and printed
    parameters joined by dots: a step is kept exactly when no earlier step
    has its joined text, so every step has the first step of its group among
    the kept ones, none of the kept steps has the tool, action and printed
    parameters of an earlier step, and no two of them have the same. When
    no tool or action name of the plan holds a dot, the kept steps are
    exactly the first occurrences of each tool, action and printed
    parameters. *)
Theorem optimize_plan_idempotent :
  forall plan,
    optimize_plan (optimize_plan plan) = optimize_plan plan /\
    NoDup (printed_triple <$> steps (optimize_plan plan)) /\
    exists ks,
      selects ks (steps plan) (steps (optimize_plan plan)) /\
      (forall i step,
         steps plan !! i = Some step ->
         (i ∈ ks <->
          forall j earlier,
            (j < i)%nat -> steps plan !! j = Some earlier ->
            dotted (printed_triple earlier) <> dotted (printed_triple step))) /\
      (forall i step,
         steps plan !! i = Some step ->
         exists k first,
           k ∈ ks /\ (k <= i)%nat /\ steps plan !! k = Some first /\
           dotted (printed_triple first) = dotted (printed_triple step)) /\
      (forall k step j earlier,
         k ∈ ks -> steps plan !! k = Some step ->
         (j < k)%nat -> steps plan !! j = Some earlier ->
         printed_triple earlier <> printed_triple step) /\
      (Forall (fun step => dot_free (tool step) /\ dot_free (action step)) (steps plan) ->
       forall i step,
         steps plan !! i = Some step ->
         (i ∈ ks <->
          forall j earlier,
            (j < i)%nat -> steps plan !! j = Some earlier ->
            printed_triple earlier <> printed_triple step)).
Proof.
  intros plan. split; [|split].
  - unfold optimize_plan. cbn [intent steps confidence requires_confirmation].
    f_equal. apply optimize_loop_id.
    + apply optimize_loop_NoDup.
    + intros step _. apply not_elem_of_nil.
  - cbn [optimize_plan steps].
    pose proof (optimize_loop_NoDup (steps plan) []) as Hkeys.
    assert (Hmap : step_key <$> optimize_loop [] (steps plan)
                   = dotted <$> (printed_triple <$> optimize_loop [] (steps plan))).
    { rewrite <- list_fmap_compose. reflexivity. }
    rewrite Hmap in Hkeys. exact (NoDup_fmap_1 dotted _ Hkeys).
  - destruct (optimize_loop_positions (steps plan) []) as (ks & Hsel & Hks).
    assert (Hkept : forall i step,
               steps plan !! i = Some step ->
               (i ∈ ks <->
                forall j earlier,
                  (j < i)%nat -> steps plan !! j = Some earlier ->
                  step_key earlier <> step_key step)).
    { intros i step Hstep. rewrite (Hks i step Hstep). split.
      - intros [_ Hfirst]. exact Hfirst.
      - intros Hfirst. split; [apply not_elem_of_nil | exact Hfirst]. }
    exists ks. split; [exact Hsel|]. split; [|split; [|split]].
    + intros i step Hstep. rewrite (Hkept i step Hstep). split.
      * intros Hfirst j earlier Hj Hearlier. rewrite <- !step_key_dotted.
        exact (Hfirst j earlier Hj Hearlier).
      * intros Hfirst j earlier Hj Hearlier. rewrite !step_key_dotted.
        exact (Hfirst j earlier Hj Hearlier).
    + intros i step Hstep.
      destruct (first_of_key (steps plan) i step Hstep)
        as (k & first & Hk & Hfirst & Hsame & Hmin).
      exists k, first. rewrite <- !step_key_dotted.
      split; [|repeat split; assumption].
      apply (Hkept k first Hfirst). exact Hmin.
    + intros k step j earlier Hk Hstep Hj Hearlier Hprinted.
      destruct (Hkept k step Hstep) as [Hfirst _].
      apply (Hfirst Hk j earlier Hj Hearlier), printed_triple_step_key, Hprinted.
    + intros Hdots i step Hstep. rewrite (Hkept i step Hstep).
      rewrite Forall_forall in Hdots. split.
      * intros Hfirst j earlier Hj Hearlier Hprinted.
        apply (Hfirst j earlier Hj Hearlier), printed_triple_step_key, Hprinted.
      * intros Hfirst j earlier Hj Hearlier Hkey.
        apply (Hfirst j earlier Hj Hearlier).
        destruct (Hdots step) as [Ht Ha]; [apply list_elem_of_lookup; eauto|].
        destruct (Hdots earlier) as [Ht' Ha']; [apply list_elem_of_lookup; eauto|].
        apply step_key_inj; assumption.
Qed.

(** In the demo plan, where no name holds a dot, the deletion is kept, being
    the first step of its tool, action and parameters, and the second
    screenshot is not, the first step being the same. *)
Lemma optimize_plan_idempotent_witness :
  exists ks,
    selects ks (steps demo_plan) (steps (optimize_plan demo_plan)) /\
    (1%nat ∈ ks) /\ (2%nat ∉ ks).
Proof.
  destruct (optimize_plan_idempotent demo_plan)
    as (_ & _ & ks & Hsel & _ & _ & _ & Hfirst).
  exists ks. split; [exact Hsel|].
  pose proof (Hfirst ltac:(repeat constructor)) as Hiff. split.
  - apply (Hiff 1%nat delete_step); [reflexivity|].
    intros [|j] earlier Hj Hearlier; [|lia].
    injection Hearlier as <-. intros Heq. discriminate Heq.
  - intros Hin. destruct (Hiff 2%nat shot_step) as [Hfirst2 _]; [reflexivity|].
    apply (Hfirst2 Hin 0%nat shot_step); [lia | reflexivity | reflexivity].
Defined.

(** A plan that repeats its first step: the copy goes, the order stays. *)
Example optimize_plan_drops_the_copy :
  let shot := mkPlanStep "pc_actions" "take_screenshot" [] "Take screenshot" in
  let mute := mkPlanStep "pc_actions" "control_volume" [("action", Py.VStr "mute")]
                "Volume mute" in
  steps (optimize_plan (mkExecutionPlan "workflow_demo" [shot; mute; shot] 1%Q false))
    = [shot; mute].
Proof. vm_compute. reflexivity. Qed.

(** ** Executor *)

Section ExecutorFacts.

Context {W : Type}.
Implicit Types (self : ExecutorAgent W) (s : System W) (rest : list PlanStep).

(** What the loop of [execute_plan] adds to [step_results]: one entry per
    step run, in order; it stops after a failed critical step and runs
    everything otherwise; the flag stays [True] only if every entry is a
    success. *)
Lemma execute_steps_results self rest :
  forall i acc ok s,
    exists new,
      (execute_steps self i rest acc ok s).1.1 = acc ++ new /\
      (length new <= length rest)%nat /\
      (forall j r, new !! j = Some r ->
         exists step, rest !! j = Some step /\ result_of step r /\
                      sr_step_number r = Z.of_nat (i + j) + 1) /\
      (forall j r, new !! j = Some r -> step_failed r ->
         sr_action r ∈ critical_actions -> length new = S j) /\
      ((forall r, r ∈ new -> step_failed r -> sr_action r ∉ critical_actions) ->
         length new = length rest) /\
      (execute_steps self i rest acc ok s).1.2
        = ok && forallb (fun r => Py.truthy (sr_success r)) new.
Proof.
  induction rest as [|step rest IH]; intros i acc ok s.
  - exists []. cbn. rewrite app_nil_r, andb_true_r.
    repeat split; try reflexivity; try lia.
    + intros j r Hj. discriminate Hj.
    + intros j r Hj. discriminate Hj.
  - cbn [execute_steps].
    destruct (_execute_step self step _) as [result s2].
    set (r0 := mkStepResult _ _ _ _ _ _ _).
    set (s3 := log_automation _ _ _ _ _).
    assert (Hr0 : result_of step r0 /\ sr_step_number r0 = Z.of_nat (i + 0) + 1).
    { unfold result_of. cbn. repeat split. f_equal. lia. }
    assert (Hsucc : sr_success r0 = result_success result) by reflexivity.
    destruct (Py.truthy (result_success result)) eqn:Hok; cbn [negb].
    + (* the step succeeded *)
      destruct (IH (S i) (acc ++ [r0]) ok (sleep_100ms s3))
        as (new & Hres & Hlen & Hat & Hstop & Hall & Hflag).
      exists (r0 :: new). rewrite Hres, Hflag. cbn [forallb length].
      rewrite Hsucc, Hok, <- app_assoc. cbn [app andb].
      split; [reflexivity|]. split; [lia|]. split; [|split; [|split]].
      * intros [|j] r Hj.
        -- injection Hj as <-. exists step. split; [reflexivity | exact Hr0].
        -- destruct (Hat j r Hj) as (step' & Hstep' & Hof & Hnum).
           exists step'. split; [exact Hstep'|]. split; [exact Hof|].
           rewrite Hnum. f_equal. lia.
      * intros [|j] r Hj Hfailed Hcritical.
        -- injection Hj as <-. unfold step_failed in Hfailed.
           rewrite Hsucc, Hok in Hfailed. discriminate Hfailed.
        -- f_equal. exact (Hstop j r Hj Hfailed Hcritical).
      * intros Hmild. f_equal. apply Hall.
        intros r Hr. apply Hmild. right. exact Hr.
      * reflexivity.
    + (* the step failed *)
      unfold _is_critical_step. destruct (bool_decide_reflect (action step ∈ critical_actions))
        as [Hcritical|Hmild0].
      * exists [r0]. cbn [fst snd forallb length]. rewrite Hsucc, Hok, andb_false_r.
        split; [reflexivity|]. split; [lia|]. split; [|split; [|split]].
        -- intros [|j] r Hj; [|discriminate Hj].
           injection Hj as <-. exists step. split; [reflexivity | exact Hr0].
        -- intros [|j] r Hj _ _; [reflexivity | discriminate Hj].
        -- intros Hmild. destruct (Hmild r0); [left | exact Hok | exact Hcritical].
        -- reflexivity.
      * destruct (IH (S i) (acc ++ [r0]) false (sleep_100ms s3))
          as (new & Hres & Hlen & Hat & Hstop & Hall & Hflag).
        exists (r0 :: new). rewrite Hres, Hflag. cbn [forallb length].
        rewrite Hsucc, Hok, <- app_assoc, andb_false_r. cbn [app andb].
        split; [reflexivity|]. split; [lia|]. split; [|split; [|split]].
        -- intros [|j] r Hj.
           ++ injection Hj as <-. exists step. split; [reflexivity | exact Hr0].
           ++ destruct (Hat j r Hj) as (step' & Hstep' & Hof & Hnum).
              exists step'. split; [exact Hstep'|]. split; [exact Hof|].
              rewrite Hnum. f_equal. lia.
        -- intros [|j] r Hj Hfailed Hcritical.
           ++ injection Hj as <-. destruct (Hmild0 Hcritical).
           ++ f_equal. exact (Hstop j r Hj Hfailed Hcritical).
        -- intros Hmild. f_equal. apply Hall.
           intros r Hr. apply Hmild. right. exact Hr.
        -- reflexivity.
Qed.

Lemma execute_plan_unfold self plan s :
  execute_plan self plan s =
    let out := execute_steps self 0 (steps plan) [] true s in
    let total_duration := clock out.2 - clock s in
    (mkExecutionResult out.1.2 plan out.1.1 total_duration
       (if out.1.2 then
          "Successfully executed " +:+ Py.str_int (Z.of_nat (length out.1.1)) +:+ " steps"
        else
          "Execution completed with " +:+ Py.str_int (Z.of_nat (failed_count out.1.1))
            +:+ " failures"),
     log_usage (intent plan) "ExecutorAgent" out.1.2 total_duration
       [("steps", Py.VInt (Z.of_nat (length out.1.1)))] out.2).
Proof.
  unfold execute_plan.
  destruct (execute_steps self 0 (steps plan) [] true s) as [[results ok] s1].
  reflexivity.
Qed.





End ExecutorFacts.


Section UsageFacts.

Context {W : Type}.
Implicit Types (self : ExecutorAgent W) (s : System W).

Lemma _execute_step_keeps_usage self step s :
  handlers_keep_usage self ->
  usage_stats (_execute_step self step s).2 = usage_stats s.
Proof.
  intros Hkeep. unfold _execute_step.
  destruct (tool_get (tool_map self) (tool step)) as [t|] eqn:Htool; [|reflexivity].
  destruct (t (action step)) as [h|] eqn:Hmethod; [|reflexivity].
  pose proof (Hkeep _ _ _ h (params step) s Htool Hmethod) as Hh.
  destruct (h (params step) s) as [[result|e] s']; exact Hh.
Qed.

Lemma execute_steps_keeps_usage self rest :
  handlers_keep_usage self ->
  forall i acc ok s, usage_stats (execute_steps self i rest acc ok s).2 = usage_stats s.
Proof.
  intros Hkeep. induction rest as [|step rest IH]; intros i acc ok s.
  - reflexivity.
  - cbn [execute_steps].
    pose proof (_execute_step_keeps_usage self step
                  (log_agent_action "ExecutorAgent"
                     ("Executing step " +:+ Py.str_int (Z.of_nat i + 1))
                     [("tool", Py.VStr (tool step)); ("action", Py.VStr (action step))] s)
                  Hkeep) as Hstep.
    destruct (_execute_step self step _) as [result s2]. cbn in Hstep.
    destruct (negb (Py.truthy (result_success result))).
    + destruct (_is_critical_step step); [exact Hstep|].
      rewrite IH. exact Hstep.
    + rewrite IH. exact Hstep.
Qed.

(** C8, amended: every call of [execute_plan], whatever became of the
    steps, adds one row to the usage table once the steps have run: the
    plan's intent label in the command column, the agent name
    [ExecutorAgent], the overall success, the total duration and the number
    of entries of [step_results]. When no tool writes usage rows of its own,
    the table is the old one with this row at the end. *)
Theorem execute_plan_logs_usage_once :
  forall self plan s,
    let out := execute_plan self plan s in
    let after_steps := (execute_steps self 0 (steps plan) [] true s).2 in
    let record :=
      mkUsageRecord (intent plan) "ExecutorAgent" (success out.1)
        (total_duration_ms out.1)
        [("steps", Py.VInt (Z.of_nat (length (step_results out.1))))] in
    usage_stats out.2 = usage_stats after_steps ++ [record] /\
    (handlers_keep_usage self -> usage_stats out.2 = usage_stats s ++ [record]).
Proof.
  intros self plan s out after_steps record. subst out after_steps record.
  rewrite execute_plan_unfold. cbn [fst snd success total_duration_ms step_results
                                   log_usage usage_stats].
  split; [reflexivity|].
  intros Hkeep. rewrite (execute_steps_keeps_usage self (steps plan) Hkeep). reflexivity.
Qed.

(** C7: [dry_run] leaves the whole system as it was, so no handler ran
    and the pending queue, the audit log and the usage table are untouched;
    its answer does not depend on the tools, and reports [len(plan.steps)]
    steps, one summary per step. *)
Theorem dry_run_changes_nothing :
  forall self (other : ExecutorAgent W) plan s,
    let summary := (dry_run self plan s).1 in
    let s' := (dry_run self plan s).2 in
    s' = s /\
    Permissions.pending_requests (permission_manager s')
      = Permissions.pending_requests (permission_manager s) /\
    Permissions.audit_log (permission_manager s')
      = Permissions.audit_log (permission_manager s) /\
    usage_stats s' = usage_stats s /\
    (dry_run other plan s).1 = summary /\
    dr_total_steps summary = Z.of_nat (length (steps plan)) /\
    length (dr_steps summary) = length (steps plan) /\
    dr_requires_confirmation summary = requires_confirmation plan.
Proof.
  intros self other plan s summary s'. subst summary s'.
  unfold dry_run. cbn [fst snd dr_total_steps dr_steps dr_requires_confirmation].
  repeat split.
  generalize 0%nat. induction (steps plan) as [|step rest IH]; intros i.
  - reflexivity.
  - cbn. f_equal. apply IH.
Qed.

End UsageFacts.

(** C8, as stated, fails: the row holds the plan's intent label where the
    specification has the command text. For the command [volume up] the command
    column reads [volume_control], and neither the agent column nor the
    metadata holds the command. *)
Lemma usage_record_holds_the_intent_label :
  let command := "volume up" in
  let out := execute_plan bare_agent (create_plan command) initial_system in
  exists record,
    usage_stats out.2 = [record] /\
    usage_command record = "volume_control" /\
    usage_command record <> command /\
    usage_agent record <> command /\
    usage_metadata record = [("steps", Py.VInt 1)].
Proof.
  cbv zeta. eexists. split; [vm_compute; reflexivity|].
  cbn. repeat split; discriminate.
Qed.

(** The row the demo plan leaves: intent label, agent, failure, and two
    steps run out of three. *)
Lemma execute_plan_logs_usage_once_witness :
  exists duration,
    usage_stats (execute_plan demo_agent demo_plan initial_system).2
      = [mkUsageRecord "workflow_demo" "ExecutorAgent" false duration
           [("steps", Py.VInt 2)]].
Proof.
  assert (Hkeep : handlers_keep_usage demo_agent).
  { intros name t method_name h kwargs s Htool Hmethod.
    cbn [tool_map demo_agent tool_get] in Htool.
    repeat match type of Htool with
           | (if String.eqb ?a name then _ else _) = _ => destruct (String.eqb a name)
           end;
      try discriminate Htool; injection Htool as <-;
      unfold demo_pc_actions, demo_file_actions in Hmethod;
      match type of Hmethod with
      | (if ?c then _ else _) = _ => destruct c
      end;
      try discriminate Hmethod; injection Hmethod as <-; reflexivity. }
  eexists.
  rewrite (proj2 (execute_plan_logs_usage_once demo_agent demo_plan initial_system) Hkeep).
  vm_compute. reflexivity.
Defined.

(** * Further properties *)

(** ** Permission manager: reading the audit log *)

Section AuditLog.
Import Gate Spec2.

Implicit Types (pm : PermissionManager) (permission_type : option string).

(** X1: with a limit of at least one, [get_audit_log] returns the [limit]
    most recent entries of the wanted type, the newest first, or all of
    them when there are fewer. *)
Theorem get_audit_log_most_recent limit permission_type pm :
  1 <= limit ->
  let matching := List.filter (type_matches permission_type) (audit_log pm) in
  get_audit_log limit permission_type pm = take (Z.to_nat limit) (reverse matching) /\
  length (get_audit_log limit permission_type pm)
    = Nat.min (Z.to_nat limit) (length matching) /\
  (forall e, e ∈ get_audit_log limit permission_type pm ->
             e ∈ audit_log pm /\ type_matches permission_type e = true).
Proof.
  intros Hlimit matching.
  assert (Hget : get_audit_log limit permission_type pm
                 = take (Z.to_nat limit) (reverse matching)).
  { unfold get_audit_log, slice_from. fold matching.
    destruct (Z.ltb_spec (- limit) 0) as [_|Hneg]; [|lia].
    rewrite take_reverse. do 2 f_equal. lia. }
  split; [exact Hget|]. split.
  - rewrite Hget, length_take, length_reverse. reflexivity.
  - intros e He. rewrite Hget in He.
    apply (subseteq_take (Z.to_nat limit)) in He. rewrite elem_of_reverse in He.
    subst matching.
    apply list_elem_of_In, filter_In in He as [Hin Hmatch].
    split; [apply list_elem_of_In, Hin | exact Hmatch].
Qed.

(** X2: a limit of zero does not give an empty answer: the slice
    [logs[-0:]] is the whole list, so every matching entry comes back. A
    negative limit [-k] drops the [k] oldest entries instead. *)
Theorem get_audit_log_without_limit limit permission_type pm :
  limit <= 0 ->
  let matching := List.filter (type_matches permission_type) (audit_log pm) in
  get_audit_log limit permission_type pm
    = reverse (drop (Z.to_nat (- limit)) matching) /\
  get_audit_log 0 permission_type pm = reverse matching.
Proof.
  intros Hlimit matching.
  assert (Hslice : forall k, k <= 0 ->
             get_audit_log k permission_type pm
             = reverse (drop (Z.to_nat (- k)) matching)).
  { intros k Hk. unfold get_audit_log, slice_from. fold matching.
    destruct (Z.ltb_spec (- k) 0) as [Hneg|_]; [lia|].
    f_equal. destruct (Z.min_spec (- k) (Z.of_nat (length matching)))
      as [[_ ->]|[Hle ->]]; [reflexivity|].
    rewrite Nat2Z.id. rewrite !drop_ge by lia. reflexivity. }
  split; [apply Hslice, Hlimit|].
  rewrite (Hslice 0) by lia. reflexivity.
Qed.

End AuditLog.

(** Three entries, two about files: a limit of two gives the two newest. *)
Lemma get_audit_log_most_recent_witness :
  let e1 := mkAuditLogEntry 1 "create_file" "files" "low" "granted" [] "system" in
  let e2 := mkAuditLogEntry 2 "take_screenshot" "screen_capture" "medium" "denied" [] "system" in
  let e3 := mkAuditLogEntry 3 "delete_file" "files" "high" "approved" [] "user" in
  let pm := mkPermissionManager [] [] [e1; e2; e3] in
  Gate.get_audit_log 2 None pm = [e3; e2] /\
  Gate.get_audit_log 5 (Some "files") pm = [e3; e1].
Proof.
  intros e1 e2 e3 pm. split.
  - rewrite (proj1 (get_audit_log_most_recent 2 None pm ltac:(lia))). reflexivity.
  - rewrite (proj1 (get_audit_log_most_recent 5 (Some "files") pm ltac:(lia))). reflexivity.
Defined.

(** The same log read with the limits 0 and -1. *)
Lemma get_audit_log_without_limit_witness :
  let e1 := mkAuditLogEntry 1 "create_file" "files" "low" "granted" [] "system" in
  let e2 := mkAuditLogEntry 2 "take_screenshot" "screen_capture" "medium" "denied" [] "system" in
  let e3 := mkAuditLogEntry 3 "delete_file" "files" "high" "approved" [] "user" in
  let pm := mkPermissionManager [] [] [e1; e2; e3] in
  Gate.get_audit_log 0 None pm = [e3; e2; e1] /\
  Gate.get_audit_log (-1) None pm = [e3; e2].
Proof.
  intros e1 e2 e3 pm. split.
  - rewrite (proj2 (get_audit_log_without_limit 0 None pm ltac:(lia))). reflexivity.
  - rewrite (proj1 (get_audit_log_without_limit (-1) None pm ltac:(lia))). reflexivity.
Defined.

(** ** Permission manager: the pending queue over time *)

Section PendingQueue.
Import Gate Spec2.

Implicit Types (pm : PermissionManager) (config : PermissionsConfig).

Lemma delete_last {A : Type} (l : list A) (x : A) : delete (length l) (l ++ [x]) = l.
Proof. induction l as [|y l IH]; [reflexivity|]. cbn. f_equal. exact IH. Qed.

(** X3: a request that [check_permission] has queued sits at the end of
    the queue, at the index the queue had as its length; approving or
    denying that index gives the old queue back and logs the action, the
    category and the parameters of that very check. *)
Theorem check_then_resolve config now later permission_type action risk_level params pm :
  category_enabled config permission_type = true ->
  asks_every_time config permission_type = true ->
  let queued := (check_permission config now permission_type action risk_level params pm).2 in
  let index := Z.of_nat (length (pending_requests pm)) in
  resolves_check "approved" action permission_type params pm
    (approve_request later index queued) /\
  resolves_check "denied_by_user" action permission_type params pm
    (deny_request later index queued).
Proof.
  intros Henabled Hasks queued index.
  assert (Hqueue : exists request,
             pending_requests queued = pending_requests pm ++ [request] /\
             audit_log queued = audit_log pm /\
             req_action request = action /\
             req_permission_type request = permission_type /\
             req_params request = match params with Some d => d | None => [] end).
  { subst queued. unfold check_permission.
    rewrite permission_map_enabled, ask_every_time_map_asks, Henabled, Hasks.
    cbn. eexists. repeat split; reflexivity. }
  destruct Hqueue as (request & Hpending & Haudit & Haction & Htype & Hparams).
  assert (Hguard : (0 <=? index) && (index <? Z.of_nat (length (pending_requests queued)))
                   = true).
  { rewrite Hpending, length_app. cbn. subst index.
    apply andb_true_iff. split; [apply Z.leb_le | apply Z.ltb_lt]; lia. }
  assert (Hlookup : pending_requests queued !! Z.to_nat index = Some request).
  { rewrite Hpending. subst index. rewrite Nat2Z.id.
    rewrite lookup_app_r by lia. rewrite Nat.sub_diag. reflexivity. }
  assert (Hdelete : delete (Z.to_nat index) (pending_requests queued) = pending_requests pm).
  { rewrite Hpending. subst index. rewrite Nat2Z.id. apply delete_last. }
  split; unfold approve_request, deny_request, resolves_check;
    rewrite Hguard, Hlookup; cbn [fst snd _save_pending_requests _log_audit
                                   pending_requests audit_log];
    (split; [reflexivity|]); (split; [exact Hdelete|]);
    eexists; rewrite Haudit; (split; [reflexivity|]); cbn;
    rewrite Haction, Htype, Hparams; repeat split; reflexivity.
Qed.

(** The round trip of one request through its dictionary. *)
Lemma of_dict_to_dict (r : PermissionRequest) : of_dict (to_dict r) = Some r.
Proof. destruct r as [permission_type a d risk_level p t]. destruct permission_type, risk_level; reflexivity. Qed.

Lemma of_dicts_to_dicts (l : list PermissionRequest) : of_dicts (to_dict <$> l) = Some l.
Proof.
  induction l as [|r l IH]; [reflexivity|].
  cbn. rewrite of_dict_to_dict, IH. reflexivity.
Qed.


Lemma of_dicts_bad_entry (data : list RequestDict) (d : RequestDict) :
  d ∈ data -> of_dict d = None -> of_dicts data = None.
Proof.
  intros Hin Hbad. induction data as [|d' data IH]; [inversion Hin|].
  cbn. apply elem_of_cons in Hin as [<-|Hin].
  - rewrite Hbad. reflexivity.
  - destruct (of_dict d'); [|reflexivity]. rewrite (IH Hin). reflexivity.
Qed.

(** X5: loading is all or nothing: when one stored request names a
    permission type or a risk level that is no member of the enumeration,
    the manager starts with an empty queue and the other stored requests are
    not loaded either. *)
Theorem load_with_a_bad_entry data d pm0 :
  d ∈ data ->
  PermissionType_of_value (d_permission_type d) = None \/
  RiskLevel_of_value (d_risk_level d) = None ->
  pending_requests (init (Some data) pm0) = [].
Proof.
  intros Hin Hbad.
  assert (Hd : of_dict d = None).
  { unfold of_dict. destruct Hbad as [-> | Hrisk]; [reflexivity|].
    rewrite Hrisk. destruct (PermissionType_of_value _); reflexivity. }
  unfold init, _load_pending_requests.
  rewrite (of_dicts_bad_entry data d Hin Hd). reflexivity.
Qed.

(** What one call does to the audit log: nothing, or one known entry at
    the end. *)
Lemma run_call_audit config pm c :
  audit_log (run_call config pm c) = audit_log pm \/
  exists e, audit_log (run_call config pm c) = audit_log pm ++ [e] /\ known_entry e.
Proof.
  destruct c as [now permission_type action risk_level params|now i|now i]; cbn [run_call].
  - unfold check_permission.
    destruct (negb (flag_get (permission_map config) permission_type)).
    + right. eexists. split; [reflexivity|]. right. left. split; reflexivity.
    + destruct (flag_get (ask_every_time_map config) permission_type).
      * left. reflexivity.
      * right. eexists. split; [reflexivity|]. left. split; reflexivity.
  - unfold approve_request.
    destruct ((0 <=? i) && (i <? Z.of_nat (length (pending_requests pm)))); [|left; reflexivity].
    destruct (pending_requests pm !! Z.to_nat i); [|left; reflexivity].
    right. eexists. split; [reflexivity|]. right. right. left. split; reflexivity.
  - unfold deny_request.
    destruct ((0 <=? i) && (i <? Z.of_nat (length (pending_requests pm)))); [|left; reflexivity].
    destruct (pending_requests pm !! Z.to_nat i); [|left; reflexivity].
    right. eexists. split; [reflexivity|]. right. right. right. split; reflexivity.
Qed.

(** X6: the audit log is append-only. Over any sequence of checks,
    approvals and denials the old log stays as the beginning of the new one,
    a call adds one entry at most, and every entry added has one of the four
    statuses, [granted] and [denied] written by [system], [approved] and
    [denied_by_user] by [user]. *)
Theorem audit_log_only_grows config cs :
  forall pm,
    audit_log pm `prefix_of` audit_log (run_calls config cs pm) /\
    (length (audit_log (run_calls config cs pm)) <= length (audit_log pm) + length cs)%nat /\
    (Forall known_entry (audit_log pm) ->
     Forall known_entry (audit_log (run_calls config cs pm))).
Proof.
  induction cs as [|c cs IH]; intros pm.
  - cbn. split; [reflexivity|]. split; [lia | tauto].
  - unfold run_calls in *. cbn [fold_left length].
    destruct (IH (run_call config pm c)) as (Hprefix & Hlen & Hknown).
    destruct (run_call_audit config pm c) as [Hsame|(e & Hadd & He)].
    + rewrite Hsame in *. split; [exact Hprefix|]. split; [lia | exact Hknown].
    + rewrite Hadd in *. rewrite length_app in Hlen. cbn in Hlen.
      split; [|split; [lia|]].
      * etransitivity; [|exact Hprefix]. apply prefix_app_r. reflexivity.
      * intros Hold. apply Hknown, Forall_app. split; [exact Hold|].
        constructor; [exact He | constructor].
Qed.

(** One call keeps the file equal to the queue. *)
Lemma run_call_in_sync config pm c : in_sync pm -> in_sync (run_call config pm c).
Proof.
  unfold in_sync. intros Hsync.
  destruct c as [now permission_type action risk_level params|now i|now i]; cbn [run_call].
  - unfold check_permission.
    destruct (negb (flag_get (permission_map config) permission_type)); [exact Hsync|].
    destruct (flag_get (ask_every_time_map config) permission_type);
      [reflexivity | exact Hsync].
  - unfold approve_request.
    destruct ((0 <=? i) && (i <? Z.of_nat (length (pending_requests pm)))); [|exact Hsync].
    destruct (pending_requests pm !! Z.to_nat i); [reflexivity | exact Hsync].
  - unfold deny_request.
    destruct ((0 <=? i) && (i <? Z.of_nat (length (pending_requests pm)))); [|exact Hsync].
    destruct (pending_requests pm !! Z.to_nat i); [reflexivity | exact Hsync].
Qed.

(** X7: no pending request is lost by a restart. From a manager whose
    file holds its queue, any sequence of checks, approvals and denials
    leaves the file equal to the queue, and a manager started on that file
    has the same queue. *)
Theorem restart_keeps_the_queue config cs :
  forall pm,
    in_sync pm ->
    let pm' := run_calls config cs pm in
    in_sync pm' /\
    pending_requests (init (file_content pm') pm') = pending_requests pm'.
Proof.
  induction cs as [|c cs IH]; intros pm Hsync.
  - cbn zeta. cbn [run_calls fold_left]. split; [exact Hsync|].
    unfold init, _load_pending_requests, file_content.
    rewrite of_dicts_to_dicts. cbn. exact Hsync.
  - exact (IH (run_call config pm c) (run_call_in_sync config pm c Hsync)).
Qed.

(** X8: an approval is not remembered. While a category is enabled and
    asks every time, every check of it is refused with the request for
    confirmation, whatever was checked, approved or denied before. *)
Theorem approval_never_grants config cs pm now permission_type action risk_level params :
  category_enabled config permission_type = true ->
  asks_every_time config permission_type = true ->
  let pm' := run_calls config cs pm in
  (check_permission config now permission_type action risk_level params pm').1
    = (false, Some confirmation_reason) /\
  length (pending_requests
            (check_permission config now permission_type action risk_level params pm').2)
    = S (length (pending_requests pm')).
Proof.
  intros Henabled Hasks pm'. unfold check_permission.
  rewrite permission_map_enabled, ask_every_time_map_asks, Henabled, Hasks.
  cbn. rewrite length_app. cbn. split; [reflexivity | lia].
Qed.

End PendingQueue.

(** File access enabled and asking: a deletion is queued, and approving
    index 0 empties the queue again. *)
Lemma check_then_resolve_witness :
  let config := mkPermissionsConfig true false false false false false false
                                    true true true true true in
  let queued :=
    (check_permission config 5 FILES "delete_file" HIGH
       (Some [("path", Py.VStr "a.txt")]) empty_manager).2 in
  length (pending_requests queued) = 1%nat /\
  pending_requests (approve_request 6 0 queued).2 = [].
Proof.
  intros config queued. split; [reflexivity|].
  exact (proj1 (proj2 (proj1
    (check_then_resolve config 5 6 FILES "delete_file" HIGH
       (Some [("path", Py.VStr "a.txt")]) empty_manager eq_refl eq_refl)))).
Defined.

(** A file whose second request has the unknown type [usb]: the first
    request is lost with it. *)
Lemma load_with_a_bad_entry_witness :
  let good := Gate.mkRequestDict "files" "delete_file" "Delete file: a.txt" "high"
                [("path", Py.VStr "a.txt")] 5 in
  let bad := Gate.mkRequestDict "usb" "eject" "Action: eject" "low" [] 6 in
  Gate.of_dict good <> None /\
  pending_requests (Gate.init (Some [good; bad]) empty_manager) = [].
Proof.
  intros good bad. split; [discriminate|].
  apply (load_with_a_bad_entry [good; bad] bad empty_manager).
  - right. left.
  - left. reflexivity.
Defined.

(** Two screenshots asked for, the first approved: the second is still
    pending after a restart. *)
Lemma restart_keeps_the_queue_witness :
  let config := mkPermissionsConfig false false true false false false false
                                    true true true true true in
  let cs := [Gate.Check 1 SCREEN_CAPTURE "take_screenshot" MEDIUM None;
             Gate.Check 2 SCREEN_CAPTURE "take_screenshot" MEDIUM None;
             Gate.Approve 3 0] in
  let pm' := Gate.run_calls config cs empty_manager in
  Spec2.in_sync empty_manager /\
  pending_requests (Gate.init (Spec2.file_content pm') pm')
    = [mkPermissionRequest SCREEN_CAPTURE "take_screenshot" "Capture screen screenshot"
         MEDIUM [] 2].
Proof.
  intros config cs pm'.
  assert (Hsync : Spec2.in_sync empty_manager) by reflexivity.
  split; [exact Hsync|]. subst pm'.
  rewrite (proj2 (restart_keeps_the_queue config cs empty_manager Hsync)).
  reflexivity.
Defined.

(** After an approved screenshot the next one is refused all the same. *)
Lemma approval_never_grants_witness :
  let config := mkPermissionsConfig false false true false false false false
                                    true true true true true in
  let cs := [Gate.Check 1 SCREEN_CAPTURE "take_screenshot" MEDIUM None;
             Gate.Approve 2 0] in
  (check_permission config 3 SCREEN_CAPTURE "take_screenshot" MEDIUM None
     (Gate.run_calls config cs empty_manager)).1
    = (false, Some confirmation_reason).
Proof.
  intros config cs.
  exact (proj1 (approval_never_grants config cs empty_manager 3 SCREEN_CAPTURE
                  "take_screenshot" MEDIUM None eq_refl eq_refl)).
Defined.

(** ** Planner: which intent wins *)

Section BestIntent.
Import PlanSpec.

Variable command : string.

(** One hit of the inner loop of [parse_intent]. *)
Let hit (best : string * Q * Entities) (h : string * Q) : string * Q * Entities :=
  if negb (Qle_bool (snd h) (snd (fst best)))
  then (fst h, snd h, _extract_entities command (fst h))
  else best.

Lemma try_pattern_hit intent best pattern_info :
  try_pattern command (Str.lower command) intent best pattern_info
  = if Re.found (fst pattern_info) (Str.lower command)
    then hit best (intent, snd pattern_info)
    else best.
Proof.
  unfold try_pattern, hit. destruct best as [[best_intent best_confidence] entities].
  destruct pattern_info as [pattern base_confidence]. cbn [fst snd].
  destruct (Re.found pattern (Str.lower command)); reflexivity.
Qed.

Lemma try_patterns_hits intent patterns :
  forall best,
    fold_left (try_pattern command (Str.lower command) intent) patterns best
    = fold_left hit
        (map (fun pattern_info : Re.regex * Q => (intent, snd pattern_info))
             (List.filter (fun pattern_info : Re.regex * Q =>
                             Re.found (fst pattern_info) (Str.lower command))
                          patterns))
        best.
Proof.
  induction patterns as [|pattern_info patterns IH]; intros best; [reflexivity|].
  cbn [fold_left List.filter]. rewrite try_pattern_hit, IH.
  destruct (Re.found (fst pattern_info) (Str.lower command)); reflexivity.
Qed.

(** [parse_intent] is one pass over the hits. *)
Lemma parse_intent_hits :
  parse_intent command = fold_left hit (hits command) ("unknown", 0%Q, no_entities).
Proof.
  unfold parse_intent, hits.
  generalize ("unknown", 0%Q, no_entities).
  induction _load_intent_patterns as [|[intent patterns] table IH]; intros best.
  - reflexivity.
  - cbn [fold_left flat_map fst snd]. rewrite fold_left_app, <- IH.
    rewrite try_patterns_hits. reflexivity.
Qed.

(** A pass over hits [h] from the best so far: either nothing beats it, or
    the winner of [h] is returned, which does. *)
Lemma fold_hit_wins (h : list (string * Q)) :
  forall best,
    (fold_left hit h best = best /\
     forall j i c, h !! j = Some (i, c) -> (c <= snd (fst best))%Q) \/
    (exists k intent confidence,
       fold_left hit h best = (intent, confidence, _extract_entities command intent) /\
       wins h k intent confidence /\
       (snd (fst best) < confidence)%Q).
Proof.
  induction h as [|[i1 c1] h IH]; intros best.
  - left. split; [reflexivity|]. intros j i c Hj. discriminate Hj.
  - cbn [fold_left].
    assert (Hstep : hit best (i1, c1)
                    = if negb (Qle_bool c1 (snd (fst best)))
                      then (i1, c1, _extract_entities command i1) else best)
      by reflexivity.
    rewrite Hstep. clear Hstep.
    destruct (Qle_bool c1 (snd (fst best))) eqn:Hle; cbn [negb].
    + apply Qle_bool_iff in Hle.
      destruct (IH best) as [[Hsame Hall]|(k & intent & confidence & Hres & Hwin & Hlt)].
      * left. split; [exact Hsame|].
        intros [|j] i c Hj; [injection Hj as <- <-; exact Hle | exact (Hall j i c Hj)].
      * right. exists (S k), intent, confidence. split; [exact Hres|]. split; [|exact Hlt].
        destruct Hwin as (Hk & Hmax & Hfirst). split; [exact Hk|]. split.
        -- intros [|j] i c Hj; [|exact (Hmax j i c Hj)].
           injection Hj as <- <-. apply Qlt_le_weak. eapply Qle_lt_trans; eassumption.
        -- intros [|j] i c Hlt' Hj; [|apply (Hfirst j i c); [lia | exact Hj]].
           injection Hj as <- <-. eapply Qle_lt_trans; eassumption.
    + assert (Hgt : (snd (fst best) < c1)%Q).
      { apply Qnot_le_lt. intros Hc. apply Qle_bool_iff in Hc. congruence. }
      destruct (IH (i1, c1, _extract_entities command i1))
        as [[Hsame Hall]|(k & intent & confidence & Hres & Hwin & Hlt)]; cbn [fst snd] in *.
      * right. exists 0%nat, i1, c1. split; [exact Hsame|]. split; [|exact Hgt].
        split; [reflexivity|]. split.
        -- intros [|j] i c Hj; [|exact (Hall j i c Hj)].
           injection Hj as <- <-. apply Qle_refl.
        -- intros j i c Hlt'. lia.
      * right. exists (S k), intent, confidence. split; [exact Hres|].
        split; [|eapply Qlt_trans; eassumption].
        destruct Hwin as (Hk & Hmax & Hfirst). split; [exact Hk|]. split.
        -- intros [|j] i c Hj; [|exact (Hmax j i c Hj)].
           injection Hj as <- <-. apply Qlt_le_weak, Hlt.
        -- intros [|j] i c Hlt' Hj; [|apply (Hfirst j i c); [lia | exact Hj]].
           injection Hj as <- <-. exact Hlt.
Qed.

(** Where a hit comes from. *)
Lemma hits_in_table intent confidence :
  In (intent, confidence) (hits command) <->
  exists patterns pattern,
    In (intent, patterns) _load_intent_patterns /\
    In (pattern, confidence) patterns /\
    Re.found pattern (Str.lower command) = true.
Proof.
  unfold hits. rewrite in_flat_map. split.
  - intros ([i patterns] & Hentry & Hin). cbn [fst snd] in Hin.
    apply in_map_iff in Hin as ([pattern c] & Heq & Hin). cbn [fst snd] in Heq.
    injection Heq as <- <-. apply filter_In in Hin as [Hin Hfound].
    exists patterns, pattern. repeat split; assumption.
  - intros (patterns & pattern & Hentry & Hin & Hfound).
    exists (intent, patterns). split; [exact Hentry|]. cbn [fst snd].
    apply in_map_iff. exists (pattern, confidence). split; [reflexivity|].
    apply filter_In. split; assumption.
Qed.

(** Every pattern of the table has a confidence between 0.85 and 0.95,
    and no intent of the table is called [unknown]. *)
Lemma table_ranges :
  Forall (fun entry : string * list (Re.regex * Q) =>
            fst entry <> "unknown" /\
            Forall (fun pattern_info : Re.regex * Q =>
                      (0.85 <= snd pattern_info)%Q /\ (snd pattern_info <= 0.95)%Q)
                   (snd entry))
         _load_intent_patterns.
Proof.
  unfold _load_intent_patterns.
  repeat (constructor;
          [split; [discriminate|];
           repeat (constructor; [split; vm_compute; discriminate|]); constructor|]).
  constructor.
Qed.

Lemma hit_ranges intent confidence :
  In (intent, confidence) (hits command) ->
  intent <> "unknown" /\ (0.85 <= confidence)%Q /\ (confidence <= 0.95)%Q /\
  In intent (map fst _load_intent_patterns).
Proof.
  intros Hin. apply hits_in_table in Hin as (patterns & pattern & Hentry & Hin & _).
  pose proof table_ranges as Htable. rewrite Forall_forall in Htable.
  destruct (Htable (intent, patterns)) as [Hname Hpatterns];
    [apply list_elem_of_In, Hentry|].
  rewrite Forall_forall in Hpatterns.
  destruct (Hpatterns (pattern, confidence)) as [Hlow Hhigh];
    [apply list_elem_of_In, Hin|].
  split; [exact Hname|]. split; [exact Hlow|]. split; [exact Hhigh|].
  apply in_map_iff. exists (intent, patterns). split; [reflexivity | exact Hentry].
Qed.

(** X9: [parse_intent] returns the hit of highest confidence, and among
    hits of that confidence the first in the order of the table (a later
    pattern has to be strictly better to replace an earlier one); the
    entities are those extracted for the winning intent. Without a hit it
    returns [unknown], [0.0] and no entity. *)
Theorem parse_intent_takes_the_best :
  match hits command with
  | [] => parse_intent command = ("unknown", 0%Q, no_entities)
  | _ :: _ =>
      exists k intent confidence,
        parse_intent command = (intent, confidence, _extract_entities command intent) /\
        wins (hits command) k intent confidence
  end.
Proof.
  rewrite parse_intent_hits.
  destruct (fold_hit_wins (hits command) ("unknown", 0%Q, no_entities))
    as [[Hsame Hall]|(k & intent & confidence & Hres & Hwin & _)].
  - destruct (hits command) as [|[i c] h] eqn:Hhits; [reflexivity|].
    exfalso. pose proof (Hall 0%nat i c eq_refl) as Hle. cbn in Hle.
    destruct (hit_ranges i c) as (_ & Hlow & _); [rewrite Hhits; left; reflexivity|].
    assert (Hbad : (0.85 <= 0)%Q) by (eapply Qle_trans; eassumption).
    revert Hbad. vm_compute. intros Hbad. apply Hbad. reflexivity.
  - destruct (hits command) as [|[i c] h] eqn:Hhits.
    + destruct Hwin as (Hk & _). rewrite lookup_nil in Hk. discriminate Hk.
    + exists k, intent, confidence. split; [exact Hres | exact Hwin].
Qed.

Lemma create_plan_intent :
  intent (create_plan command) = (parse_intent command).1.1 /\
  confidence (create_plan command) = (parse_intent command).1.2.
Proof.
  unfold create_plan. destruct (parse_intent command) as [[i c] e].
  destruct (build_steps command i e) as [l confirm]. split; reflexivity.
Qed.

Lemma matches_a_pattern_hits :
  Spec.matches_a_pattern command = true -> hits command <> [].
Proof.
  unfold Spec.matches_a_pattern. intros Hsome Hnone.
  apply existsb_exists in Hsome as ([i patterns] & Hentry & Hsome).
  apply existsb_exists in Hsome as ([pattern c] & Hin & Hfound). cbn [fst snd] in *.
  assert (Hhit : In (i, c) (hits command)).
  { apply hits_in_table. exists patterns, pattern. repeat split; assumption. }
  rewrite Hnone in Hhit. destruct Hhit.
Qed.

(** X10: the intent and the confidence of a plan go together. Either no
    pattern is found in the command, the intent is [unknown] and the
    confidence [0.0]; or a pattern is found, the intent is an intent of the
    table, never [unknown], and the confidence lies between 0.85 and 0.95. *)
Theorem create_plan_intent_and_confidence :
  (Spec.matches_a_pattern command = false /\
   intent (create_plan command) = "unknown" /\
   confidence (create_plan command) = 0%Q) \/
  (Spec.matches_a_pattern command = true /\
   intent (create_plan command) <> "unknown" /\
   In (intent (create_plan command)) (map fst _load_intent_patterns) /\
   (0.85 <= confidence (create_plan command))%Q /\
   (confidence (create_plan command) <= 0.95)%Q).
Proof.
  destruct create_plan_intent as [-> ->].
  destruct (Spec.matches_a_pattern command) eqn:Hmatch.
  - right. split; [reflexivity|].
    pose proof (matches_a_pattern_hits Hmatch) as Hhits.
    rewrite parse_intent_hits.
    destruct (fold_hit_wins (hits command) ("unknown", 0%Q, no_entities))
      as [[_ Hall]|(k & i & c & -> & (Hk & _) & _)].
    + exfalso. destruct (hits command) as [|[i c] h] eqn:Heq; [exact (Hhits eq_refl)|].
      pose proof (Hall 0%nat i c eq_refl) as Hle. cbn in Hle.
      destruct (hit_ranges i c) as (_ & Hlow & _); [rewrite Heq; left; reflexivity|].
      assert (Hbad : (0.85 <= 0)%Q) by (eapply Qle_trans; eassumption).
      revert Hbad. vm_compute. intros Hbad. apply Hbad. reflexivity.
    + cbn [fst snd].
      assert (Hin : In (i, c) (hits command))
        by (apply list_elem_of_In, list_elem_of_lookup; exists k; exact Hk).
      destruct (hit_ranges i c Hin) as (Hname & Hlow & Hhigh & Htable).
      repeat split; assumption.
  - left. split; [reflexivity|].
    rewrite (parse_intent_unknown command Hmatch). split; reflexivity.
Qed.

End BestIntent.

(** ** Planner: the shape of a plan *)

(** Every branch of [create_plan] builds at most one step, and asks for
    confirmation exactly when the executor counts the step as critical. *)
Lemma build_steps_cases command intent entities :
  build_steps command intent entities = ([], false) \/
  exists step confirm,
    build_steps command intent entities = ([step], confirm) /\
    confirm = Executor._is_critical_step step /\
    tool step <> "unknown" /\
    (confirm = true -> action step = "delete_file" \/ action step = "shutdown_system").
Proof.
  unfold build_steps.
  repeat match goal with
         | |- context [if String.eqb intent ?name then _ else _] =>
             destruct (String.eqb intent name)
         end;
    repeat match goal with
           | |- context [match ?o with Some _ => _ | None => _ end] => destruct o
           | |- context [if ?c then _ else _] => destruct c
           end;
    try (left; reflexivity);
    right; do 2 eexists; (split; [reflexivity|]); (split; [vm_compute; reflexivity|]);
    (split; [discriminate|]); cbn; try discriminate; auto.
Qed.

Lemma create_plan_cases command :
  exists step,
    steps (create_plan command) = [step] /\
    requires_confirmation (create_plan command) = Executor._is_critical_step step /\
    (tool step = "unknown" -> step = unknown_step command) /\
    (requires_confirmation (create_plan command) = true ->
     action step = "delete_file" \/ action step = "shutdown_system").
Proof.
  unfold create_plan. destruct (parse_intent command) as [[i c] e].
  destruct (build_steps_cases command i e)
    as [->|(step & confirm & -> & Hconfirm & Htool & Hactions)].
  - exists (unknown_step command). cbn.
    split; [reflexivity|]. split; [reflexivity|]. split; [reflexivity|]. discriminate.
  - exists step. cbn.
    split; [reflexivity|]. split; [exact Hconfirm|]. split; [|exact Hactions].
    intros Hunknown. destruct (Htool Hunknown).
Qed.

(** X11: a plan of [create_plan] has exactly one step, for every command;
    it is the unknown step, holding the command, whenever its tool is
    [unknown]. *)
Theorem create_plan_has_one_step :
  forall command,
    exists step,
      steps (create_plan command) = [step] /\
      (tool step = "unknown" ->
       step = unknown_step command /\
       Py.get (params step) "command" = Some (Py.VStr command)).
Proof.
  intros command. destruct (create_plan_cases command) as (step & Hsteps & _ & Hunknown & _).
  exists step. split; [exact Hsteps|].
  intros Htool. rewrite (Hunknown Htool). split; reflexivity.
Qed.

(** X12: the planner asks for confirmation exactly for the plans whose
    step the executor treats as critical, and these are the deletions of a
    file and the shutdowns; no plan holds [delete_folder] or [reboot]. *)
Theorem confirmation_for_critical_steps :
  forall command,
    exists step,
      steps (create_plan command) = [step] /\
      (requires_confirmation (create_plan command) = true <->
       action step ∈ Executor.critical_actions) /\
      (requires_confirmation (create_plan command) = true ->
       action step = "delete_file" \/ action step = "shutdown_system").
Proof.
  intros command. destruct (create_plan_cases command) as (step & Hsteps & Hconfirm & _ & Hactions).
  exists step. split; [exact Hsteps|]. split; [|exact Hactions].
  rewrite Hconfirm. unfold Executor._is_critical_step. apply bool_decide_eq_true.
Qed.

(** X13: on the planner's own plans [optimize_plan] changes nothing, so
    the pipeline of the API, which optimizes every plan it creates, runs the
    plan as created. *)
Theorem optimize_plan_of_create_plan :
  forall command, optimize_plan (create_plan command) = create_plan command.
Proof.
  intros command. destruct (create_plan_cases command) as (step & Hsteps & _).
  unfold optimize_plan. rewrite Hsteps. cbn [optimize_loop].
  destruct (decide (step_key step ∈ [])) as [Hin|_]; [inversion Hin|].
  rewrite <- Hsteps. destruct (create_plan command). reflexivity.
Qed.

Lemma optimize_loop_subseteq (l : list PlanStep) :
  forall seen, optimize_loop seen l ⊆ l /\ (length (optimize_loop seen l) <= length l)%nat.
Proof.
  induction l as [|x l IH]; intros seen; cbn [optimize_loop].
  - split; [reflexivity | lia].
  - destruct (decide (step_key x ∈ seen)).
    + destruct (IH seen) as [Hsub Hlen]. split; [|cbn; lia].
      intros y Hy. right. apply Hsub, Hy.
    + destruct (IH (step_key x :: seen)) as [Hsub Hlen]. split; [|cbn; lia].
      intros y Hy. apply elem_of_cons in Hy as [->|Hy]; [left | right; apply Hsub, Hy].
Qed.

(** X14: [optimize_plan] only removes steps. The intent, the confidence
    and the confirmation flag stay, every step left is a step of the plan,
    there are no more of them than before, and the first step of a plan is
    always kept, so that a plan with steps keeps some. *)
Theorem optimize_plan_only_removes :
  forall plan,
    intent (optimize_plan plan) = intent plan /\
    confidence (optimize_plan plan) = confidence plan /\
    requires_confirmation (optimize_plan plan) = requires_confirmation plan /\
    steps (optimize_plan plan) ⊆ steps plan /\
    (length (steps (optimize_plan plan)) <= length (steps plan))%nat /\
    steps (optimize_plan plan) !! 0%nat = steps plan !! 0%nat.
Proof.
  intros plan. unfold optimize_plan. cbn [intent confidence requires_confirmation steps].
  destruct (optimize_loop_subseteq (steps plan) []) as [Hsub Hlen].
  repeat split; [exact Hsub | exact Hlen |].
  destruct (steps plan) as [|x l]; [reflexivity|].
  cbn [optimize_loop]. destruct (decide (step_key x ∈ [])) as [Hin|_]; [inversion Hin|].
  reflexivity.
Qed.

(** ** Executor: registering and finding tools *)

Section ToolMap.
Import Tools.

Context {W : Type}.
Implicit Types (self : ExecutorAgent W) (s : System W).

Lemma tool_get_set (m : list (string * option (Tool W))) name v name' :
  tool_get (tool_set m name v) name'
  = if String.eqb name name' then v else tool_get m name'.
Proof.
  induction m as [|[n t] m IH]; cbn [tool_set tool_get].
  - destruct (String.eqb name name'); reflexivity.
  - destruct (String.eqb_spec n name) as [->|Hne]; cbn [tool_get].
    + destruct (String.eqb name name'); reflexivity.
    + rewrite IH. destruct (String.eqb_spec n name') as [->|Hne']; [|reflexivity].
      destruct (String.eqb_spec name name') as [->|_]; [destruct (Hne eq_refl) | reflexivity].
Qed.

(** X15: on a new executor the tools [workflow_engine] and [app_builder]
    are not set, and an action sent to one of them fails with [Tool not
    found] and changes nothing. [set_workflow_engine] and [set_app_builder]
    bind exactly their name: that tool is then found, every other name gives
    what it gave before. *)
Theorem late_tools_are_set_by_name
    (pc_actions file_actions android_bridge enterchat_connector : Tool W)
    self engine name action params s :
  let fresh := new_agent pc_actions file_actions android_bridge enterchat_connector in
  (forall late, late = "workflow_engine" \/ late = "app_builder" ->
     execute_single_action fresh late action params s
     = (failure ("Tool not found: " +:+ late), s)) /\
  tool_get (tool_map (set_workflow_engine self engine)) name
    = (if String.eqb "workflow_engine" name then engine else tool_get (tool_map self) name) /\
  tool_get (tool_map (set_app_builder self engine)) name
    = (if String.eqb "app_builder" name then engine else tool_get (tool_map self) name).
Proof.
  intros fresh. split; [|split].
  - intros late [-> | ->]; reflexivity.
  - apply tool_get_set.
  - apply tool_get_set.
Qed.

End ToolMap.

(** ** Executor: what a run tells *)

Section RunFacts.

Context {W : Type}.
Implicit Types (self : ExecutorAgent W) (s : System W).

Lemma all_succeeded (results : list StepResult) :
  forallb (fun r => Py.truthy (sr_success r)) results = true <->
  forall r, r ∈ results -> Py.truthy (sr_success r) = true.
Proof.
  rewrite forallb_forall. split; intros H r Hr; apply H, list_elem_of_In, Hr.
Qed.

(** X16: a successful run is a complete one. When [execute_plan] reports
    success, every step of the plan was run, every step result is a success,
    and the message counts all the steps. *)
Theorem success_means_all_steps_ran self plan s :
  success (execute_plan self plan s).1 = true ->
  length (step_results (execute_plan self plan s).1) = length (steps plan) /\
  (forall r, r ∈ step_results (execute_plan self plan s).1 ->
             Py.truthy (sr_success r) = true) /\
  message (execute_plan self plan s).1
    = "Successfully executed " +:+ Py.str_int (Z.of_nat (length (steps plan))) +:+ " steps".
Proof.
  rewrite execute_plan_unfold. cbn [fst success step_results message].
  destruct (execute_steps_results self (steps plan) 0 [] true s)
    as (new & Hres & _ & _ & _ & Hall & Hflag).
  cbn [app] in Hres. rewrite Hres, Hflag. cbn [andb]. intros Hok.
  assert (Hgood : forall r, r ∈ new -> Py.truthy (sr_success r) = true)
    by (apply all_succeeded, Hok).
  assert (Hlen : length new = length (steps plan)).
  { apply Hall. intros r Hr Hfailed. unfold step_failed in Hfailed.
    rewrite (Hgood r Hr) in Hfailed. discriminate Hfailed. }
  rewrite Hok, Hlen. repeat split. exact Hgood.
Qed.

Lemma summarize_steps_lookup (l : list PlanStep) :
  forall i j,
    summarize_steps i l !! j
    = (fun step => mkStepSummary (Z.of_nat (i + j) + 1) (description step) (tool step)
                     (action step) (params step) "~500ms") <$> (l !! j).
Proof.
  induction l as [|x l IH]; intros i j; [reflexivity|].
  destruct j as [|j]; cbn.
  - rewrite Nat.add_0_r. reflexivity.
  - rewrite IH. replace (S i + j)%nat with (i + S j)%nat by lia. reflexivity.
Qed.

(** X17: the listing of a dry run follows the plan: its entry [j] is for
    the step [j] of the plan, numbered [j + 1], with the description, the
    tool, the action and the parameters of that step and the fixed estimate
    of 500 ms; the total estimate is 500 ms per step. *)
Theorem dry_run_lists_the_plan self plan s j :
  dr_steps (dry_run self plan s).1 !! j
    = (fun step => mkStepSummary (Z.of_nat j + 1) (description step) (tool step)
                     (action step) (params step) "~500ms") <$> (steps plan !! j) /\
  dr_estimated_total_duration (dry_run self plan s).1
    = "~" +:+ Py.str_int (500 * Z.of_nat (length (dr_steps (dry_run self plan s).1)))
          +:+ "ms".
Proof.
  unfold dry_run. cbn [fst dr_steps dr_estimated_total_duration]. split.
  - apply (summarize_steps_lookup (steps plan) 0 j).
  - assert (Hlen : forall l i, length (summarize_steps i l) = length l).
    { induction l as [|x l IH]; intros i; [reflexivity|]. cbn. f_equal. apply IH. }
    rewrite Hlen, (Z.mul_comm 500). reflexivity.
Qed.

End RunFacts.

(** The plan of one screenshot succeeds on the demo executor. *)
Lemma success_means_all_steps_ran_witness :
  let plan := mkExecutionPlan "screenshot" [shot_step] 0.9%Q false in
  success (execute_plan demo_agent plan initial_system).1 = true /\
  message (execute_plan demo_agent plan initial_system).1 = "Successfully executed 1 steps".
Proof.
  intros plan.
  assert (Hok : success (execute_plan demo_agent plan initial_system).1 = true)
    by (vm_compute; reflexivity).
  split; [exact Hok|].
  rewrite (proj2 (proj2 (success_means_all_steps_ran demo_agent plan initial_system Hok))).
  reflexivity.
Defined.

(** ** Tools behind the permission check *)

Section GatedTools.
Import Tools.

Context {W : Type}.
Variable config : PermissionsConfig.
Variable os_remove : Py.value -> W -> os_result W.
Variable os_system : string -> W -> W.
Variable platform_system : string.
Variable type_error : Py.dict -> string.

Implicit Types (self : ExecutorAgent W) (s : System W).

(** The executor has the file tool, with this [delete_file]. *)
Let has_delete_file self : Prop :=
  exists t, tool_get (tool_map self) "file_actions" = Some t /\
            t "delete_file" = Some (delete_file config os_remove type_error).

(** The answer of the permission manager for a category. *)
Lemma check_permission_granted now category action risk_level params pm :
  (check_permission config now category action risk_level params pm).1.1
  = category_enabled config category && negb (asks_every_time config category).
Proof.
  unfold check_permission. rewrite permission_map_enabled, ask_every_time_map_asks.
  destruct (category_enabled config category), (asks_every_time config category);
    reflexivity.
Qed.

(** X18: a deletion that the permission manager does not grant (file
    access disabled, or asking every time) touches nothing outside the
    manager. Run as the first step of any plan it is refused with
    [Permission denied], the plan stops there with one step result and
    [success = False], the world is as before, and the permission manager is
    what [check_permission] for [FILES], [delete_file], [HIGH] and the path
    made of it. *)
Theorem refused_delete_file_stops_the_plan self path text rest intent confidence confirm s :
  has_delete_file self ->
  category_enabled config FILES = false \/ asks_every_time config FILES = true ->
  let step := mkPlanStep "file_actions" "delete_file" [("path", path)] text in
  let out := execute_plan self (mkExecutionPlan intent (step :: rest) confidence confirm) s in
  success out.1 = false /\
  (exists r, step_results out.1 = [r] /\ sr_result r = denied /\
             sr_action r = "delete_file") /\
  message out.1 = "Execution completed with 1 failures" /\
  world out.2 = world s /\
  permission_manager out.2
    = (check_permission config (clock s) FILES "delete_file" HIGH
         (Some [("path", path)]) (permission_manager s)).2.
Proof.
  intros (t & Htool & Hmethod) Hrefused step out. subst out step.
  rewrite execute_plan_unfold. cbn [steps execute_steps]. unfold _execute_step.
  cbn [tool action params]. rewrite Htool, Hmethod.
  unfold delete_file, _check_permission.
  rewrite check_permission_granted.
  assert (Hgrant : category_enabled config FILES && negb (asks_every_time config FILES) = false).
  { destruct Hrefused as [-> | ->]; [reflexivity | apply andb_false_r]. }
  rewrite Hgrant. cbn. repeat split. eexists. repeat split.
Qed.

(** X19: a granted deletion (file access enabled, not asking) hands the
    path to [os.remove]. If that succeeds the step succeeds and the world is
    the one [os.remove] left; if it raises, the world is unchanged, the step
    result carries the text of the exception and the run fails. Either way
    the audit log gets one [granted] entry and the queue is not touched. *)
Theorem granted_delete_file_calls_os_remove self path text intent confidence confirm s :
  has_delete_file self ->
  category_enabled config FILES = true ->
  asks_every_time config FILES = false ->
  let step := mkPlanStep "file_actions" "delete_file" [("path", path)] text in
  let out := execute_plan self (mkExecutionPlan intent [step] confidence confirm) s in
  (exists e, one_audit_entry "granted" (permission_manager s) (permission_manager out.2) e) /\
  pending_requests (permission_manager out.2) = pending_requests (permission_manager s) /\
  match os_remove path (world s) with
  | Done w => success out.1 = true /\ world out.2 = w
  | Failed error =>
      success out.1 = false /\ world out.2 = world s /\
      exists r, step_results out.1 = [r] /\
                Py.get (sr_result r) "message" = Some (Py.VStr error)
  end.
Proof.
  intros (t & Htool & Hmethod) Henabled Hasks step out. subst out step.
  rewrite execute_plan_unfold. cbn [steps execute_steps]. unfold _execute_step.
  cbn [tool action params]. rewrite Htool, Hmethod.
  unfold delete_file, _check_permission.
  rewrite check_permission_granted, Henabled, Hasks. cbn [andb negb].
  unfold check_permission.
  rewrite permission_map_enabled, ask_every_time_map_asks, Henabled, Hasks.
  cbn [negb fst snd set_permission_manager world log_agent_action].
  destruct (os_remove path (world s)) as [w|error]; cbn.
  - split; [eexists; split; reflexivity|]. repeat split.
  - split; [eexists; split; reflexivity|]. repeat split. eexists. repeat split.
Qed.

(** X20: [shutdown_system] asks the permission manager under the category
    [KEYBOARD_MOUSE], with the mode as parameter. Refused, it answers
    [Permission denied] and changes nothing else. Granted, on a platform
    other than Windows or with a mode that is none of the four it knows, it
    runs no command, leaves the world as it is, and still answers with
    [success] true. *)
Theorem shutdown_system_permission_and_platform kwargs s :
  shutdown_keywords kwargs = true ->
  let out := shutdown_system config os_system platform_system type_error kwargs s in
  let mode := Py.get_default kwargs "mode" (Py.VStr "shutdown") in
  let granted :=
    category_enabled config KEYBOARD_MOUSE && negb (asks_every_time config KEYBOARD_MOUSE) in
  permission_manager out.2
    = (check_permission config (clock s) KEYBOARD_MOUSE "shutdown_system" CRITICAL
         (Some [("mode", mode)]) (permission_manager s)).2 /\
  (granted = false -> out.1 = Returned denied /\ world out.2 = world s) /\
  (granted = true ->
   platform_system <> "Windows" \/
   (forall m, m ∈ ["shutdown"; "restart"; "sleep"; "hibernate"] -> mode <> Py.VStr m) ->
   world out.2 = world s /\
   exists text, out.1 = Returned [("success", Py.VBool true); ("message", Py.VStr text)]).
Proof.
  intros Hkeys out mode granted. subst out.
  unfold shutdown_system. rewrite Hkeys. cbn [negb]. fold mode.
  unfold _check_permission. rewrite check_permission_granted. fold granted.
  destruct granted; cbn [negb fst snd set_permission_manager permission_manager world].
  - split; [reflexivity|]. split; [discriminate|]. intros _ Hnone.
    split; [|eexists; reflexivity].
    destruct (String.eqb_spec platform_system "Windows") as [Hwin|_]; [|reflexivity].
    destruct Hnone as [Hother|Hmode]; [destruct (Hother Hwin)|].
    assert (Hstr : forall m, m ∈ ["shutdown"; "restart"; "sleep"; "hibernate"] ->
                             is_str mode m = false).
    { intros m Hm. destruct mode as [| | |text]; try reflexivity.
      cbn. destruct (String.eqb_spec text m) as [->|_]; [|reflexivity].
      destruct (Hmode m Hm eq_refl). }
    rewrite !Hstr by (repeat constructor). reflexivity.
  - split; [reflexivity|]. split; [|discriminate]. intros _. split; reflexivity.
Qed.

End GatedTools.

(** Asking every time: the plan for [remove file 'a.txt'] is refused, the
    file stays and the request waits in the queue. *)
Lemma refused_delete_file_stops_the_plan_witness :
  let out := execute_plan (Demo.agent true) (create_plan "remove file 'a.txt'") Demo.start in
  success out.1 = false /\ world out.2 = ["a.txt"; "b.txt"] /\
  length (pending_requests (permission_manager out.2)) = 1%nat.
Proof.
  assert (Hplan : create_plan "remove file 'a.txt'"
                  = mkExecutionPlan "delete_file"
                      [mkPlanStep "file_actions" "delete_file" [("path", Py.VStr "a.txt")]
                         "Delete file: a.txt"] 0.85%Q true)
    by (vm_compute; reflexivity).
  rewrite Hplan. cbv zeta.
  destruct (refused_delete_file_stops_the_plan (Demo.open_config true) Demo.remove
              Demo.no_type_error (Demo.agent true) (Py.VStr "a.txt") "Delete file: a.txt"
              [] "delete_file" 0.85%Q true Demo.start
              (ex_intro _ (Demo.file_tool true) (conj eq_refl eq_refl))
              (or_intror eq_refl))
    as (Hfail & _ & _ & Hworld & Hpm).
  split; [exact Hfail|]. split; [exact Hworld|]. rewrite Hpm. reflexivity.
Defined.

(** Not asking: the same plan removes the file. *)
Lemma granted_delete_file_calls_os_remove_witness :
  let out :=
    execute_plan (Demo.agent false)
      (mkExecutionPlan "delete_file"
         [mkPlanStep "file_actions" "delete_file" [("path", Py.VStr "a.txt")]
            "Delete file: a.txt"] 0.85%Q true)
      Demo.start in
  success out.1 = true /\ world out.2 = ["b.txt"].
Proof.
  cbv zeta.
  pose proof (granted_delete_file_calls_os_remove (Demo.open_config false) Demo.remove
                Demo.no_type_error (Demo.agent false) (Py.VStr "a.txt") "Delete file: a.txt"
                "delete_file" 0.85%Q true Demo.start
                (ex_intro _ (Demo.file_tool false) (conj eq_refl eq_refl))
                eq_refl eq_refl) as (_ & _ & Hrun).
  exact Hrun.
Defined.

(** On Linux, the planner's shutdown parameters: success is answered and
    the world has not changed. *)
Lemma shutdown_system_permission_and_platform_witness :
  let kwargs := [("mode", Py.VStr "shutdown"); ("delay", Py.VInt 60)] in
  let out :=
    Tools.shutdown_system (Demo.open_config false) Demo.run_command "Linux"
      Demo.no_type_error kwargs Demo.start in
  world out.2 = world Demo.start /\
  exists text, out.1 = Returned [("success", Py.VBool true); ("message", Py.VStr text)].
Proof.
  cbv zeta.
  apply (shutdown_system_permission_and_platform (Demo.open_config false) Demo.run_command
           "Linux" Demo.no_type_error
           [("mode", Py.VStr "shutdown"); ("delay", Py.VInt 60)] Demo.start eq_refl).
  - reflexivity.
  - left. discriminate.
Defined.

(** ** From the command to the run *)

Section Pipeline.

Context {W : Type}.
Implicit Types (self : ExecutorAgent W) (s : System W).

Lemma create_plan_unknown command :
  matches_a_pattern command = false ->
  optimize_plan (create_plan command)
  = mkExecutionPlan "unknown" [unknown_step command] 0%Q false.
Proof.
  intros Hmiss. unfold create_plan. rewrite (parse_intent_unknown command Hmiss).
  reflexivity.
Qed.

(** X21: a command that no pattern matches fails cleanly. Planned,
    optimized and executed on an executor without a tool called [unknown],
    it gives [success = False] with the one step result [Tool not found:
    unknown]; no handler runs, so the world and the permission manager are
    as before, and the usage table gets one row, for the intent [unknown]. *)
Theorem unknown_command_fails_cleanly self command s :
  matches_a_pattern command = false ->
  tool_get (tool_map self) "unknown" = None ->
  let out := execute_plan self (optimize_plan (create_plan command)) s in
  success out.1 = false /\
  (exists r, step_results out.1 = [r] /\
             sr_result r = failure "Tool not found: unknown") /\
  message out.1 = "Execution completed with 1 failures" /\
  world out.2 = world s /\
  permission_manager out.2 = permission_manager s /\
  exists duration,
    usage_stats out.2
    = usage_stats s ++ [mkUsageRecord "unknown" "ExecutorAgent" false duration
                          [("steps", Py.VInt 1)]].
Proof.
  intros Hmiss Htool out. subst out.
  rewrite (create_plan_unknown command Hmiss), execute_plan_unfold.
  cbn [steps execute_steps]. unfold _execute_step, unknown_step.
  cbn [tool action params]. rewrite !Htool. cbn.
  repeat split; eexists; repeat split.
Qed.

End Pipeline.

(** The demo executor has no tool of that name. *)
Lemma unknown_command_fails_cleanly_witness :
  let out :=
    execute_plan (Demo.agent true) (optimize_plan (create_plan "hello there")) Demo.start in
  success out.1 = false /\ world out.2 = world Demo.start.
Proof.
  cbv zeta.
  destruct (unknown_command_fails_cleanly (Demo.agent true) "hello there" Demo.start
              ltac:(vm_compute; reflexivity) eq_refl)
    as (Hfail & _ & _ & Hworld & _).
  split; assumption.
Defined.

(** ** API: changing a permission *)

Section UpdatePermission.
Import Api.

Variable str_exception : Z -> string -> string.
Implicit Types (store : ConfigStore) (p q : PermissionType).

(** X22: [update_permission] with the value of a permission type changes
    that category and no other. It answers [Permission updated]; the
    category is enabled as asked; its asking flag is the one sent, when one
    is sent and the category has such a flag; the flags of every other
    category are as before; the new permissions are saved, and the security
    log has one more line. *)
Theorem update_permission_changes_one_category p enabled ask_every_time store :
  let out := update_permission str_exception (PermissionType_value p) enabled
               ask_every_time store in
  out.1 = Ok "Permission updated" /\
  category_enabled (permissions out.2) p = enabled /\
  ask_flag (permissions out.2) p
    = match ask_flag (permissions store) p, ask_every_time with
      | None, _ => None
      | Some _, Some b => Some b
      | Some old, None => Some old
      end /\
  (forall q, q <> p ->
     category_enabled (permissions out.2) q = category_enabled (permissions store) q /\
     ask_flag (permissions out.2) q = ask_flag (permissions store) q) /\
  saved_permissions out.2 = Some (permissions out.2) /\
  length (security_log out.2) = S (length (security_log store)).
Proof.
  intros out. subst out.
  destruct p, ask_every_time as [b|]; cbn;
    (split; [reflexivity|]); (split; [reflexivity|]); (split; [reflexivity|]);
    (split; [|split; [reflexivity | rewrite length_app; cbn; lia]]);
    intros q Hq; destruct q; try (destruct (Hq eq_refl)); split; reflexivity.
Qed.

(** X23: a permission type that is the value of no category is not
    answered with the status 400 the code raises for it: the [raise] stands
    inside the [try], the handler for [Exception] catches it and the answer
    is status 500. Nothing is changed, saved or logged. *)
Theorem update_permission_unknown_type perm_type enabled ask_every_time store :
  (forall p, perm_type <> PermissionType_value p) ->
  update_permission str_exception perm_type enabled ask_every_time store
  = (HTTPException 500 (str_exception 400 "Invalid permission type"), store).
Proof.
  intros Hnone. unfold update_permission.
  destruct (String.eqb_spec perm_type "files") as [H|_]; [destruct (Hnone FILES H)|].
  destruct (String.eqb_spec perm_type "keyboard_mouse") as [H|_];
    [destruct (Hnone KEYBOARD_MOUSE H)|].
  destruct (String.eqb_spec perm_type "screen_capture") as [H|_];
    [destruct (Hnone SCREEN_CAPTURE H)|].
  destruct (String.eqb_spec perm_type "android") as [H|_]; [destruct (Hnone ANDROID H)|].
  destruct (String.eqb_spec perm_type "enterchat") as [H|_]; [destruct (Hnone ENTERCHAT H)|].
  destruct (String.eqb_spec perm_type "network") as [H|_]; [destruct (Hnone NETWORK H)|].
  destruct (String.eqb_spec perm_type "ai_remote") as [H|_]; [destruct (Hnone AI_REMOTE H)|].
  reflexivity.
Qed.

(** X24: the permission manager follows the API at once. After
    [update_permission] for a category, a check of that category is denied
    when it was disabled, asks for confirmation when it was enabled with the
    asking flag sent as true and the category has such a flag, and is granted
    when it was enabled with the flag sent as false, or for [NETWORK] and
    [AI_REMOTE], where the flag sent is ignored. *)
Theorem check_after_update_permission p enabled ask now action risk_level params pm store :
  let config :=
    permissions (update_permission str_exception (PermissionType_value p) enabled
                   (Some ask) store).2 in
  (check_permission config now p action risk_level params pm).1
  = if negb enabled then (false, Some (disabled_reason p))
    else match ask_flag config p with
         | Some _ => if ask then (false, Some confirmation_reason) else (true, None)
         | None => (true, None)
         end.
Proof.
  intros config. subst config. unfold check_permission.
  rewrite permission_map_enabled, ask_every_time_map_asks.
  destruct p, enabled, ask; reflexivity.
Qed.

End UpdatePermission.

(** The status endpoint calls the screen permission [screen]; the update
    endpoint does not know that name. *)
Lemma update_permission_unknown_type_witness :
  let str_exception := fun (status : Z) (detail : string) =>
                         Py.str_int status +:+ ": " +:+ detail in
  (Api.update_permission str_exception "screen" true None
     (Api.mkConfigStore default_permissions None [])).1
  = Api.HTTPException 500 "400: Invalid permission type".
Proof.
  intros str_exception.
  rewrite (update_permission_unknown_type str_exception "screen" true None
             (Api.mkConfigStore default_permissions None [])).
  - reflexivity.
  - intros p. destruct p; discriminate.
Defined.

(** ** API: running a command *)

Section ExecuteCommand.
Import Api.

Context {W : Type}.
Implicit Types (agent : ExecutorAgent W) (srv : Server W).

(** The plan the endpoint works on is the plan as created. *)
Lemma endpoint_plan command : optimize_plan (create_plan command) = create_plan command.
Proof.
  destruct (create_plan_cases command) as (step & Hsteps & _).
  unfold optimize_plan. rewrite Hsteps. cbn [optimize_loop].
  destruct (decide (step_key step ∈ [])) as [Hin|_]; [inversion Hin|].
  rewrite <- Hsteps. destruct (create_plan command). reflexivity.
Qed.

(** X25: [/api/command] never runs a critical action. A dry run, and a
    plan that requires confirmation, leave the server as it was: no handler
    is called, nothing is logged or stored. Every plan with a critical step
    requires confirmation, so a command planned as a deletion or a shutdown
    is answered with the request for confirmation and not executed. *)
Theorem execute_command_never_runs_critical agent command dry_run_flag srv :
  let plan := create_plan command in
  let out := execute_command agent command dry_run_flag srv in
  (dry_run_flag = true \/ requires_confirmation plan = true -> out.2 = srv) /\
  (dry_run_flag = false -> requires_confirmation plan = true ->
   out.1 = ConfirmationResponse (intent plan) (confidence plan)
             (map (fun step => (tool step, action step, description step)) (steps plan))
             "This action requires user confirmation") /\
  exists step,
    steps plan = [step] /\
    (action step ∈ critical_actions -> out.2 = srv).
Proof.
  intros plan out. subst plan out.
  assert (Hsame : dry_run_flag = true \/ requires_confirmation (create_plan command) = true ->
                  (execute_command agent command dry_run_flag srv).2 = srv).
  { intros Hskip. unfold execute_command. rewrite endpoint_plan.
    destruct dry_run_flag.
    - unfold dry_run. cbn. destruct srv. reflexivity.
    - destruct Hskip as [Hflag| ->]; [discriminate Hflag | reflexivity]. }
  split; [exact Hsame|]. split.
  - intros -> Hconfirm. unfold execute_command. rewrite endpoint_plan, Hconfirm. reflexivity.
  - destruct (create_plan_cases command) as (step & Hsteps & Hconfirm & _).
    exists step. split; [exact Hsteps|].
    intros Hcritical. apply Hsame. right. rewrite Hconfirm.
    unfold _is_critical_step. apply bool_decide_eq_true. exact Hcritical.
Qed.

(** One step, one step result. *)
Lemma one_step_one_result agent step intent confidence confirm s :
  length (step_results
            (execute_plan agent (mkExecutionPlan intent [step] confidence confirm) s).1)
  = 1%nat.
Proof.
  rewrite execute_plan_unfold. cbn [steps fst step_results].
  destruct (execute_steps_results agent [step] 0 [] true s)
    as (new & Hres & Hlen & Hat & _).
  cbn [app] in Hres. rewrite Hres. cbn [length] in Hlen.
  destruct new as [|r new]; [|cbn in *; lia].
  exfalso. revert Hres. cbn [execute_steps].
  destruct (_execute_step agent step _) as [result s2].
  destruct (negb _); [destruct (_is_critical_step step)|]; cbn; discriminate.
Qed.

(** X26: a command that is executed runs its one step and is recorded
    with its own text. When the request is no dry run and the plan needs no
    confirmation, the answer carries the outcome of [execute_plan] on the
    plan, with one step planned and one executed, and the conversation table
    gets one row with the command as typed, the message of the run, the
    intent and the confidence. *)
Theorem execute_command_runs_and_records agent command srv :
  requires_confirmation (create_plan command) = false ->
  let plan := create_plan command in
  let run := execute_plan agent plan (system srv) in
  let out := execute_command agent command false srv in
  out.1 = ExecutionResponse (success run.1) (message run.1) (intent plan) (confidence plan)
            1 (total_duration_ms run.1) 1 (step_results run.1) /\
  system out.2 = run.2 /\
  conversations out.2
    = conversations srv ++ [mkConversation command (message run.1) (intent plan)
                              (confidence plan)].
Proof.
  intros Hconfirm plan run out. subst plan run out.
  unfold execute_command. rewrite endpoint_plan, Hconfirm.
  destruct (create_plan_cases command) as (step & Hsteps & _).
  assert (Hone : length (step_results
                           (execute_plan agent (create_plan command) (system srv)).1)
                 = 1%nat).
  { destruct (create_plan command) as [i l c confirm]. cbn in Hsteps. subst l.
    apply one_step_one_result. }
  destruct (execute_plan agent (create_plan command) (system srv)) as [result s] eqn:Hrun.
  cbn [fst snd system conversations] in *. rewrite Hsteps, Hone. repeat split.
Qed.

End ExecuteCommand.

(** The greeting is executed, fails on the unknown tool, and is recorded
    as typed. *)
Lemma execute_command_runs_and_records_witness :
  let out :=
    Api.execute_command (Demo.agent true) "hello there" false (Api.mkServer Demo.start []) in
  Api.conversations out.2
  = [Api.mkConversation "hello there" "Execution completed with 1 failures" "unknown" 0%Q].
Proof.
  cbv zeta.
  rewrite (proj2 (proj2 (execute_command_runs_and_records (Demo.agent true) "hello there"
                           (Api.mkServer Demo.start []) ltac:(vm_compute; reflexivity)))).
  vm_compute. reflexivity.
Defined.

(** ** The matcher finds matches only *)

Section MatcherSound.
Import Re ReSpec.

(** Whatever [run] hands to its continuation is the end of a match. *)
Lemma run_sound (r : regex) :
  forall (A : Type) s c (k : string -> captures -> option A) x,
    run r s c k = Some x ->
    exists s' c', Matches r s s' c c' /\ k s' c' = Some x.
Proof.
  induction r as [|p|r1 IH1 r2 IH2|r1 IH1 r2 IH2|r1 IH1|n r1 IH1]; intros A s c k x Hrun;
    cbn [run] in Hrun.
  - exists s, c. split; [constructor | exact Hrun].
  - destruct s as [|a s]; [discriminate Hrun|].
    destruct (p a) eqn:Hp; [|discriminate Hrun].
    exists s, c. split; [constructor; exact Hp | exact Hrun].
  - apply IH1 in Hrun as (s1 & c1 & Hm1 & Hrun).
    apply IH2 in Hrun as (s2 & c2 & Hm2 & Hk).
    exists s2, c2. split; [econstructor; eassumption | exact Hk].
  - destruct (run r1 s c k) as [y|] eqn:Hleft.
    + injection Hrun as ->. apply IH1 in Hleft as (s' & c' & Hm & Hk).
      exists s', c'. split; [apply MAltL, Hm | exact Hk].
    + apply IH2 in Hrun as (s' & c' & Hm & Hk).
      exists s', c'. split; [apply MAltR, Hm | exact Hk].
  - revert Hrun. generalize (String.length s) as fuel. intros fuel. revert s c.
    induction fuel as [|fuel IHfuel]; intros s c Hrun.
    + exists s, c. split; [constructor | exact Hrun].
    + match type of Hrun with
      | match ?round with Some _ => _ | None => _ end = _ =>
          destruct round as [y|] eqn:Hround
      end.
      * injection Hrun as ->. apply IH1 in Hround as (s1 & c1 & Hm1 & Hnext).
        destruct (String.length s1 <? String.length s)%nat; [|discriminate Hnext].
        apply IHfuel in Hnext as (s2 & c2 & Hm2 & Hk).
        exists s2, c2. split; [econstructor; eassumption | exact Hk].
      * exists s, c. split; [constructor | exact Hrun].
  - apply IH1 in Hrun as (s' & c' & Hm & Hk).
    exists s', ((n, consumed s s') :: c'). split; [constructor; exact Hm | exact Hk].
Qed.

Lemma append_cons (a : ascii) (w s : string) : String a w +:+ s = String a (w +:+ s).
Proof. reflexivity. Qed.

Lemma append_assoc (u v w : string) : (u +:+ v) +:+ w = u +:+ (v +:+ w).
Proof.
  induction u as [|a u IH]; [reflexivity|].
  rewrite !append_cons, IH. reflexivity.
Qed.

(** A match reads a prefix. *)
Lemma Matches_prefix r s s' c c' :
  Matches r s s' c c' -> exists w, s = w +:+ s'.
Proof.
  induction 1 as [s c|p a s c Hp|r1 r2 s s1 s2 c c1 c2 _ [w1 ->] _ [w2 ->]
                  |r1 r2 s s' c c' _ IH|r1 r2 s s' c c' _ IH|r s c
                  |r s s1 s2 c c1 c2 _ [w1 ->] _ [w2 ->]|n r s s' c c' _ IH].
  - exists "". reflexivity.
  - exists (String a ""). reflexivity.
  - exists (w1 +:+ w2). symmetry. apply append_assoc.
  - exact IH.
  - exact IH.
  - exists "". reflexivity.
  - exists (w1 +:+ w2). symmetry. apply append_assoc.
  - exact IH.
Qed.

Lemma length_append (w s : string) :
  String.length (w +:+ s) = (String.length w + String.length s)%nat.
Proof.
  induction w as [|a w IH]; [reflexivity|].
  rewrite append_cons. cbn [String.length]. rewrite IH. reflexivity.
Qed.

Lemma substring_prefix (w s : string) : String.substring 0 (String.length w) (w +:+ s) = w.
Proof.
  induction w as [|a w IH].
  - destruct s; reflexivity.
  - rewrite append_cons. cbn [String.length String.substring]. rewrite IH. reflexivity.
Qed.

(** What was read before a suffix. *)
Lemma consumed_append (w s : string) : consumed (w +:+ s) s = w.
Proof.
  unfold consumed. rewrite length_append.
  replace (String.length w + String.length s - String.length s)%nat
    with (String.length w) by lia.
  apply substring_prefix.
Qed.

(** A run of characters of one class. *)
Lemma Matches_star_chr (p : ascii -> bool) s s' c c' :
  Matches (Star (Chr p)) s s' c c' ->
  c' = c /\ exists w, s = w +:+ s' /\ all_chars p w = true.
Proof.
  intros Hm. remember (Star (Chr p)) as r eqn:Hr.
  induction Hm as [| | | | |r0 s c|r0 s s1 s2 c c1 c2 Hround _ Hrest IH|];
    try discriminate Hr.
  - split; [reflexivity|]. exists "". split; reflexivity.
  - injection Hr as ->. inversion Hround as [|p' a t c0 Hp| | | | | |]; subst.
    destruct (IH eq_refl) as [-> (w & -> & Hall)].
    split; [reflexivity|]. exists (String a w). split; [reflexivity|].
    cbn. rewrite Hp, Hall. reflexivity.
Qed.

(** [re.search] returns a match of the pattern, with the groups it set. *)
Lemma search_from_sound r :
  forall s pos m,
    search_from r pos s = Some m ->
    exists before rest,
      s = before +:+ rest /\ Matches r rest (m_rest m) [] (m_groups m).
Proof.
  induction s as [|a s IH]; intros pos m Hsearch; cbn [search_from] in Hsearch.
  - destruct (run r "" [] _) as [[s' c]|] eqn:Hrun; [|discriminate Hsearch].
    injection Hsearch as <-. apply run_sound in Hrun as (s1 & c1 & Hm & Hk).
    injection Hk as <- <-. exists "", "". split; [reflexivity | exact Hm].
  - destruct (run r (String a s) [] _) as [[s' c]|] eqn:Hrun.
    + injection Hsearch as <-. apply run_sound in Hrun as (s1 & c1 & Hm & Hk).
      injection Hk as <- <-. exists "", (String a s). split; [reflexivity | exact Hm].
    + apply IH in Hsearch as (before & rest & -> & Hm).
      exists (String a before), rest. split; [reflexivity | exact Hm].
Qed.

End MatcherSound.

(** ** Planner: where a path comes from *)

Section QuotedPath.
Import Re ReSpec.

(** The path pattern captures quoted text. *)
Lemma path_pattern_sound command p :
  search_group1 path_pattern command = Some p -> quoted_in p command.
Proof.
  unfold search_group1, search.
  destruct (search_from path_pattern 0 command) as [m|] eqn:Hsearch; [|discriminate].
  intros Hgroup.
  apply search_from_sound in Hsearch as (before & rest & -> & Hm).
  destruct m as [start text groups after]. cbn [m_rest m_groups] in *.
  unfold path_pattern, quote, not_quote, plus in Hm.
  inversion Hm as [| |r1 r2 s0 s1 s2 c0 c1 c2 Hq1 Htail| | | | |]; subst.
  inversion Hq1 as [|f q1 t c Hquote1| | | | | |]; subst.
  inversion Htail as [| |r1 r2 s0 s3 s2 c0 c3 c2 Hgrp Hq2| | | | |]; subst.
  inversion Hq2 as [|f q2 t c Hquote2| | | | | |]; subst.
  inversion Hgrp as [| | | | | | |n r s0 s' c0 c4 Hplus]; subst.
  inversion Hplus as [| |r1 r2 s0 s5 s2 c0 c5 c2 Hfirst Hmore| | | | |]; subst.
  inversion Hfirst as [|f a t c Ha| | | | | |]; subst.
  apply Matches_star_chr in Hmore as [-> (w & -> & Hall)].
  cbn [group Nat.eqb] in Hgroup.
  change (String a (w +:+ String q2 after)) with (String a w +:+ String q2 after)
    in Hgroup.
  rewrite consumed_append in Hgroup. injection Hgroup as <-.
  split; [discriminate|]. split.
  - cbn. rewrite Ha, Hall. reflexivity.
  - exists before, q1, q2, after. repeat split; assumption.
Qed.

Lemma extract_entities_path command intent p :
  path (_extract_entities command intent) = Some p -> quoted_in p command.
Proof. unfold _extract_entities. cbn [path]. apply path_pattern_sound. Qed.

(** The entities of [parse_intent] are extracted from the command, for
    some intent, or there are none. *)
Lemma parse_intent_entities command :
  (parse_intent command).2 = no_entities \/
  exists intent, (parse_intent command).2 = _extract_entities command intent.
Proof.
  rewrite parse_intent_hits.
  destruct (fold_hit_wins command (PlanSpec.hits command) ("unknown", 0%Q, no_entities))
    as [[-> _]|(k & intent & confidence & -> & _)].
  - left. reflexivity.
  - right. exists intent. reflexivity.
Qed.

(** A parameter called [path] in a step that [build_steps] builds is the
    path entity, or the default name of a new file. *)
Lemma build_steps_path command intent entities step confirm v :
  build_steps command intent entities = ([step], confirm) ->
  Py.get (params step) "path" = Some v ->
  exists p, v = Py.VStr p /\
    (path entities = Some p \/ (action step = "create_file" /\ p = "new_file.txt")).
Proof.
  unfold build_steps, or_default.
  repeat match goal with
         | |- context [if String.eqb intent ?name then _ else _] =>
             destruct (String.eqb intent name)
         end;
    repeat match goal with
           | |- context [match ?o with Some _ => _ | None => _ end] => destruct o eqn:?
           | |- context [if ?c then _ else _] => destruct c
           end;
    intros Hbuilt; try discriminate Hbuilt; injection Hbuilt as <- <-;
    cbn; intros Hget; try discriminate Hget; injection Hget as <-;
    eexists; (split; [reflexivity|]); auto.
Qed.

(** X27: the planner never invents a path. A [path] parameter in a step
    of [create_plan] is text quoted in the command (not empty, free of
    quotes, between two quote characters of the command) or, for
    [create_file] only, the default [new_file.txt]; the path of a
    [delete_file] step is always quoted text of the command. *)
Theorem planned_path_is_quoted_text command step v :
  steps (create_plan command) = [step] ->
  Py.get (params step) "path" = Some v ->
  exists p, v = Py.VStr p /\
    (quoted_in p command \/ (action step = "create_file" /\ p = "new_file.txt")) /\
    (action step = "delete_file" -> quoted_in p command).
Proof.
  unfold create_plan.
  destruct (parse_intent_entities command) as [Hnone|(intent' & Hsome)];
    destruct (parse_intent command) as [[intent confidence] entities];
    cbn [snd] in *; subst entities;
    destruct (build_steps command intent _) as [[|built rest] confirm] eqn:Hbuilt;
    cbn [steps]; intros Hsteps Hget;
    try (injection Hsteps as <-; discriminate Hget);
    injection Hsteps as <- ->;
    destruct (build_steps_path _ _ _ _ _ _ Hbuilt Hget) as (p & -> & [Hpath|[Hcreate Hp]]);
    exists p; (split; [reflexivity|]).
  - discriminate Hpath.
  - split; [right; split; assumption|]. rewrite Hcreate. discriminate.
  - apply extract_entities_path in Hpath. split; [left; exact Hpath | intros _; exact Hpath].
  - split; [right; split; assumption|]. rewrite Hcreate. discriminate.
Qed.

Lemma all_chars_inside (f : ascii -> bool) (u : string) (a : ascii) (v : string) :
  all_chars f (u +:+ String a v) = true -> f a = true.
Proof.
  induction u as [|b u IH].
  - cbn. intros H. apply andb_true_iff in H as [Ha _]. exact Ha.
  - rewrite append_cons. cbn [all_chars]. intros H.
    apply andb_true_iff in H as [_ H]. exact (IH H).
Qed.

(** X28: a deletion without a quoted path is not planned as one. When the
    command is understood as [delete_file] but holds no quote character,
    no path is found, the plan is the single unknown step and asks for no
    confirmation, while its intent still reads [delete_file]. *)
Theorem delete_without_quoted_path command :
  intent (create_plan command) = "delete_file" ->
  all_chars (fun a => negb (is_quote a)) command = true ->
  steps (create_plan command) = [unknown_step command] /\
  requires_confirmation (create_plan command) = false.
Proof.
  intros Hintent Hplain.
  rewrite (proj1 (create_plan_intent command)) in Hintent.
  assert (Hpath : path (parse_intent command).2 = None).
  { destruct (path (parse_intent command).2) as [p|] eqn:Hp; [exfalso | reflexivity].
    assert (Hquoted : quoted_in p command).
    { destruct (parse_intent_entities command) as [Hnone|(i & Hsome)].
      - rewrite Hnone in Hp. discriminate Hp.
      - rewrite Hsome in Hp. exact (extract_entities_path command i p Hp). }
    destruct Hquoted as (_ & _ & before & q1 & q2 & after & Hcommand & Hq1 & _).
    rewrite Hcommand in Hplain. apply all_chars_inside in Hplain.
    rewrite Hq1 in Hplain. discriminate Hplain. }
  unfold create_plan.
  destruct (parse_intent command) as [[i c] e]. cbn [fst snd] in *. subst i.
  destruct e as [e_app e_path e_contact e_message e_numbers]. cbn [path] in Hpath.
  subst e_path. split; reflexivity.
Qed.

End QuotedPath.

(** The path of the planned removal of [test.txt] stands quoted in the
    command. *)
Lemma planned_path_is_quoted_text_witness :
  ReSpec.quoted_in "test.txt" remove_command.
Proof.
  destruct (planned_path_is_quoted_text remove_command
              (mkPlanStep "file_actions" "delete_file" [("path", Py.VStr "test.txt")]
                 "Delete file: test.txt")
              (Py.VStr "test.txt") ltac:(vm_compute; reflexivity) eq_refl)
    as (p & Hv & _ & Hdelete).
  injection Hv as <-. apply Hdelete. reflexivity.
Defined.

(** Hinglish word order, no quotes: understood as a deletion, planned as
    unknown. *)
Lemma delete_without_quoted_path_witness :
  intent (create_plan "file delete karo") = "delete_file" /\
  steps (create_plan "file delete karo") = [unknown_step "file delete karo"] /\
  requires_confirmation (create_plan "file delete karo") = false.
Proof.
  assert (Hintent : intent (create_plan "file delete karo") = "delete_file")
    by (vm_compute; reflexivity).
  split; [exact Hintent|].
  apply (delete_without_quoted_path "file delete karo" Hintent). reflexivity.
Defined.
